(** * Whisper Studio Deluxe: the transcription pipeline, embedded in Rocq

    The two programs of the repository, [webui.py] and [webui_deluxe.py],
    are translated function by function.  Everything the programs reach
    outside themselves (the file system, the clock, the child processes
    [ffprobe], [ffmpeg] and [whisper-cli], the downloader, the PDF library)
    is explicit: the file system and the clock are a state that is threaded
    through the code, and the capabilities are the fields of a record of
    oracles over that state.

    Conventions.
    - A Python [str] is the list of its code points.
    - A Python [float] is the rational it denotes; rounding to binary64 and
      the values [inf] and [nan] are outside the model.
    - A [Path] is the string that [str(path)] gives on a POSIX system.
    - [log] only prints to the terminal and is left out. *)

From Stdlib Require Import QArith Qround Qminmax Lqa DecimalString Ascii String.
From Stdlib Require Import DecimalPos DecimalZ.
From stdpp Require Import gmap list sorting.

Local Open Scope Z_scope.
Local Open Scope list_scope.

(* ===================================================================== *)
(** * Part I: definitions *)
(* ===================================================================== *)

(** ** Python strings and formatting *)

Module Py.

Abbreviation str := (list N).

(** Source literals are written in UTF-8; [utf8_decode] turns the bytes of
    a literal into code points. *)
Fixpoint utf8_decode (bs : list N) : str :=
  match bs with
  | [] => []
  | b :: rest =>
      if (b <? 128)%N then b :: utf8_decode rest
      else if (b <? 224)%N then
        match rest with
        | b1 :: rest1 => ((b - 192) * 64 + (b1 - 128))%N :: utf8_decode rest1
        | [] => []
        end
      else if (b <? 240)%N then
        match rest with
        | b1 :: b2 :: rest2 =>
            ((b - 224) * 4096 + (b1 - 128) * 64 + (b2 - 128))%N
              :: utf8_decode rest2
        | _ => []
        end
      else
        match rest with
        | b1 :: b2 :: b3 :: rest3 =>
            ((b - 240) * 262144 + (b1 - 128) * 4096 + (b2 - 128) * 64
             + (b3 - 128))%N :: utf8_decode rest3
        | _ => []
        end
  end.

Definition py (s : string) : str :=
  utf8_decode (map N_of_ascii (list_ascii_of_string s)).
Arguments py s%_string : simpl never.

(** [bool(s)] for a string: the empty string is falsy. *)
Definition truthy (s : str) : bool :=
  match s with [] => false | _ :: _ => true end.

(** [str.isspace] for one code point (the table of CPython's
    [_PyUnicode_IsWhitespace]). *)
Definition isspace (c : N) : bool :=
  (((9 <=? c) && (c <=? 13)) || ((28 <=? c) && (c <=? 32))
   || (c =? 133) || (c =? 160) || (c =? 5760)
   || ((8192 <=? c) && (c <=? 8202))
   || (c =? 8232) || (c =? 8233) || (c =? 8239) || (c =? 8287)
   || (c =? 12288))%N.

Fixpoint lstrip (s : str) : str :=
  match s with
  | [] => []
  | c :: s' => if isspace c then lstrip s' else s
  end.

Definition rstrip (s : str) : str := rev (lstrip (rev s)).

(** [s.strip()] *)
Definition strip (s : str) : str := rstrip (lstrip s).

(** [sep.join(parts)] *)
Fixpoint str_join (sep : str) (parts : list str) : str :=
  match parts with
  | [] => []
  | [p] => p
  | p :: rest => p ++ sep ++ str_join sep rest
  end.

(** [s.split(sep)] for a one-character separator. *)
Fixpoint split_on (sep : N) (s : str) : list str :=
  match s with
  | [] => [[]]
  | c :: s' =>
      if (c =? sep)%N then [] :: split_on sep s'
      else match split_on sep s' with
           | [] => [[c]]
           | w :: ws => (c :: w) :: ws
           end
  end.

(** [str(n)] for an [int]. *)
Definition str_of_Z (z : Z) : str :=
  map N_of_ascii (list_ascii_of_string (NilZero.string_of_int (Z.to_int z))).

Definition str_of_nat (n : nat) : str := str_of_Z (Z.of_nat n).

(** [f"{n:0{w}d}"] for a non-negative [n]: zeros on the left up to width
    [w], and no truncation when [n] has more digits. *)
Definition zfill (w : nat) (n : nat) : str :=
  let d := str_of_nat n in
  replicate (w - length d) 48%N ++ d.

(** [needle in hay] for strings. *)
Fixpoint is_prefix (p s : str) : bool :=
  match p, s with
  | [], _ => true
  | _ :: _, [] => false
  | a :: p', b :: s' => (a =? b)%N && is_prefix p' s'
  end.

Fixpoint contains (hay needle : str) : bool :=
  is_prefix needle hay ||
  match hay with
  | [] => false
  | _ :: hay' => contains hay' needle
  end.

Arguments str_of_Z : simpl never.
Arguments str_of_nat : simpl never.
Arguments zfill : simpl never.

End Py.
Import Py.

(** ** [pathlib] *)

Module Pathlib.

(** [p / name], for a relative [name]. *)
Definition joinpath (p name : str) : str := p ++ py "/" ++ name.

(** [Path(p).name]: the last component that is neither empty nor [.]. *)
Definition name (p : str) : str :=
  let parts :=
    filter (fun c => c <> [] /\ c <> py ".") (split_on 47%N p) in
  List.last parts [].

(** [p.with_suffix(suffix)], for a [p] whose last component has no dot:
    the only bases the program builds are [transcript_NNN] and [out]. *)
Definition with_suffix (p suffix : str) : str := p ++ suffix.

End Pathlib.

Notation "p // name" := (Pathlib.joinpath p name)
  (at level 40, left associativity).

(** ** The outside world: clock, file system, exceptions *)

(** [datetime.now()] *)
Record datetime := {
  year : nat; month : nat; day : nat;
  hour : nat; minute : nat; second : nat; microsecond : nat
}.

(** [t.strftime("%Y%m%d_%H%M%S")] *)
Definition strftime_run_id (t : datetime) : str :=
  zfill 4 (year t) ++ zfill 2 (month t) ++ zfill 2 (day t) ++ py "_"
  ++ zfill 2 (hour t) ++ zfill 2 (minute t) ++ zfill 2 (second t).

(** [t.strftime("%H:%M:%S")] *)
Definition strftime_hms (t : datetime) : str :=
  zfill 2 (hour t) ++ py ":" ++ zfill 2 (minute t) ++ py ":"
  ++ zfill 2 (second t).

(** The part of the world the program shares with its child processes:
    the directories and the regular files (a file is its decoded text),
    and the wall clock. *)
Record Env := {
  dirs : gset str;
  files : gmap str str;
  clock : datetime
}.

(** The exceptions the program raises or meets; all derive from
    [Exception].  [OSError] stands for its subclasses too
    ([FileNotFoundError], [FileExistsError], ...) and [LibraryError] for
    whatever a library raises ([yt_dlp], [fpdf], a decoding error). *)
Inductive exn :=
| RuntimeError (msg : str)
| CalledProcessError (cmd : list str) (returncode : Z)
| ValueError (msg : str)
| ZeroDivisionError
| OSError (msg : str)
| LibraryError (msg : str).

Inductive result (A : Type) :=
| Ok (a : A)
| Raise (e : exn).
Arguments Ok {A} a.
Arguments Raise {A} e.

(** What starting a child process and waiting for it gives: the call
    itself raises (the program is missing, the output cannot be decoded),
    or the child exits with a status and its two captured streams. *)
Inductive proc :=
| Raised (e : exn)
| Exited (returncode : Z) (stdout stderr : str).

(** ** The PDF library, as far as [make_pdf_from_text] drives it *)

Module Fpdf.

Local Open Scope Q_scope.

Inductive op :=
| AddPage
| SetFont (family style : str) (size : Z)
| Image (path : str) (x y w : Q)
| Ln (h : Q)
| Cell (w h : Q) (txt : str)
| MultiCell (w h : Q) (txt : str).

Record doc := {
  w : Q;
  l_margin : Q; t_margin : Q; r_margin : Q;
  b_margin : Q;
  fonts : list (str * str);
  ops : list op
}.

(** [FPDF()]: portrait A4 in millimetres, one centimetre margins. *)
Definition new : doc :=
  let k := (72 # 1) / (254 # 10) in
  let margin := (2835 # 100) / k in
  {| w := (59528 # 100) / k;
     l_margin := margin; t_margin := margin; r_margin := margin;
     b_margin := 2 * margin;
     fonts := []; ops := [] |}.

Definition set_margins (left top right : Q) (d : doc) : doc :=
  {| w := w d; l_margin := left; t_margin := top; r_margin := right;
     b_margin := b_margin d; fonts := fonts d; ops := ops d |}.

Definition set_auto_page_break (margin : Q) (d : doc) : doc :=
  {| w := w d; l_margin := l_margin d; t_margin := t_margin d;
     r_margin := r_margin d; b_margin := margin;
     fonts := fonts d; ops := ops d |}.

Definition register (family style : str) (d : doc) : doc :=
  {| w := w d; l_margin := l_margin d; t_margin := t_margin d;
     r_margin := r_margin d; b_margin := b_margin d;
     fonts := (family, style) :: fonts d; ops := ops d |}.

Definition emit (o : op) (d : doc) : doc :=
  {| w := w d; l_margin := l_margin d; t_margin := t_margin d;
     r_margin := r_margin d; b_margin := b_margin d;
     fonts := fonts d; ops := ops d ++ [o] |}.

(** The standard fonts every document knows without a font file. *)
Definition core_families : list str :=
  [py "Courier"; py "Helvetica"; py "Times"; py "Symbol"; py "ZapfDingbats"].

Definition known (family style : str) (d : doc) : bool :=
  bool_decide (family ∈ core_families)
  || bool_decide ((family, style) ∈ fonts d).

End Fpdf.

(** ** The capabilities the program calls but does not define *)

Record Externals := {
  (** [Path(__file__).parent] *)
  ROOT : str;
  (** [subprocess]: run the command to its end *)
  spawn : list str -> Env -> proc * Env;
  (** [yt_dlp]: [extract_info(url, download=True)] then
      [prepare_filename], under the given output template *)
  ydl_download : str -> str -> Env -> result str * Env;
  (** [tempfile.TemporaryDirectory()]: a fresh directory *)
  mkdtemp : Env -> str * Env;
  (** [float(s)]; [None] is [ValueError] *)
  float_of_str : str -> option Q;
  (** [f"{x:.1f}"] *)
  format_1f : Q -> str;
  (** [str(e)] for an exception that carries no message of the program *)
  describe : exn -> str;
  (** [textwrap.wrap(s, width=100, break_long_words=True,
      break_on_hyphens=False)] *)
  textwrap_wrap : str -> list str;
  (** whether [FPDF.add_font] can load the font file at a path *)
  ttf_loads : str -> Env -> bool;
  (** whether [FPDF.image] can load the image at a path *)
  image_loads : str -> Env -> bool;
  (** whether [FPDF.output] can write a path *)
  writable : str -> Env -> bool;
  (** the bytes [FPDF.output] writes for a document *)
  pdf_bytes : Fpdf.doc -> str
}.

(** ** The monad of the program: state and exceptions *)

(** One progress report: [progress(fraction, desc=...)]. *)
Abbreviation ProgressEvent := (Q * str)%type.

(** The state the program runs in: the shared environment, the progress
    reports received by the sink so far, and the command lines handed to
    [subprocess] so far. *)
Record World := {
  env : Env;
  events : list ProgressEvent;
  calls : list (list str)
}.

Definition M (A : Type) : Type := World -> result A * World.

Definition ret {A} (a : A) : M A := fun w => (Ok a, w).

Definition bind {A B} (m : M A) (k : A -> M B) : M B :=
  fun w =>
    match m w with
    | (Ok a, w') => k a w'
    | (Raise e, w') => (Raise e, w')
    end.

Definition raise {A} (e : exn) : M A := fun w => (Raise e, w).

(** [try: body except Exception as e: handler(e)] *)
Definition try_except {A} (body : M A) (handler : exn -> M A) : M A :=
  fun w =>
    match body w with
    | (Ok a, w') => (Ok a, w')
    | (Raise e, w') => handler e w'
    end.

#[global] Instance M_ret : MRet M := @ret.
#[global] Instance M_bind : MBind M := fun A B k m => bind m k.

Definition with_env (w : World) (e : Env) : World :=
  {| env := e; events := events w; calls := calls w |}.

(** [datetime.now()] *)
Definition now : M datetime := fun w => (Ok (clock (env w)), w).

(** Whether a path names a directory or a file. *)
Definition is_path (e : Env) (p : str) : bool :=
  bool_decide (p ∈ dirs e) || bool_decide (is_Some (files e !! p)).

(** [p.exists()] *)
Definition path_exists (p : str) : M bool :=
  fun w => (Ok (is_path (env w) p), w).

(** [p.mkdir(exist_ok=True)]: nothing happens when the directory is
    there, [FileExistsError] when a file has the name. *)
Definition mkdir_exist_ok (p : str) : M unit :=
  fun w =>
    if bool_decide (p ∈ dirs (env w)) then (Ok tt, w)
    else if bool_decide (is_Some (files (env w) !! p))
    then (Raise (OSError p), w)
    else (Ok tt,
          with_env w {| dirs := {[p]} ∪ dirs (env w);
                        files := files (env w);
                        clock := clock (env w) |}).

(** [p.read_text(encoding="utf-8", errors="ignore")] *)
Definition read_text (p : str) : M str :=
  fun w =>
    match files (env w) !! p with
    | Some c => (Ok c, w)
    | None => (Raise (OSError p), w)
    end.

(** The sink of progress reports; [present] is [if progress:]. *)
Definition progress (present : bool) (fraction : Q) (desc : str) : M unit :=
  fun w =>
    if present
    then (Ok tt, {| env := env w; events := events w ++ [(fraction, desc)];
                    calls := calls w |})
    else (Ok tt, w).

(** ** [subprocess] *)

Module Subprocess.

Section Calls.

Context (ext : Externals).

(** [subprocess.run(cmd, capture_output=True, text=True)]: the command
    line is noted, the child runs, and the environment is what the child
    leaves behind. *)
Definition run (cmd : list str) : M (Z * str * str) :=
  fun w =>
    let w1 := {| env := env w; events := events w;
                 calls := calls w ++ [cmd] |} in
    match spawn ext cmd (env w) with
    | (Raised e, e') => (Raise e, with_env w1 e')
    | (Exited rc out err, e') => (Ok (rc, out, err), with_env w1 e')
    end.

(** [subprocess.run(cmd, check=True)] *)
Definition run_check (cmd : list str) : M unit :=
  res ← run cmd;
  let '(rc, _, _) := res in
  if rc =? 0 then ret tt else raise (CalledProcessError cmd rc).

(** [subprocess.check_output(cmd, stderr=subprocess.STDOUT).decode()] *)
Definition check_output (cmd : list str) : M str :=
  res ← run cmd;
  let '(rc, out, _) := res in
  if rc =? 0 then ret out else raise (CalledProcessError cmd rc).

End Calls.

End Subprocess.

(** ** [webui_deluxe.py] *)

Module Deluxe.

Section Program.

Context (ext : Externals).

Definition WHISPER_BIN : str :=
  ROOT ext // py "build" // py "bin" // py "whisper-cli".
Definition MODEL_PATH : str := ROOT ext // py "models" // py "ggml-small.bin".
Definition OUTPUT_DIR : str := ROOT ext // py "outputs".

(** *** [get_media_duration_seconds] *)

Definition ffprobe_cmd (path : str) : list str :=
  [py "ffprobe"; py "-v"; py "error"; py "-show_entries";
   py "format=duration"; py "-of"; py "default=nw=1:nk=1"; path].

Definition get_media_duration_seconds (path : str) : M Q :=
  let cmd := ffprobe_cmd path in
  try_except
    (out ← Subprocess.check_output ext cmd;
     let out := strip out in
     match float_of_str ext out with
     | Some d => ret d
     | None => raise (ValueError out)
     end)
    (fun _ => ret 0%Q).

(** *** [extract_audio_if_needed] *)

Definition extract_audio_if_needed (path run_dir : str) : M str :=
  let audio_path := run_dir // py "audio.wav" in
  let cmd :=
    [py "ffmpeg"; py "-y"; py "-i"; path; py "-vn";
     py "-acodec"; py "pcm_s16le"; py "-ar"; py "16000"; py "-ac"; py "1";
     audio_path] in
  Subprocess.run_check ext cmd;;
  ret audio_path.

(** *** [split_long_audio] *)

Definition chunk_path (run_dir : str) (i : nat) : str :=
  run_dir // (py "chunk_" ++ zfill 3 i ++ py ".wav").

Definition ffmpeg_cut_cmd (audio_path : str) (start max_chunk_sec : Z)
    (out_path : str) : list str :=
  [py "ffmpeg"; py "-y"; py "-i"; audio_path;
   py "-ss"; str_of_Z start; py "-t"; str_of_Z max_chunk_sec;
   py "-acodec"; py "copy"; out_path].

(** The body of [for i in range(n_chunks)], over the indices still to do. *)
Fixpoint split_loop (audio_path run_dir : str) (max_chunk_sec : Z)
    (indices : list nat) (chunk_paths : list str) : M (list str) :=
  match indices with
  | [] => ret chunk_paths
  | i :: rest =>
      let start := Z.of_nat i * max_chunk_sec in
      let out_path := chunk_path run_dir i in
      let cmd := ffmpeg_cut_cmd audio_path start max_chunk_sec out_path in
      Subprocess.run_check ext cmd;;
      split_loop audio_path run_dir max_chunk_sec rest
        (chunk_paths ++ [out_path])
  end.

(** [math.ceil(duration / max_chunk_sec)] *)
Definition ceil_div (duration : Q) (max_chunk_sec : Z) : M Z :=
  if max_chunk_sec =? 0 then raise ZeroDivisionError
  else ret (Qceiling (duration / inject_Z max_chunk_sec)).

Definition split_long_audio (audio_path run_dir : str) (max_chunk_sec : Z)
    : M (list str) :=
  duration ← get_media_duration_seconds audio_path;
  if Qle_bool duration (inject_Z max_chunk_sec) || Qle_bool duration 0
  then ret [audio_path]
  else
    n_chunks ← ceil_div duration max_chunk_sec;
    split_loop audio_path run_dir max_chunk_sec
      (seq 0 (Z.to_nat n_chunks)) [].

(** *** [run_whisper] *)

(** [bool(language and language.strip())] *)
Definition language_given (language : option str) : bool :=
  match language with
  | None => false
  | Some l => truthy l && truthy (strip l)
  end.

(** The part of the command that [if language and language.strip()]
    adds. *)
Definition language_args (language : option str) : list str :=
  if language_given language
  then [py "-l"; strip (default [] language)]
  else [].

(** The command line of one engine invocation. *)
Definition whisper_cmd (chunk base : str) (language : option str)
    (make_srt make_json : bool) : list str :=
  [WHISPER_BIN; py "-m"; MODEL_PATH; py "-f"; chunk; py "-otxt";
   py "-of"; base]
  ++ language_args language
  ++ (if make_srt then [py "-osrt"] else [])
  ++ (if make_json then [py "-oj"] else []).

(** The four lists the loop of [run_whisper] fills. *)
Record collected := {
  full_text : list str;
  txt_files : list str;
  srt_files : list str;
  json_files : list str
}.

Definition transcript_base (run_dir : str) (idx : nat) : str :=
  run_dir // (py "transcript_" ++ zfill 3 idx).

(** [0.1 + 0.8 * (idx / max(n_chunks, 1))] *)
Definition chunk_fraction (idx n_chunks : nat) : Q :=
  (0.1 + 0.8 * (inject_Z (Z.of_nat idx)
                / inject_Z (Z.of_nat (Nat.max n_chunks 1))))%Q.

Definition chunk_label (idx n_chunks : nat) : str :=
  str_of_nat (idx + 1) ++ py "/" ++ str_of_nat n_chunks.

(** [f"Erreur WhisperCLI (chunk {idx+1}):\n{err}"] *)
Definition whisper_error (idx : nat) (err : str) : str :=
  py "Erreur WhisperCLI (chunk " ++ str_of_nat (idx + 1) ++ py "):"
  ++ [10%N] ++ err.

(** One round of [for idx, chunk in enumerate(chunks)]. *)
Definition whisper_step (run_dir : str) (language : option str)
    (make_srt make_json : bool) (reporting : bool) (n_chunks : nat)
    (idx : nat) (chunk : str) (acc : collected) : M collected :=
  let base := transcript_base run_dir idx in
  let cmd := whisper_cmd chunk base language make_srt make_json in
  progress reporting (chunk_fraction idx n_chunks)
    (py "Transcription chunk " ++ chunk_label idx n_chunks ++ py "...");;
  res ← Subprocess.run ext cmd;
  let '(returncode, stdout, stderr) := res in
  if negb (returncode =? 0) then
    let err := if truthy stderr then stderr else stdout in
    raise (RuntimeError (whisper_error idx err))
  else
    let txt_file := Pathlib.with_suffix base (py ".txt") in
    has_txt ← path_exists txt_file;
    acc ← (if (has_txt : bool)
           then (content ← read_text txt_file;
                 ret {| full_text := full_text acc ++ [content];
                        txt_files := txt_files acc ++ [txt_file];
                        srt_files := srt_files acc;
                        json_files := json_files acc |})
           else ret acc);
    let srt_file := Pathlib.with_suffix base (py ".srt") in
    has_srt ← path_exists srt_file;
    let acc :=
      if (has_srt : bool)
      then {| full_text := full_text acc; txt_files := txt_files acc;
              srt_files := srt_files acc ++ [srt_file];
              json_files := json_files acc |}
      else acc in
    let json_file := Pathlib.with_suffix base (py ".json") in
    has_json ← path_exists json_file;
    ret (if (has_json : bool)
         then {| full_text := full_text acc; txt_files := txt_files acc;
                 srt_files := srt_files acc;
                 json_files := json_files acc ++ [json_file] |}
         else acc).

Fixpoint whisper_loop (run_dir : str) (language : option str)
    (make_srt make_json : bool) (reporting : bool) (n_chunks : nat)
    (idx : nat) (chunks : list str) (acc : collected) : M collected :=
  match chunks with
  | [] => ret acc
  | chunk :: rest =>
      acc ← whisper_step run_dir language make_srt make_json reporting
              n_chunks idx chunk acc;
      whisper_loop run_dir language make_srt make_json reporting n_chunks
        (S idx) rest acc
  end.

(** What [run_whisper] returns. *)
Record whisper_result := {
  joined_text : str;
  res_txt_files : list str;
  res_srt_files : list str;
  res_json_files : list str;
  res_run_dir : str;
  res_duration : Q
}.

(** The lines of [run_whisper] before its loop: the working
    directory, the audio track, the duration and the chunks. *)
Definition prepare_chunks (input_file run_dir : str) (reporting : bool)
    : M (Q * list str) :=
  mkdir_exist_ok run_dir;;
  progress reporting 0.05%Q (py "Extraction audio...");;
  audio_path ← extract_audio_if_needed input_file run_dir;
  duration ← get_media_duration_seconds audio_path;
  chunks ← split_long_audio audio_path run_dir (2 * 3600);
  ret (duration, chunks).

Definition run_whisper (input_file : str) (language : option str)
    (make_srt make_json : bool) (run_id : str) (reporting : bool)
    : M whisper_result :=
  let run_dir := OUTPUT_DIR // run_id in
  prepared ← prepare_chunks input_file run_dir reporting;
  let '(duration, chunks) := prepared in
  let n_chunks := length chunks in
  acc ← whisper_loop run_dir language make_srt make_json reporting
          n_chunks 0 chunks
          {| full_text := []; txt_files := []; srt_files := [];
             json_files := [] |};
  let joined := str_join [10%N; 10%N] (full_text acc) in
  progress reporting 0.95%Q (py "Finalisation...");;
  ret {| joined_text := joined;
         res_txt_files := txt_files acc;
         res_srt_files := srt_files acc;
         res_json_files := json_files acc;
         res_run_dir := run_dir;
         res_duration := duration |}.

(** *** [make_pdf_from_text] *)

(** [pdf.add_font(family, style, fname, uni=True)] *)
Definition add_font (family style fname : str) (pdf : Fpdf.doc)
    : M Fpdf.doc :=
  fun w =>
    if ttf_loads ext fname (env w)
    then (Ok (Fpdf.register family style pdf), w)
    else (Raise (RuntimeError (py "TTF Font file not found: " ++ fname)), w).

(** [pdf.image(name, x, y, w)] *)
Definition image (name : str) (x y width : Q) (pdf : Fpdf.doc)
    : M Fpdf.doc :=
  fun w =>
    if image_loads ext name (env w)
    then (Ok (Fpdf.emit (Fpdf.Image name x y width) pdf), w)
    else (Raise (LibraryError name), w).

(** [pdf.set_font(family, style, size)]: a family that is neither
    standard nor registered is a [RuntimeError]. *)
Definition set_font (family style : str) (size : Z) (pdf : Fpdf.doc)
    : M Fpdf.doc :=
  if Fpdf.known family style pdf
  then ret (Fpdf.emit (Fpdf.SetFont family style size) pdf)
  else raise (RuntimeError (py "Undefined font: " ++ family ++ style)).

(** [pdf.output(name)] *)
Definition output (name : str) (pdf : Fpdf.doc) : M unit :=
  fun w =>
    if writable ext name (env w)
    then (Ok tt,
          with_env w {| dirs := dirs (env w);
                        files := <[name := pdf_bytes ext pdf]> (files (env w));
                        clock := clock (env w) |})
    else (Raise (OSError name), w).

(** [try: pdf.add_font(...) except Exception: pass] *)
Definition try_add_font (family style fname : str) (pdf : Fpdf.doc)
    : M Fpdf.doc :=
  try_except (add_font family style fname pdf) (fun _ => ret pdf).

(** [try: pdf.set_font("Roboto", style, size)
     except RuntimeError: pdf.set_font("Helvetica", style, size)] *)
Definition set_font_or_helvetica (style : str) (size : Z) (pdf : Fpdf.doc)
    : M Fpdf.doc :=
  try_except (set_font (py "Roboto") style size pdf)
    (fun e =>
       match e with
       | RuntimeError _ => set_font (py "Helvetica") style size pdf
       | _ => raise e
       end).

(** [for paragraph in text.split("\n")] *)
Fixpoint layout (effective_width : Q) (paragraphs : list str)
    (pdf : Fpdf.doc) : Fpdf.doc :=
  match paragraphs with
  | [] => pdf
  | paragraph :: rest =>
      let paragraph := strip paragraph in
      if negb (truthy paragraph)
      then layout effective_width rest (Fpdf.emit (Fpdf.Ln 4) pdf)
      else
        let wrapped_lines := textwrap_wrap ext paragraph in
        let pdf :=
          fold_left
            (fun pdf line =>
               Fpdf.emit (Fpdf.MultiCell effective_width 6 line) pdf)
            wrapped_lines pdf in
        layout effective_width rest (Fpdf.emit (Fpdf.Ln 2) pdf)
  end.

Definition make_pdf_from_text (text run_dir : str) : M str :=
  let pdf_path := run_dir // py "transcript.pdf" in
  let pdf := Fpdf.new in
  let pdf := Fpdf.set_margins 15 20 15 pdf in
  let pdf := Fpdf.set_auto_page_break 20 pdf in
  let pdf := Fpdf.emit Fpdf.AddPage pdf in
  let base_dir := ROOT ext in
  let font_dir := base_dir // py "fonts" in
  pdf ← try_add_font (py "Roboto") (py "")
          (font_dir // py "Roboto-Regular.ttf") pdf;
  pdf ← try_add_font (py "Roboto") (py "B")
          (font_dir // py "Roboto-Bold.ttf") pdf;
  pdf ← try_add_font (py "RobotoMono") (py "")
          (font_dir // py "RobotoMono-Regular.ttf") pdf;
  let logo_path := base_dir // py "logo.png" in
  has_logo ← path_exists logo_path;
  pdf ← (if (has_logo : bool)
         then (pdf ← image logo_path 15 15 30 pdf;
               ret (Fpdf.emit (Fpdf.Ln 30) pdf))
         else ret pdf);
  pdf ← set_font_or_helvetica (py "B") 14 pdf;
  let pdf := Fpdf.emit (Fpdf.Cell 0 10 (py "Transcription Whisper")) pdf in
  let pdf := Fpdf.emit (Fpdf.Ln 5) pdf in
  pdf ← set_font_or_helvetica (py "") 11 pdf;
  let effective_width :=
    (Fpdf.w pdf - Fpdf.l_margin pdf - Fpdf.r_margin pdf)%Q in
  let effective_width :=
    if Qle_bool effective_width 0 then 100%Q else effective_width in
  let pdf := layout effective_width (split_on 10%N text) pdf in
  output pdf_path pdf;;
  ret pdf_path.

(** *** [download_youtube_audio] *)

(** [with yt_dlp.YoutubeDL(ydl_opts) as ydl: ...] *)
Definition youtube_dl (url outtmpl : str) : M str :=
  fun w =>
    let '(downloaded, e') := ydl_download ext url outtmpl (env w) in
    (downloaded, with_env w e').

Definition download_youtube_audio (url run_id : str) : M str :=
  let run_dir := OUTPUT_DIR // run_id in
  mkdir_exist_ok run_dir;;
  let outtmpl := run_dir // py "yt_audio.%(ext)s" in
  youtube_dl url outtmpl.

(** *** [transcribe] *)

(** The seven values [transcribe] hands back to the interface. *)
Record outputs := {
  out_text : str;
  out_txt_file : option str;
  out_srt_file : option str;
  out_pdf_file : option str;
  out_json_file : option str;
  out_history : option (list str);
  out_history_md : str
}.

(** [return msg, None, None, None, None, history, ""] *)
Definition failed (msg : str) (history : option (list str)) : outputs :=
  {| out_text := msg;
     out_txt_file := None; out_srt_file := None; out_pdf_file := None;
     out_json_file := None;
     out_history := history; out_history_md := [] |}.

(** [str(e)] *)
Definition str_of_exn (e : exn) : str :=
  match e with
  | RuntimeError msg => msg
  | _ => describe ext e
  end.

(** [bool(youtube_url and youtube_url.strip())] *)
Definition url_given (youtube_url : option str) : bool :=
  match youtube_url with
  | None => false
  | Some u => truthy u && truthy (strip u)
  end.

(** [bool(media_file)] *)
Definition file_given (media_file : option str) : bool :=
  match media_file with
  | None => false
  | Some f => truthy f
  end.

(** The estimate shown before the transcript. *)
Definition estimation_text (duration : Q) : str :=
  if Qle_bool duration 0 then []
  else
    let est_factor := 0.7%Q in
    let est_time := (duration * est_factor)%Q in
    let est_min := Qfloor (est_time / 60) in
    let est_sec := Qfloor (est_time - 60 * inject_Z est_min) in
    py "(Durée audio ~ " ++ format_1f ext (duration / 60)
    ++ py " min, temps de traitement estimé ~ " ++ str_of_Z est_min
    ++ py " min " ++ str_of_Z est_sec ++ py " s)" ++ [10%N; 10%N].

(** [history = history or []; history.insert(0, entry);
     history = history[:10]] *)
Definition record_history (history : option (list str)) (entry : str)
    : list str :=
  take 10 (entry :: default [] history).

Definition history_entry (t : datetime) (source_desc run_id : str) : str :=
  py "- " ++ strftime_hms t ++ py " · " ++ source_desc ++ py " · id="
  ++ run_id.

(** The [try] block from the call of [run_whisper] to its [return]. *)
Definition transcribe_run (source_desc input_path : str)
    (language : option str) (make_srt make_json make_pdf : bool)
    (history : option (list str)) (run_id : str) : M outputs :=
  r ← run_whisper input_path language make_srt make_json run_id true;
  let text := joined_text r in
  let estimation := estimation_text (res_duration r) in
  pdf_file ← (if make_pdf
              then (p ← make_pdf_from_text text (res_run_dir r);
                    ret (Some p))
              else ret None);
  let txt_file_out := head (res_txt_files r) in
  let srt_file_out := head (res_srt_files r) in
  let json_file_out := head (res_json_files r) in
  t ← now;
  let history := record_history history (history_entry t source_desc run_id) in
  let history_md := str_join [10%N] history in
  progress true 1.0%Q (py "Terminé ✅");;
  ret {| out_text :=
           estimation
           ++ (if truthy text then text else py "(Transcription vide)");
         out_txt_file := txt_file_out;
         out_srt_file := srt_file_out;
         out_pdf_file := pdf_file;
         out_json_file := json_file_out;
         out_history := Some history;
         out_history_md := history_md |}.

(** The [if]/[elif]/[else] that finds the input: the description of
    the source and the path of the input, or nothing when neither a URL
    nor a file was given. *)
Definition resolve_input (media_file youtube_url : option str)
    (run_id : str) : M (option (str * str)) :=
  if url_given youtube_url then
    let url := strip (default [] youtube_url) in
    let source_desc := py "YouTube: " ++ url in
    progress true 0.05%Q (py "Téléchargement YouTube...");;
    input_path ← download_youtube_audio url run_id;
    ret (Some (source_desc, input_path))
  else if file_given media_file then
    let media_file := default [] media_file in
    let source_desc := py "Fichier upload: " ++ Pathlib.name media_file in
    let input_path := media_file in
    ret (Some (source_desc, input_path))
  else ret None.

(** The whole [try] block. *)
Definition transcribe_try (media_file youtube_url language : option str)
    (make_srt make_json make_pdf : bool) (history : option (list str))
    (run_id : str) : M outputs :=
  progress true 0.01%Q (py "Préparation...");;
  input ← resolve_input media_file youtube_url run_id;
  match input with
  | Some (source_desc, input_path) =>
      transcribe_run source_desc input_path language make_srt make_json
        make_pdf history run_id
  | None => ret (failed (py "Aucun fichier ni URL fournie.") history)
  end.

Definition transcribe (media_file youtube_url language : option str)
    (make_srt make_json make_pdf : bool) (history : option (list str))
    : M outputs :=
  has_bin ← path_exists WHISPER_BIN;
  if negb has_bin
  then ret (failed (py "Binaire introuvable : " ++ WHISPER_BIN) history)
  else
    has_model ← path_exists MODEL_PATH;
    if negb has_model
    then ret (failed (py "Modèle introuvable : " ++ MODEL_PATH) history)
    else
      t ← now;
      let run_id := strftime_run_id t in
      try_except
        (transcribe_try media_file youtube_url language make_srt make_json
           make_pdf history run_id)
        (fun e =>
           let err := py "Erreur pendant le traitement : " ++ str_of_exn e in
           ret (failed err history)).

End Program.

End Deluxe.

(** ** [webui.py] *)

Module Webui.

Section Program.

Context (ext : Externals).

Definition WHISPER_BIN : str :=
  ROOT ext // py "build" // py "bin" // py "whisper-cli".
Definition MODEL_PATH : str := ROOT ext // py "models" // py "ggml-small.bin".

(** [bool(language and language.strip())] *)
Definition language_given (language : option str) : bool :=
  match language with
  | None => false
  | Some l => truthy l && truthy (strip l)
  end.

Definition language_args (language : option str) : list str :=
  if language_given language
  then [py "-l"; strip (default [] language)]
  else [].

(** The command line of the one engine invocation. *)
Definition whisper_cmd (audio_file base : str) (language : option str)
    (make_srt : bool) : list str :=
  [WHISPER_BIN; py "-m"; MODEL_PATH; py "-f"; audio_file; py "-otxt";
   py "-of"; base]
  ++ language_args language
  ++ (if make_srt then [py "-osrt"] else []).

(** Leaving [with tempfile.TemporaryDirectory()]: the directory and all
    that is below it are removed. *)
Definition cleanup (tmpdir : str) : M unit :=
  fun w =>
    (Ok tt,
     with_env w
       {| dirs := filter (fun d => d <> tmpdir
                                   /\ is_prefix (tmpdir ++ py "/") d = false)
                    (dirs (env w));
          files := filter (fun kv => is_prefix (tmpdir ++ py "/") kv.1 = false)
                     (files (env w));
          clock := clock (env w) |}).

(** [with tempfile.TemporaryDirectory() as tmpdir: body] *)
Definition with_temporary_directory {A} (body : str -> M A) : M A :=
  fun w =>
    let '(tmpdir, e1) := mkdtemp ext (env w) in
    match body tmpdir (with_env w e1) with
    | (r, w2) => (r, snd (cleanup tmpdir w2))
    end.

(** The [try] around [subprocess.run(cmd, check=True,
    capture_output=True)] hands back the streams of a failed child; after
    it the text file is read. *)
Definition transcribe_in (audio_file : str) (language : option str)
    (make_srt : bool) (tmpdir : str) : M str :=
  let base := tmpdir // py "out" in
  let cmd := whisper_cmd audio_file base language make_srt in
  res ← Subprocess.run ext cmd;
  let '(returncode, stdout, stderr) := res in
  if negb (returncode =? 0)
  then ret (if truthy stderr then stderr else stdout)
  else
    let txt_file := Pathlib.with_suffix base (py ".txt") in
    has_txt ← path_exists txt_file;
    if negb has_txt
    then ret (py "La transcription n'a pas été générée.")
    else read_text txt_file.

Definition transcribe (audio_file language : option str) (make_srt : bool)
    : M str :=
  match audio_file with
  | None | Some [] => ret (py "Aucun fichier audio fourni.")
  | Some audio_file =>
      has_bin ← path_exists WHISPER_BIN;
      if negb has_bin
      then ret (py "Binaire introuvable : " ++ WHISPER_BIN)
      else
        has_model ← path_exists MODEL_PATH;
        if negb has_model
        then ret (py "Modèle introuvable : " ++ MODEL_PATH)
        else
          with_temporary_directory
            (transcribe_in audio_file language make_srt)
  end.

End Program.

End Webui.

(** ** A small concrete world, for the examples *)

Module Fixture.

(** Decimal numerals [ddd] and [ddd.ddd], which is what [ffprobe]
    prints. *)
Definition digit (c : N) : option Z :=
  if ((48 <=? c) && (c <=? 57))%N then Some (Z.of_N (c - 48)) else None.

Fixpoint digits (s : str) (acc : Z) : option Z :=
  match s with
  | [] => Some acc
  | c :: s' =>
      match digit c with
      | Some d => digits s' (acc * 10 + d)
      | None => None
      end
  end.

Definition parse_decimal (s : str) : option Q :=
  match split_on 46%N s with
  | [i] =>
      if truthy i then inject_Z <$> digits i 0 else None
  | [i; f] =>
      if truthy i && truthy f then
        match digits i 0, digits f 0 with
        | Some zi, Some zf =>
            Some (inject_Z zi
                  + inject_Z zf / inject_Z (10 ^ Z.of_nat (length f)))%Q
        | _, _ => None
        end
      else None
  | _ => None
  end.

(** One decimal, rounding half up, for a non-negative number. *)
Definition one_decimal (q : Q) : str :=
  let tenths := Qfloor (q * 10 + (1 # 2))%Q in
  str_of_Z (tenths / 10) ++ py "." ++ str_of_Z (tenths mod 10).

(** What the scripted engine does for an output base. *)
Inductive behaviour :=
| Produces (txt : option str)
| Crashes (returncode : Z) (stderr : str).

Fixpoint assoc (k : str) (l : list (str * behaviour)) : option behaviour :=
  match l with
  | [] => None
  | (k', b) :: l' => if decide (k = k') then Some b else assoc k l'
  end.

Definition write (p content : str) (e : Env) : Env :=
  {| dirs := dirs e; files := <[p := content]> (files e); clock := clock e |}.

Definition remove (p : str) (e : Env) : Env :=
  {| dirs := dirs e; files := delete p (files e); clock := clock e |}.

Definition content (p : option str) (e : Env) : str :=
  default [] (p ≫= fun p => files e !! p).

(** The children.  [ffprobe] prints [probe_out].  [ffmpeg] copies what
    its input (after [-i]) holds to its last argument.  Anything else is
    the engine: it follows the script for the base given after [-of],
    and without an entry there it writes to the text file what the chunk
    (after [-f]) holds, a file standing for the words spoken in it. *)
Definition children (probe_out : str) (script : list (str * behaviour))
    (cmd : list str) (e : Env) : proc * Env :=
  match cmd with
  | [] => (Raised (OSError []), e)
  | prog :: args =>
      if decide (prog = py "ffprobe") then (Exited 0 probe_out [], e)
      else if decide (prog = py "ffmpeg")
      then (Exited 0 [] [],
            write (List.last args []) (content (cmd !! 3%nat) e) e)
      else
        match cmd !! 7%nat with
        | None => (Exited 2 [] (py "usage"), e)
        | Some base =>
            match assoc base script with
            | Some (Produces (Some t)) =>
                (Exited 0 [] [], write (base ++ py ".txt") t e)
            | Some (Produces None) =>
                (Exited 0 [] [], remove (base ++ py ".txt") e)
            | Some (Crashes rc err) => (Exited rc [] err, e)
            | None =>
                (Exited 0 [] [],
                 write (base ++ py ".txt") (content (cmd !! 4%nat) e) e)
            end
        end
  end.

Definition externals (probe_out : str) (script : list (str * behaviour))
    (logo_loads : bool) : Externals :=
  {| ROOT := py "/app";
     spawn := children probe_out script;
     ydl_download := fun url outtmpl e =>
       (Raise (LibraryError (py "Unsupported URL: " ++ url)), e);
     mkdtemp := fun e =>
       (py "/tmp/tmp0",
        {| dirs := {[py "/tmp/tmp0"]} ∪ dirs e; files := files e;
           clock := clock e |});
     float_of_str := parse_decimal;
     format_1f := one_decimal;
     describe := fun e =>
       match e with
       | RuntimeError m | ValueError m | OSError m | LibraryError m => m
       | CalledProcessError _ _ => py "non-zero exit status"
       | ZeroDivisionError => py "float division by zero"
       end;
     textwrap_wrap := fun s => [s];
     ttf_loads := fun p e => bool_decide (is_Some (files e !! p));
     image_loads := fun _ _ => logo_loads;
     writable := fun _ _ => true;
     pdf_bytes := fun _ => py "%PDF-1.3" |}.

Definition at_time (s us : nat) : datetime :=
  {| year := 2024; month := 1; day := 2; hour := 3; minute := 4;
     second := s; microsecond := us |}.

(** The installation: binary, model and output directory in place, two
    uploaded files. *)
Definition installed (t : datetime) : Env :=
  {| dirs := {[py "/app/outputs"]};
     files := {[py "/app/build/bin/whisper-cli" := [];
                py "/app/models/ggml-small.bin" := [];
                py "/in/talk.mp3" := py "bonjour";
                py "/in/song.mp3" := py "la la la"]};
     clock := t |}.

Definition start (e : Env) : World :=
  {| env := e; events := []; calls := [] |}.


(** What a run returned, if it returned. *)
Definition value {A} (r : result A * World) : option A :=
  match fst r with
  | Ok a => Some a
  | Raise _ => None
  end.

Definition world {A} (r : result A * World) : World := snd r.

Definition run_dir_5 : str := py "/app/outputs/20240102_030405".

(** Two and a half hours of audio; the first chunk is transcribed and the
    engine breaks on the second. *)
Definition breaks_on_second : Externals :=
  externals (py "9000.000000")
    [(run_dir_5 ++ py "/transcript_000", Produces (Some (py "hello")));
     (run_dir_5 ++ py "/transcript_001", Crashes 1 (py "boom"))]
    true.

(** The same audio; both chunks are transcribed, the second to no text
    file. *)
Definition two_chunks : Externals :=
  externals (py "9000.000000")
    [(run_dir_5 ++ py "/transcript_000", Produces (Some (py "hello")));
     (run_dir_5 ++ py "/transcript_001", Produces None)]
    true.

(** Short files, each transcribed in one piece to what it holds. *)
Definition short : Externals := externals (py "12.500000") [] true.


(** The same with a probe that does not know the duration. *)
Definition unknown_duration : Externals := externals (py "N/A") [] true.


Definition talk : option str := Some (py "/in/talk.mp3").
Definition song : option str := Some (py "/in/song.mp3").



(** The stages of a run that starts at 03:04:05 in the installation. *)
Section Stages.

Context (ext : Externals) (media_file youtube_url language : option str)
  (make_srt make_json : bool).

Definition w_start : World := start (installed (at_time 5 0)).

Definition run_dir : str :=
  Deluxe.OUTPUT_DIR ext // strftime_run_id (clock (env w_start)).

Definition resolved : result (option (str * str)) * World :=
  Deluxe.resolve_input ext media_file youtube_url
    (strftime_run_id (clock (env w_start)))
    (snd (progress true 0.01%Q (py "Préparation...") w_start)).

Definition prepared (input_path : str) : result (Q * list str) * World :=
  Deluxe.prepare_chunks ext input_path run_dir true (snd resolved).

Definition no_texts : Deluxe.collected :=
  {| Deluxe.full_text := []; Deluxe.txt_files := [];
     Deluxe.srt_files := []; Deluxe.json_files := [] |}.

(** The first [k] rounds of the loop. *)
Definition rounds (input_path : str) (chunks : list str) (k : nat)
    : result Deluxe.collected * World :=
  Deluxe.whisper_loop ext run_dir language make_srt make_json true
    (length chunks) 0 (take k chunks) no_texts (snd (prepared input_path)).

End Stages.

Definition audio_5 : str := run_dir_5 ++ py "/audio.wav".

Definition two_paths : list str :=
  [run_dir_5 ++ py "/chunk_000.wav"; run_dir_5 ++ py "/chunk_001.wav"].

Definition hello_collected : Deluxe.collected :=
  {| Deluxe.full_text := [py "hello"];
     Deluxe.txt_files := [run_dir_5 ++ py "/transcript_000.txt"];
     Deluxe.srt_files := []; Deluxe.json_files := [] |}.

(** Nine thousand seconds, as the decimal parser reads them. *)
Definition nine_thousand : Q :=
  (inject_Z 9000 + inject_Z 0 / inject_Z (10 ^ 6))%Q.

(** Eleven history entries, the oldest first. *)
Definition eleven : list str := map str_of_nat (seq 1 11).

(** A long upload whose second chunk breaks the engine. *)
Definition broken_run : result Deluxe.outputs * World :=
  Deluxe.transcribe breaks_on_second talk None (Some (py "fr")) true false
    true None (start (installed (at_time 5 0))).

(** The same capabilities with an [ffmpeg] that exits with 1 and writes
    nothing when its last argument is [target]. *)
Definition ffmpeg_breaks_on (target : str) (ext : Externals) : Externals :=
  {| ROOT := ROOT ext;
     spawn := fun cmd e =>
       if bool_decide (cmd !! 0%nat = Some (py "ffmpeg")
                       /\ List.last cmd [] = target)
       then (Exited 1 [] (py "Invalid data found"), e)
       else spawn ext cmd e;
     ydl_download := ydl_download ext;
     mkdtemp := mkdtemp ext;
     float_of_str := float_of_str ext;
     format_1f := format_1f ext;
     describe := describe ext;
     textwrap_wrap := textwrap_wrap ext;
     ttf_loads := ttf_loads ext;
     image_loads := image_loads ext;
     writable := writable ext;
     pdf_bytes := pdf_bytes ext |}.

(** An upload no audio can be extracted from. *)
Definition no_extraction : Externals := ffmpeg_breaks_on audio_5 short.

(** Two and a half hours of audio whose second cut fails. *)
Definition breaks_on_second_cut : Externals :=
  ffmpeg_breaks_on (run_dir_5 ++ py "/chunk_001.wav") two_chunks.

(** A URL the downloader does not know. *)
Definition video : option str := Some (py " https://example.org/v ").

End Fixture.

(** ** The vocabulary of the specification *)

Module Spec.

(** A language hint that asks for auto-detection: [None], the empty
    string, or white space only. *)
Definition blank (language : option str) : Prop :=
  match language with
  | None => True
  | Some l => Forall (fun c => isspace c = true) l
  end.

(** The history after a row of completed runs, oldest entry first, each
    run handing its list to the next. *)
Definition completions (history : option (list str)) (entries : list str)
    : option (list str) :=
  fold_left (fun h e => Some (Deluxe.record_history h e)) entries history.

(** Two instants that [%Y%m%d_%H%M%S] cannot tell apart. *)
Definition same_second (t1 t2 : datetime) : Prop :=
  year t1 = year t2 /\ month t1 = month t2 /\ day t1 = day t2
  /\ hour t1 = hour t2 /\ minute t1 = minute t2 /\ second t1 = second t2.

(** The contract of the cut capability, an external tool: given a start
    offset and a duration it copies that part of the input, which ends
    where the input ends.  The span a cut [-ss start -t len] covers in an
    input of duration [D]. *)
Definition cut_span (D : Q) (start len : Z) : Q * Q :=
  (inject_Z start, Qmin (inject_Z start + inject_Z len) D).

(** The span of segment [i] under threshold [T]. *)
Definition segment_span (D : Q) (T : Z) (i : nat) : Q * Q :=
  cut_span D (Z.of_nat i * T) T.

(** The Aggregator in the words of the specification: the present texts,
    in order, joined by a blank line. *)
Definition aggregate (texts : list (option str)) : str :=
  str_join [10%N; 10%N] (omap id texts).

(** The text artifact each segment has when its engine invocation is
    over, found by letting the engine run on the chunks one after the
    other from an environment. *)
Fixpoint text_artifacts (ext : Externals) (run_dir : str)
    (language : option str) (make_srt make_json : bool)
    (idx : nat) (chunks : list str) (e : Env) : list (option str) :=
  match chunks with
  | [] => []
  | chunk :: rest =>
      let base := Deluxe.transcript_base run_dir idx in
      let cmd :=
        Deluxe.whisper_cmd ext chunk base language make_srt make_json in
      let e' := snd (spawn ext cmd e) in
      files e' !! Pathlib.with_suffix base (py ".txt")
        :: text_artifacts ext run_dir language make_srt make_json
             (S idx) rest e'
  end.

(** A child that ran to its end and exited with status zero. *)
Definition exits_zero (p : proc) : Prop :=
  match p with
  | Exited rc _ _ => rc = 0
  | Raised _ => False
  end.

(** The cut command of segment [i]. *)
Definition cut_of (audio_path run_dir : str) (T : Z) (i : nat) : list str :=
  Deluxe.ffmpeg_cut_cmd audio_path (Z.of_nat i * T) T
    (Deluxe.chunk_path run_dir i).

(** The cut capability does its work on each of the first [n] segments,
    in whatever environment it is called. *)
Definition cutter_succeeds (ext : Externals) (audio_path run_dir : str)
    (T : Z) (n : nat) : Prop :=
  forall i e, (i < n)%nat ->
    exits_zero (fst (spawn ext (cut_of audio_path run_dir T i) e)).

(** A sequence of fractions that never goes down. *)
Definition nondecreasing (l : list Q) : Prop :=
  forall i j a b,
    (i <= j)%nat -> l !! i = Some a -> l !! j = Some b -> (a <= b)%Q.

(** The ways the probe fails: the call raises, the child exits with a
    status other than zero, or what it printed is no number. *)
Definition probe_fails (ext : Externals) (path : str) (e : Env) : Prop :=
  match fst (spawn ext (Deluxe.ffprobe_cmd path) e) with
  | Raised _ => True
  | Exited rc out _ =>
      rc <> 0 \/ float_of_str ext (strip out) = None
  end.

End Spec.


(** ** The vocabulary of the proofs *)

(** A computation that reports no progress. *)
Definition quiet {A} (m : M A) : Prop :=
  forall w, events (snd (m w)) = events w.

(** A computation that starts no child process. *)
Definition calm {A} (m : M A) : Prop :=
  forall w, calls (snd (m w)) = calls w.

Section Worlds.

Context (ext : Externals).

(** The world after one child process, whatever it did. *)
Definition after_child (cmd : list str) (w : World) : World :=
  snd (Subprocess.run ext cmd w).

(** The duration the prober reports in a world. *)
Definition probed (path : str) (w : World) : Q :=
  match fst (spawn ext (Deluxe.ffprobe_cmd path) (env w)) with
  | Raised _ => 0
  | Exited rc out _ =>
      if rc =? 0
      then default 0%Q (float_of_str ext (strip out))
      else 0
  end.

(** The report a round of the loop sends to the sink. *)
Definition chunk_event (reporting : bool) (n_chunks idx : nat)
    : list ProgressEvent :=
  if reporting
  then [(Deluxe.chunk_fraction idx n_chunks,
         py "Transcription chunk " ++ Deluxe.chunk_label idx n_chunks
         ++ py "...")]
  else [].

(** The world when the engine has been called for a segment. *)
Definition after_engine (reporting : bool) (n_chunks idx : nat)
    (cmd : list str) (w : World) : World :=
  after_child cmd
    {| env := env w;
       events := events w ++ chunk_event reporting n_chunks idx;
       calls := calls w |}.

End Worlds.


(** The document once the three font files have been tried. *)
Definition with_fonts (regular bold mono : bool) : Fpdf.doc :=
  let pdf :=
    Fpdf.emit Fpdf.AddPage
      (Fpdf.set_auto_page_break 20 (Fpdf.set_margins 15 20 15 Fpdf.new)) in
  let pdf := if regular then Fpdf.register (py "Roboto") (py "") pdf else pdf in
  let pdf := if bold then Fpdf.register (py "Roboto") (py "B") pdf else pdf in
  if mono then Fpdf.register (py "RobotoMono") (py "") pdf else pdf.

(** The fractions of a run over [n] segments, with or without a
    download. *)
Definition run_fractions (downloads : bool) (n : nat) : list Q :=
  [0.01%Q] ++ (if downloads then [0.05%Q] else []) ++ [0.05%Q]
  ++ map (fun i => Deluxe.chunk_fraction i n) (seq 0 n)
  ++ [0.95%Q; 1.0%Q].

(** ** The vocabulary of the further properties *)

(** The number a string of decimal digits denotes, by Horner's rule; it
    reads an ordinal back from its zero-padded name. *)
Fixpoint digits_value (s : str) (acc : N) : N :=
  match s with
  | [] => acc
  | c :: s' => digits_value s' (acc * 10 + (c - 48))%N
  end.

(** The characters of a decimal numeral. *)
Definition chars (d : Decimal.uint) : str :=
  map N_of_ascii (list_ascii_of_string (NilEmpty.string_of_uint d)).

(** An instant with a year of four digits and the other fields of at most
    two, as the calendar has them. *)
Definition calendar (t : datetime) : Prop :=
  (10 * 100 <= year t < 100 * 100 /\ month t < 100 /\ day t < 100
   /\ hour t < 100 /\ minute t < 100 /\ second t < 100)%nat.

(** Two worlds that differ at most in the progress reports received. *)
Definition same_outside (w1 w2 : World) : Prop :=
  env w1 = env w2 /\ calls w1 = calls w2.

(** Two computations that return the same and do the same to the
    environment and to the children, whatever they report. *)
Definition agree {A} (m1 m2 : M A) : Prop :=
  forall w1 w2,
    same_outside w1 w2 ->
    fst (m1 w1) = fst (m2 w2) /\ same_outside (snd (m1 w1)) (snd (m2 w2)).

(** The command [extract_audio_if_needed] runs. *)
Definition extract_cmd (path run_dir : str) : list str :=
  [py "ffmpeg"; py "-y"; py "-i"; path; py "-vn";
   py "-acodec"; py "pcm_s16le"; py "-ar"; py "16000"; py "-ac"; py "1";
   run_dir // py "audio.wav"].

(** The cut of segment [i] exits with status [rc], wherever it runs. *)
Definition cut_exits (ext : Externals) (audio_path run_dir : str) (T : Z)
    (i : nat) (rc : Z) : Prop :=
  forall e, exists out err e',
    spawn ext (Spec.cut_of audio_path run_dir T i) e = (Exited rc out err, e').

(** The engine commands of the chunks, from ordinal [idx] on. *)
Fixpoint engine_cmds (ext : Externals) (run_dir : str)
    (language : option str) (make_srt make_json : bool) (idx : nat)
    (chunks : list str) : list (list str) :=
  match chunks with
  | [] => []
  | chunk :: rest =>
      Deluxe.whisper_cmd ext chunk (Deluxe.transcript_base run_dir idx)
        language make_srt make_json
      :: engine_cmds ext run_dir language make_srt make_json (S idx) rest
  end.

(** The text files of the segments that have one, from ordinal [idx] on. *)
Fixpoint present_txt_files (run_dir : str) (idx : nat)
    (texts : list (option str)) : list str :=
  match texts with
  | [] => []
  | text :: rest =>
      match text with
      | Some _ =>
          [Pathlib.with_suffix (Deluxe.transcript_base run_dir idx)
             (py ".txt")]
      | None => []
      end ++ present_txt_files run_dir (S idx) rest
  end.

(** What [webui.py] answers for what the engine did in the temporary
    directory. *)
Definition webui_answer (outcome : proc) (e : Env) (txt_file : str)
    : result str :=
  match outcome with
  | Raised exc => Raise exc
  | Exited rc out err =>
      if rc =? 0 then
        match files e !! txt_file with
        | Some content => Ok content
        | None =>
            if is_path e txt_file then Raise (OSError txt_file)
            else Ok (py "La transcription n'a pas été générée.")
        end
      else Ok (if truthy err then err else out)
  end.

(** What one turn of the paragraph loop of [make_pdf_from_text] puts on the
    page. *)
Definition paragraph_ops (ext : Externals) (width : Q) (paragraph : str)
    : list Fpdf.op :=
  let paragraph := strip paragraph in
  if negb (truthy paragraph) then [Fpdf.Ln 4]
  else map (fun line => Fpdf.MultiCell width 6 line)
         (textwrap_wrap ext paragraph)
       ++ [Fpdf.Ln 2].

(* ===================================================================== *)
(** * Part II: properties *)
(* ===================================================================== *)

(** ** Strings *)

Section Strings.

Lemma lstrip_nil_iff (s : str) :
  lstrip s = [] <-> Forall (fun c => isspace c = true) s.
Proof.
  induction s as [|c s IH]; simpl.
  - split; auto.
  - destruct (isspace c) eqn:Hc.
    + rewrite IH. split.
      * intros H. constructor; assumption.
      * intros H. inversion H; assumption.
    + split; [discriminate|].
      intros H. inversion H; congruence.
Qed.

(** What [lstrip] leaves does not start with white space. *)
Lemma lstrip_head (s : str) c r :
  lstrip s = c :: r -> isspace c = false.
Proof.
  induction s as [|a s IH]; simpl; [discriminate|].
  destruct (isspace a) eqn:Ha; [exact IH|].
  intros [= <- _]. exact Ha.
Qed.

Lemma strip_nil_iff (s : str) :
  strip s = [] <-> Forall (fun c => isspace c = true) s.
Proof.
  unfold strip, rstrip. split.
  - intros H.
    apply (f_equal (@rev N)) in H. rewrite rev_involutive in H. simpl in H.
    apply lstrip_nil_iff in H.
    apply lstrip_nil_iff.
    destruct (lstrip s) as [|c r] eqn:Hs; [reflexivity|].
    apply lstrip_head in Hs.
    apply Forall_rev in H. rewrite rev_involutive in H.
    inversion H; congruence.
  - intros H. apply lstrip_nil_iff in H. rewrite H. reflexivity.
Qed.

Lemma truthy_false_iff (s : str) : truthy s = false <-> s = [].
Proof. destruct s; simpl; split; congruence. Qed.

End Strings.

(** ** Small checks of the embedding *)

Section Checks.

Example zfill_pads : zfill 3 7 = py "007" /\ zfill 3 1234 = py "1234".
Proof. split; reflexivity. Qed.

Example strip_unicode_space :
  strip ([160%N] ++ py " fr" ++ [10%N; 8195%N]) = py "fr".
Proof. reflexivity. Qed.

Example chunk_name :
  Deluxe.chunk_path (py "/app/outputs/r") 1
  = py "/app/outputs/r/chunk_001.wav".
Proof. reflexivity. Qed.

Example run_id_of_instant :
  strftime_run_id (Fixture.at_time 5 0) = py "20240102_030405".
Proof. reflexivity. Qed.

Example name_of_upload :
  Pathlib.name (py "/tmp/gradio/talk.mp3") = py "talk.mp3".
Proof. reflexivity. Qed.

(** Nine thousand seconds under a threshold of 7200: two segments, of
    7200 and 1800 seconds. *)
Example spans_of_9000 :
  Qceiling (9000 / inject_Z 7200) = 2
  /\ (snd (Spec.segment_span 9000 7200 0)
        - fst (Spec.segment_span 9000 7200 0) == 7200)%Q
  /\ (snd (Spec.segment_span 9000 7200 1)
        - fst (Spec.segment_span 9000 7200 1) == 1800)%Q.
Proof. repeat split. Qed.

End Checks.

(** ** The language hint *)

Section Language.

Context (ext : Externals).

Lemma language_given_blank (language : option str) :
  Deluxe.language_given language = false <-> Spec.blank language.
Proof.
  destruct language as [l|]; simpl; [|tauto].
  rewrite <- strip_nil_iff, <- truthy_false_iff.
  destruct l as [|c l]; simpl; [tauto|]. tauto.
Qed.

Lemma webui_language_given (language : option str) :
  Webui.language_given language = Deluxe.language_given language.
Proof. reflexivity. Qed.

End Language.

(** ** The monad *)

Section Monad.

Lemma paired {A B} (p : A * B) (a : A) : fst p = a -> p = (a, snd p).
Proof. destruct p as [x y]. simpl. intros ->. reflexivity. Qed.

Lemma bind_ok {A B} (m : M A) (k : A -> M B) w a w1 :
  m w = (Ok a, w1) -> (m ≫= k) w = k a w1.
Proof. intros H. unfold mbind, M_bind, bind. rewrite H. reflexivity. Qed.

Lemma bind_raise {A B} (m : M A) (k : A -> M B) w e w1 :
  m w = (Raise e, w1) -> (m ≫= k) w = (Raise e, w1).
Proof. intros H. unfold mbind, M_bind, bind. rewrite H. reflexivity. Qed.

Lemma bind_ok_inv {A B} (m : M A) (k : A -> M B) w b w' :
  (m ≫= k) w = (Ok b, w') ->
  exists a w1, m w = (Ok a, w1) /\ k a w1 = (Ok b, w').
Proof.
  unfold mbind, M_bind, bind.
  destruct (m w) as [[a|e] w1]; [eauto | discriminate].
Qed.

Lemma bind_raise_inv {A B} (m : M A) (k : A -> M B) w e w' :
  (m ≫= k) w = (Raise e, w') ->
  m w = (Raise e, w')
  \/ exists a w1, m w = (Ok a, w1) /\ k a w1 = (Raise e, w').
Proof.
  unfold mbind, M_bind, bind.
  destruct (m w) as [[a|e1] w1]; [eauto | intros [= -> ->]; auto].
Qed.


Lemma quiet_ret {A} (a : A) : quiet (ret a).
Proof. intros w. reflexivity. Qed.

Lemma quiet_mret {A} (a : A) : quiet (mret a : M A).
Proof. intros w. reflexivity. Qed.

Lemma quiet_raise {A} e : quiet (raise e : M A).
Proof. intros w. reflexivity. Qed.

Lemma quiet_bind {A B} (m : M A) (k : A -> M B) :
  quiet m -> (forall a, quiet (k a)) -> quiet (m ≫= k).
Proof.
  intros Hm Hk w. unfold mbind, M_bind, bind.
  specialize (Hm w). destruct (m w) as [[a|e] w1]; simpl in *.
  - rewrite Hk. exact Hm.
  - exact Hm.
Qed.

Lemma quiet_try {A} (m : M A) (h : exn -> M A) :
  quiet m -> (forall e, quiet (h e)) -> quiet (try_except m h).
Proof.
  intros Hm Hh w. unfold try_except.
  specialize (Hm w). destruct (m w) as [[a|e] w1]; simpl in *.
  - exact Hm.
  - rewrite Hh. exact Hm.
Qed.

Lemma quiet_if {A} (b : bool) (m1 m2 : M A) :
  quiet m1 -> quiet m2 -> quiet (if b then m1 else m2).
Proof. destruct b; auto. Qed.

Lemma calm_ret {A} (a : A) : calm (ret a).
Proof. intros w. reflexivity. Qed.

Lemma calm_raise {A} e : calm (raise e : M A).
Proof. intros w. reflexivity. Qed.

Lemma calm_bind {A B} (m : M A) (k : A -> M B) :
  calm m -> (forall a, calm (k a)) -> calm (m ≫= k).
Proof.
  intros Hm Hk w. unfold mbind, M_bind, bind.
  specialize (Hm w). destruct (m w) as [[a|e] w1]; simpl in *.
  - rewrite Hk. exact Hm.
  - exact Hm.
Qed.

Lemma calm_try {A} (m : M A) (h : exn -> M A) :
  calm m -> (forall e, calm (h e)) -> calm (try_except m h).
Proof.
  intros Hm Hh w. unfold try_except.
  specialize (Hm w). destruct (m w) as [[a|e] w1]; simpl in *.
  - exact Hm.
  - rewrite Hh. exact Hm.
Qed.

Lemma calm_if {A} (b : bool) (m1 m2 : M A) :
  calm m1 -> calm m2 -> calm (if b then m1 else m2).
Proof. destruct b; auto. Qed.

Lemma quiet_now : quiet now.
Proof. intros w. reflexivity. Qed.

Lemma quiet_path_exists p : quiet (path_exists p).
Proof. intros w. reflexivity. Qed.

Lemma quiet_read_text p : quiet (read_text p).
Proof. intros w. unfold read_text. destruct (_ !! _); reflexivity. Qed.

Lemma quiet_mkdir p : quiet (mkdir_exist_ok p).
Proof.
  intros w. unfold mkdir_exist_ok. repeat case_bool_decide; reflexivity.
Qed.

Lemma calm_now : calm now.
Proof. intros w. reflexivity. Qed.

Lemma calm_path_exists p : calm (path_exists p).
Proof. intros w. reflexivity. Qed.

Lemma calm_read_text p : calm (read_text p).
Proof. intros w. unfold read_text. destruct (_ !! _); reflexivity. Qed.

Lemma calm_mkdir p : calm (mkdir_exist_ok p).
Proof.
  intros w. unfold mkdir_exist_ok. repeat case_bool_decide; reflexivity.
Qed.

Lemma calm_progress b f d : calm (progress b f d).
Proof. intros w. unfold progress. destruct b; reflexivity. Qed.

End Monad.

Create HintDb quiet.
Create HintDb calm.

#[export] Hint Resolve quiet_ret quiet_mret quiet_raise quiet_bind quiet_try
  quiet_if quiet_now quiet_path_exists quiet_read_text quiet_mkdir : quiet.
#[export] Hint Resolve calm_ret calm_raise calm_bind calm_try calm_if
  calm_now calm_path_exists calm_read_text calm_mkdir calm_progress : calm.

(** ** Child processes *)

Section Children.

Context (ext : Externals).

Lemma quiet_run cmd : quiet (Subprocess.run ext cmd).
Proof.
  intros w. unfold Subprocess.run.
  destruct (spawn ext cmd (env w)) as [[e|rc out err] e']; reflexivity.
Qed.

Lemma calls_run cmd w :
  calls (snd (Subprocess.run ext cmd w)) = calls w ++ [cmd].
Proof.
  unfold Subprocess.run.
  destruct (spawn ext cmd (env w)) as [[e|rc out err] e']; reflexivity.
Qed.

Lemma quiet_run_check cmd : quiet (Subprocess.run_check ext cmd).
Proof.
  unfold Subprocess.run_check. apply quiet_bind; [apply quiet_run|].
  intros [[rc ?] ?]. destruct (rc =? 0); auto with quiet.
Qed.

Lemma quiet_check_output cmd : quiet (Subprocess.check_output ext cmd).
Proof.
  unfold Subprocess.check_output. apply quiet_bind; [apply quiet_run|].
  intros [[rc ?] ?]. destruct (rc =? 0); auto with quiet.
Qed.

End Children.

#[export] Hint Resolve quiet_run quiet_run_check quiet_check_output : quiet.

(** ** The duration prober *)

Section Prober.

Context (ext : Externals).


Lemma env_after_child cmd w :
  env (after_child ext cmd w) = snd (spawn ext cmd (env w)).
Proof.
  unfold after_child, Subprocess.run.
  destruct (spawn ext cmd (env w)) as [[e|rc out err] e']; reflexivity.
Qed.

Lemma events_after_child cmd w : events (after_child ext cmd w) = events w.
Proof. apply quiet_run. Qed.

Lemma calls_after_child cmd w :
  calls (after_child ext cmd w) = calls w ++ [cmd].
Proof. apply calls_run. Qed.


(** The prober always returns: every failure inside it is caught. *)
Lemma get_media_duration_seconds_eq path w :
  Deluxe.get_media_duration_seconds ext path w
  = (Ok (probed ext path w), after_child ext (Deluxe.ffprobe_cmd path) w).
Proof.
  unfold Deluxe.get_media_duration_seconds, try_except, probed, after_child,
    Subprocess.check_output, Subprocess.run, mbind, M_bind, bind.
  destruct (spawn ext _ (env w)) as [[e|rc out err] e']; simpl; [reflexivity|].
  destruct (rc =? 0); simpl; [|reflexivity].
  destruct (float_of_str ext (strip out)); reflexivity.
Qed.

Lemma probed_fails path w :
  Spec.probe_fails ext path (env w) -> probed ext path w = 0%Q.
Proof.
  unfold Spec.probe_fails, probed.
  destruct (fst (spawn ext _ (env w))) as [e|rc out err]; [reflexivity|].
  intros [Hrc | Hf].
  - destruct (Z.eqb_spec rc 0); [contradiction | reflexivity].
  - rewrite Hf. destruct (rc =? 0); reflexivity.
Qed.

Lemma quiet_get_media_duration_seconds path :
  quiet (Deluxe.get_media_duration_seconds ext path).
Proof.
  intros w. rewrite get_media_duration_seconds_eq. apply events_after_child.
Qed.

End Prober.

#[export] Hint Resolve quiet_get_media_duration_seconds : quiet.

(** ** The chunk splitter *)

Section Splitter.

Context (ext : Externals).

(** A duration within the threshold, or unknown: one segment, the input
    itself, and nothing happens after the probe. *)
Lemma split_long_audio_whole audio_path run_dir T w :
  (probed ext audio_path w <= inject_Z T
   \/ probed ext audio_path w <= 0)%Q ->
  Deluxe.split_long_audio ext audio_path run_dir T w
  = (Ok [audio_path], after_child ext (Deluxe.ffprobe_cmd audio_path) w).
Proof.
  intros H. unfold Deluxe.split_long_audio.
  rewrite (bind_ok _ _ _ _ _ (get_media_duration_seconds_eq ext audio_path w)).
  replace (Qle_bool _ _ || Qle_bool _ _) with true; [reflexivity|].
  symmetry. apply orb_true_iff. rewrite !Qle_bool_iff. exact H.
Qed.

End Splitter.

(** C7. Whenever the probe fails (the call raises, the child exits with a
    status other than zero, or its output is no number) the prober
    returns exactly zero and raises nothing, and the splitter that
    follows goes on with the whole input as its one segment. *)
Theorem prober_failure_is_zero (ext : Externals) (path run_dir : str)
    (T : Z) (w : World) :
  Spec.probe_fails ext path (env w) ->
  Deluxe.get_media_duration_seconds ext path w
  = (Ok 0%Q, after_child ext (Deluxe.ffprobe_cmd path) w)
  /\ Deluxe.split_long_audio ext path run_dir T w
     = (Ok [path], after_child ext (Deluxe.ffprobe_cmd path) w).
Proof.
  intros H. split.
  - rewrite get_media_duration_seconds_eq, (probed_fails ext path w H).
    reflexivity.
  - apply split_long_audio_whole. right.
    rewrite (probed_fails ext path w H). apply Qle_refl.
Qed.

Section Ceiling.

Local Open Scope Q_scope.

(** [ceil(D / T)] is the one integer [n] with [(n-1)·T < D ≤ n·T]. *)
Lemma ceil_bounds (D : Q) (T : Z) :
  (0 < T)%Z ->
  let n := Qceiling (D / inject_Z T) in
  inject_Z ((n - 1) * T) < D /\ D <= inject_Z (n * T).
Proof.
  intros HT n.
  assert (HTq : inject_Z 0 < inject_Z T) by (rewrite <- Zlt_Qlt; exact HT).
  change (inject_Z 0) with 0 in HTq.
  pose proof (Qceiling_lt (D / inject_Z T)) as Hlo.
  pose proof (Qle_ceiling (D / inject_Z T)) as Hup.
  fold n in Hlo, Hup. clearbody n.
  assert (HD : D == (D / inject_Z T) * inject_Z T).
  { rewrite Qmult_comm, Qmult_div_r; [reflexivity|]. lra. }
  revert Hlo Hup HD. generalize (D / inject_Z T). intros q Hlo Hup HD.
  rewrite !inject_Z_mult, HD. split.
  - apply Qmult_lt_compat_r; assumption.
  - apply Qmult_le_compat_r; [assumption | lra].
Qed.

Lemma ceil_at_least_two (D : Q) (T : Z) :
  (0 < T)%Z -> inject_Z T < D -> (2 <= Qceiling (D / inject_Z T))%Z.
Proof.
  intros HT HD.
  destruct (ceil_bounds D T HT) as [_ Hup].
  set (n := Qceiling (D / inject_Z T)) in *.
  assert (H : inject_Z T < inject_Z (n * T)) by lra.
  rewrite <- Zlt_Qlt in H. nia.
Qed.

End Ceiling.

Section SplitLoop.

Context (ext : Externals).

Lemma run_check_exits_zero cmd w :
  Spec.exits_zero (fst (spawn ext cmd (env w))) ->
  Subprocess.run_check ext cmd w = (Ok tt, after_child ext cmd w).
Proof.
  unfold Spec.exits_zero, Subprocess.run_check, after_child, Subprocess.run,
    mbind, M_bind, bind.
  destruct (spawn ext cmd (env w)) as [[e|rc out err] e']; simpl;
    [contradiction|].
  intros ->. reflexivity.
Qed.


End SplitLoop.


(** ** The run history *)

Section History.

Lemma take_app_take {A} (n : nat) (l k : list A) :
  take n (l ++ take n k) = take n (l ++ k).
Proof.
  rewrite !take_app, take_take. do 2 f_equal. lia.
Qed.

(** A history that is within the bound stays the window of the ten most
    recent entries. *)
Lemma completions_bounded (entries h : list str) :
  (length h <= 10)%nat ->
  Spec.completions (Some h) entries = Some (take 10 (rev entries ++ h)).
Proof.
  revert h. induction entries as [|e es IH]; intros h Hh.
  - simpl. rewrite take_ge; [reflexivity | exact Hh].
  - change (Spec.completions (Some h) (e :: es))
      with (Spec.completions (Some (Deluxe.record_history (Some h) e)) es).
    rewrite IH.
    + unfold Deluxe.record_history. simpl default.
      rewrite take_app_take. simpl rev. rewrite <- app_assoc. reflexivity.
    + unfold Deluxe.record_history. rewrite length_take. lia.
Qed.

Lemma completions_cons (history : option (list str)) e (es : list str) :
  Spec.completions history (e :: es)
  = Some (take 10 (rev (e :: es) ++ default [] history)).
Proof.
  change (Spec.completions history (e :: es))
    with (Spec.completions (Some (Deluxe.record_history history e)) es).
  rewrite completions_bounded.
  - unfold Deluxe.record_history.
    rewrite take_app_take. simpl rev. rewrite <- app_assoc. reflexivity.
  - unfold Deluxe.record_history. rewrite length_take. lia.
Qed.

End History.

(** C4. After more than ten completed runs, whatever the history was at
    the start, the history has exactly ten entries: the ten most recent
    ones, the most recent first. *)
Theorem history_keeps_ten_most_recent (history : option (list str))
    (entries : list str) :
  (10 < length entries)%nat ->
  exists snapshot,
    Spec.completions history entries = Some snapshot
    /\ length snapshot = 10%nat
    /\ snapshot = take 10 (rev entries).
Proof.
  intros HN. exists (take 10 (rev entries)).
  destruct entries as [|e es]; [simpl in HN; lia|].
  rewrite completions_cons, take_app_le by (rewrite length_rev; lia).
  rewrite length_take, length_rev. repeat split. lia.
Qed.

(** ** The engine command line *)

Section EngineCommand.

Context (ext : Externals).

Lemma language_args_blank language :
  Spec.blank language -> Deluxe.language_args language = [].
Proof.
  intros H. apply language_given_blank in H.
  unfold Deluxe.language_args. rewrite H. reflexivity.
Qed.

Lemma language_args_hint language :
  ~ Spec.blank language ->
  exists hint,
    language = Some hint
    /\ Deluxe.language_args language = [py "-l"; strip hint].
Proof.
  intros H. rewrite <- language_given_blank in H.
  apply not_false_is_true in H.
  unfold Deluxe.language_args. rewrite H.
  destruct language as [hint|]; [|discriminate].
  exists hint. split; reflexivity.
Qed.

(** Each round of the loop starts exactly one child: the engine, on the
    command line [whisper_cmd] builds. *)
Lemma calls_whisper_step run_dir language make_srt make_json reporting
    n_chunks idx chunk acc w :
  calls (snd (Deluxe.whisper_step ext run_dir language make_srt make_json
                reporting n_chunks idx chunk acc w))
  = calls w
    ++ [Deluxe.whisper_cmd ext chunk (Deluxe.transcript_base run_dir idx)
          language make_srt make_json].
Proof.
  unfold Deluxe.whisper_step.
  set (cmd := Deluxe.whisper_cmd _ _ _ _ _ _).
  unfold mbind, M_bind, bind.
  destruct (progress _ _ _ w) as [[[]|e0] w0] eqn:Hp.
  2:{ unfold progress in Hp. destruct reporting; discriminate. }
  assert (Hc : calls w0 = calls w).
  { pose proof (calm_progress reporting
                  (Deluxe.chunk_fraction idx n_chunks)
                  (py "Transcription chunk "
                   ++ Deluxe.chunk_label idx n_chunks ++ py "...") w) as H.
    rewrite Hp in H. exact H. }
  pose proof (calls_run ext cmd w0) as Hrun. rewrite Hc in Hrun.
  destruct (Subprocess.run ext cmd w0) as [[[[rc out] err]|e] w1];
    simpl in Hrun; [|exact Hrun].
  destruct (rc =? 0); simpl; [|exact Hrun].
  unfold path_exists, read_text, ret.
  repeat (match goal with
          | |- context [match ?x !! ?k with _ => _ end] =>
              destruct (x !! k)
          | |- context [if ?b then _ else _] => destruct b
          end; simpl); exact Hrun.
Qed.

Lemma calls_webui_transcribe_in audio_file language make_srt tmpdir w :
  calls (snd (Webui.transcribe_in ext audio_file language make_srt tmpdir w))
  = calls w
    ++ [Webui.whisper_cmd ext audio_file (tmpdir // py "out") language
          make_srt].
Proof.
  unfold Webui.transcribe_in.
  set (cmd := Webui.whisper_cmd _ _ _ _ _).
  unfold mbind, M_bind, bind.
  pose proof (calls_run ext cmd w) as Hrun.
  destruct (Subprocess.run ext cmd w) as [[[[rc out] err]|e] w1];
    simpl in Hrun; [|exact Hrun].
  destruct (rc =? 0); simpl; [|exact Hrun].
  unfold path_exists, read_text, ret.
  repeat (match goal with
          | |- context [match ?x !! ?k with _ => _ end] =>
              destruct (x !! k)
          | |- context [if ?b then _ else _] => destruct b
          end; simpl); exact Hrun.
Qed.

End EngineCommand.

(** C6. A language hint that is [None], empty or white space only adds
    nothing to the engine command line, so no [-l] argument is passed;
    any other hint adds [-l] followed by the stripped hint.  Both
    programs build the command this way, and every engine invocation,
    one for each segment, runs exactly the command so built. *)
Theorem language_hint_argument (ext : Externals) (language : option str) :
  (Spec.blank language ->
   (forall chunk base make_srt make_json,
      Deluxe.whisper_cmd ext chunk base language make_srt make_json
      = [Deluxe.WHISPER_BIN ext; py "-m"; Deluxe.MODEL_PATH ext; py "-f";
         chunk; py "-otxt"; py "-of"; base]
        ++ (if make_srt then [py "-osrt"] else [])
        ++ (if make_json then [py "-oj"] else []))
   /\ (forall audio_file base make_srt,
         Webui.whisper_cmd ext audio_file base language make_srt
         = [Webui.WHISPER_BIN ext; py "-m"; Webui.MODEL_PATH ext; py "-f";
            audio_file; py "-otxt"; py "-of"; base]
           ++ (if make_srt then [py "-osrt"] else [])))
  /\ (~ Spec.blank language ->
      exists hint,
        language = Some hint
        /\ (forall chunk base make_srt make_json,
              Deluxe.whisper_cmd ext chunk base language make_srt make_json
              = [Deluxe.WHISPER_BIN ext; py "-m"; Deluxe.MODEL_PATH ext;
                 py "-f"; chunk; py "-otxt"; py "-of"; base]
                ++ [py "-l"; strip hint]
                ++ (if make_srt then [py "-osrt"] else [])
                ++ (if make_json then [py "-oj"] else []))
        /\ (forall audio_file base make_srt,
              Webui.whisper_cmd ext audio_file base language make_srt
              = [Webui.WHISPER_BIN ext; py "-m"; Webui.MODEL_PATH ext;
                 py "-f"; audio_file; py "-otxt"; py "-of"; base]
                ++ [py "-l"; strip hint]
                ++ (if make_srt then [py "-osrt"] else [])))
  /\ (forall run_dir make_srt make_json reporting n_chunks idx chunk acc w,
        calls (snd (Deluxe.whisper_step ext run_dir language make_srt
                      make_json reporting n_chunks idx chunk acc w))
        = calls w
          ++ [Deluxe.whisper_cmd ext chunk
                (Deluxe.transcript_base run_dir idx) language make_srt
                make_json])
  /\ (forall audio_file make_srt tmpdir w,
        calls (snd (Webui.transcribe_in ext audio_file language make_srt
                      tmpdir w))
        = calls w
          ++ [Webui.whisper_cmd ext audio_file (tmpdir // py "out")
                language make_srt]).
Proof.
  split; [|split; [|split]].
  - intros H. pose proof (language_args_blank language H) as Hargs.
    split; intros; unfold Deluxe.whisper_cmd, Webui.whisper_cmd.
    + rewrite Hargs. reflexivity.
    + change (Webui.language_args language)
        with (Deluxe.language_args language).
      rewrite Hargs. reflexivity.
  - intros H. destruct (language_args_hint language H) as (hint & -> & Hargs).
    exists hint. split; [reflexivity|].
    split; intros; unfold Deluxe.whisper_cmd, Webui.whisper_cmd.
    + rewrite Hargs. reflexivity.
    + change (Webui.language_args (Some hint))
        with (Deluxe.language_args (Some hint)).
      rewrite Hargs. reflexivity.
  - intros. apply calls_whisper_step.
  - intros. apply calls_webui_transcribe_in.
Qed.

(** ** The invocation surface *)

Section Surface.

Context (ext : Externals).

(** [transcribe] with its two guards and its handler laid open. *)
Lemma transcribe_eq media_file youtube_url language make_srt make_json
    make_pdf history w :
  Deluxe.transcribe ext media_file youtube_url language make_srt make_json
    make_pdf history w
  = if negb (is_path (env w) (Deluxe.WHISPER_BIN ext))
    then (Ok (Deluxe.failed
                (py "Binaire introuvable : " ++ Deluxe.WHISPER_BIN ext)
                history), w)
    else if negb (is_path (env w) (Deluxe.MODEL_PATH ext))
    then (Ok (Deluxe.failed
                (py "Modèle introuvable : " ++ Deluxe.MODEL_PATH ext)
                history), w)
    else
      match
        Deluxe.transcribe_try ext media_file youtube_url language make_srt
          make_json make_pdf history (strftime_run_id (clock (env w))) w
      with
      | (Ok out, w') => (Ok out, w')
      | (Raise e, w') =>
          (Ok (Deluxe.failed
                 (py "Erreur pendant le traitement : "
                  ++ Deluxe.str_of_exn ext e) history), w')
      end.
Proof.
  unfold Deluxe.transcribe, mbind, M_bind, bind, path_exists, now,
    try_except, ret.
  destruct (negb (is_path (env w) (Deluxe.WHISPER_BIN ext))); [reflexivity|].
  destruct (negb (is_path (env w) (Deluxe.MODEL_PATH ext))); reflexivity.
Qed.

(** Neither a URL nor a file: the [try] block returns at once. *)
Lemma transcribe_try_no_input media_file youtube_url language make_srt
    make_json make_pdf history run_id w :
  Deluxe.url_given youtube_url = false ->
  Deluxe.file_given media_file = false ->
  Deluxe.transcribe_try ext media_file youtube_url language make_srt
    make_json make_pdf history run_id w
  = (Ok (Deluxe.failed (py "Aucun fichier ni URL fournie.") history),
     snd (progress true 0.01%Q (py "Préparation...") w)).
Proof.
  intros Hu Hf. unfold Deluxe.transcribe_try, Deluxe.resolve_input.
  rewrite Hu, Hf. reflexivity.
Qed.

End Surface.

(** C10. Whenever [transcribe] ends in a fatal failure (the binary is
    missing, the model is missing, neither a file nor a URL was given, or
    an exception is raised inside the pipeline) it still returns, the
    history it returns is the history it was given, no entry added, and
    the references to the text, subtitle, document and structured
    artifacts are all [None]. *)
Theorem fatal_failure_returns_history_unchanged (ext : Externals)
    (media_file youtube_url language : option str)
    (make_srt make_json make_pdf : bool) (history : option (list str))
    (w : World) :
  is_path (env w) (Deluxe.WHISPER_BIN ext) = false
  \/ is_path (env w) (Deluxe.MODEL_PATH ext) = false
  \/ (Deluxe.url_given youtube_url = false
      /\ Deluxe.file_given media_file = false)
  \/ (exists e w',
        Deluxe.transcribe_try ext media_file youtube_url language make_srt
          make_json make_pdf history (strftime_run_id (clock (env w))) w
        = (Raise e, w')) ->
  exists out w',
    Deluxe.transcribe ext media_file youtube_url language make_srt
      make_json make_pdf history w = (Ok out, w')
    /\ Deluxe.out_history out = history
    /\ Deluxe.out_txt_file out = None
    /\ Deluxe.out_srt_file out = None
    /\ Deluxe.out_pdf_file out = None
    /\ Deluxe.out_json_file out = None.
Proof.
  intros H. rewrite transcribe_eq.
  destruct (is_path (env w) (Deluxe.WHISPER_BIN ext)) eqn:Hbin; simpl.
  2:{ do 2 eexists. split; [reflexivity|]. repeat split. }
  destruct (is_path (env w) (Deluxe.MODEL_PATH ext)) eqn:Hmodel; simpl.
  2:{ do 2 eexists. split; [reflexivity|]. repeat split. }
  destruct H as [H | [H | [[Hu Hf] | (e & w' & H)]]]; try discriminate.
  - rewrite transcribe_try_no_input by assumption.
    do 2 eexists. split; [reflexivity|]. repeat split.
  - rewrite H. do 2 eexists. split; [reflexivity|]. repeat split.
Qed.

(** ** The working area of a run *)

Section WorkingArea.

Context (ext : Externals).

Lemma run_whisper_run_dir input_file language make_srt make_json run_id
    reporting w r w' :
  Deluxe.run_whisper ext input_file language make_srt make_json run_id
    reporting w = (Ok r, w') ->
  Deluxe.res_run_dir r = Deluxe.OUTPUT_DIR ext // run_id.
Proof.
  unfold Deluxe.run_whisper. intros H.
  apply bind_ok_inv in H as ([duration chunks] & w1 & _ & H).
  apply bind_ok_inv in H as (acc & w2 & _ & H).
  apply bind_ok_inv in H as ([] & w3 & _ & H).
  injection H as <- _. reflexivity.
Qed.


End WorkingArea.



(** ** The document renderer *)

Section Renderer.

Context (ext : Externals).

(** A missing or broken font file leaves the document as it was. *)
Lemma try_add_font_eq family style fname pdf w :
  Deluxe.try_add_font ext family style fname pdf w
  = (Ok (if ttf_loads ext fname (env w)
         then Fpdf.register family style pdf else pdf), w).
Proof.
  unfold Deluxe.try_add_font, try_except, Deluxe.add_font.
  destruct (ttf_loads ext fname (env w)); reflexivity.
Qed.

Lemma known_helvetica style pdf :
  Fpdf.known (py "Helvetica") style pdf = true.
Proof. reflexivity. Qed.

(** Roboto where it is registered, Helvetica where it is not. *)
Lemma set_font_or_helvetica_eq style size pdf w :
  Deluxe.set_font_or_helvetica style size pdf w
  = (Ok (Fpdf.emit
           (Fpdf.SetFont
              (if Fpdf.known (py "Roboto") style pdf
               then py "Roboto" else py "Helvetica") style size) pdf), w).
Proof.
  unfold Deluxe.set_font_or_helvetica, try_except, Deluxe.set_font.
  destruct (Fpdf.known (py "Roboto") style pdf); [reflexivity|].
  unfold raise. rewrite known_helvetica. reflexivity.
Qed.





Lemma known_after_fonts regular bold mono logo_ops :
  let pdf :=
    fold_left (fun d o => Fpdf.emit o d) logo_ops
      (with_fonts regular bold mono) in
  Fpdf.known (py "Roboto") (py "B") pdf = bold
  /\ Fpdf.known (py "Roboto") (py "") pdf = regular
  /\ Fpdf.ops pdf = Fpdf.AddPage :: logo_ops.
Proof.
  intros pdf.
  assert (Hf : Fpdf.fonts pdf = Fpdf.fonts (with_fonts regular bold mono)
               /\ Fpdf.ops pdf
                  = Fpdf.ops (with_fonts regular bold mono) ++ logo_ops).
  { unfold pdf. generalize (with_fonts regular bold mono).
    induction logo_ops as [|o os IH]; intros d; simpl.
    - rewrite app_nil_r. auto.
    - destruct (IH (Fpdf.emit o d)) as [-> ->]. simpl.
      rewrite <- app_assoc. auto. }
  destruct Hf as [Hfonts Hops].
  unfold Fpdf.known. rewrite Hfonts, Hops.
  destruct regular, bold, mono; repeat split; reflexivity.
Qed.


End Renderer.



(** ** The engine loop *)

Section Loop.
Context (ext : Externals).


Lemma progress_eq reporting f d w :
  progress reporting f d w
  = (Ok tt, {| env := env w;
               events := events w ++ (if reporting then [(f, d)] else []);
               calls := calls w |}).
Proof.
  unfold progress. destruct reporting; [reflexivity|].
  rewrite app_nil_r. destruct w; reflexivity.
Qed.

Lemma run_ok_inv cmd w res w' :
  Subprocess.run ext cmd w = (Ok res, w') ->
  exists out err,
    res = (fst (fst res), out, err)
    /\ fst (spawn ext cmd (env w)) = Exited (fst (fst res)) out err
    /\ env w' = snd (spawn ext cmd (env w))
    /\ events w' = events w.
Proof.
  unfold Subprocess.run.
  destruct (spawn ext cmd (env w)) as [[e|rc out err] e']; [discriminate|].
  intros [= <- <-]. exists out, err. auto.
Qed.

Lemma is_path_file e p c : files e !! p = Some c -> is_path e p = true.
Proof.
  intros H. unfold is_path. rewrite (bool_decide_true (is_Some _)) by eauto.
  apply orb_true_r.
Qed.

Lemma not_is_path_file e p : is_path e p = false -> files e !! p = None.
Proof.
  intros H. destruct (files e !! p) eqn:Hp; [|reflexivity].
  rewrite (is_path_file _ _ _ Hp) in H. discriminate.
Qed.

(** A round that ends well: the engine ran once and exited with zero, one
    report was sent, and the text of the segment, when the engine left
    one, was added to the texts. *)
Lemma whisper_step_ok run_dir language make_srt make_json reporting n_chunks
    idx chunk acc w acc' w' :
  Deluxe.whisper_step ext run_dir language make_srt make_json reporting
    n_chunks idx chunk acc w = (Ok acc', w') ->
  let base := Deluxe.transcript_base run_dir idx in
  let cmd := Deluxe.whisper_cmd ext chunk base language make_srt make_json in
  env w' = snd (spawn ext cmd (env w))
  /\ Spec.exits_zero (fst (spawn ext cmd (env w)))
  /\ events w' = events w ++ chunk_event reporting n_chunks idx
  /\ Deluxe.full_text acc'
     = Deluxe.full_text acc
       ++ option_list (files (env w') !! Pathlib.with_suffix base (py ".txt")).
Proof.
  intros H base cmd. unfold Deluxe.whisper_step in H.
  fold base cmd in H.
  rewrite (bind_ok _ _ _ _ _ (progress_eq _ _ _ w)) in H.
  apply bind_ok_inv in H as ([[rc out] err] & w1 & Hrun & H).
  apply run_ok_inv in Hrun as (out' & err' & _ & Hs & Henv & Hev).
  simpl in Hs, Henv, Hev.
  destruct (Z.eqb_spec rc 0) as [->|Hrc]; [|discriminate]. simpl negb in H.
  cbv iota in H.
  apply bind_ok_inv in H as (has_txt & w2 & Htxt & H).
  injection Htxt as <- <-.
  apply bind_ok_inv in H as (acc1 & w3 & Hacc & H).
  apply bind_ok_inv in H as (has_srt & w4 & Hsrt & H).
  injection Hsrt as <- <-.
  apply bind_ok_inv in H as (has_json & w5 & Hjson & H).
  injection Hjson as <- <-.
  assert (Hw : w3 = w1
               /\ Deluxe.full_text acc1
                  = Deluxe.full_text acc
                    ++ option_list
                         (files (env w1)
                            !! Pathlib.with_suffix base (py ".txt"))).
  { destruct (is_path (env w1) _) eqn:Hp.
    - apply bind_ok_inv in Hacc as (c & w6 & Hread & Hacc).
      unfold read_text in Hread.
      destruct (files (env w1) !! _) eqn:Hf; [|discriminate].
      injection Hread as <- <-. injection Hacc as <- <-. auto.
    - injection Hacc as <- <-. rewrite (not_is_path_file _ _ Hp).
      rewrite app_nil_r. auto. }
  destruct Hw as [-> Hfull].
  assert (Hacc' : Deluxe.full_text acc' = Deluxe.full_text acc1 /\ w' = w1).
  { destruct (is_path (env w1) (Pathlib.with_suffix base (py ".srt")));
      destruct (is_path (env w1) (Pathlib.with_suffix base (py ".json")));
      injection H as <- <-; auto. }
  destruct Hacc' as [-> ->].
  split; [exact Henv|]. split; [rewrite Hs; reflexivity|].
  split; [exact Hev | exact Hfull].
Qed.

Lemma omap_id_cons {A} (o : option A) (l : list (option A)) :
  omap id (o :: l) = option_list o ++ omap id l.
Proof. destruct o; reflexivity. Qed.

(** A loop that ends well has added, in order, the texts the segments
    have, and has sent one report for each segment. *)
Lemma whisper_loop_ok run_dir language make_srt make_json reporting n_chunks
    chunks :
  forall idx acc w acc' w',
    Deluxe.whisper_loop ext run_dir language make_srt make_json reporting
      n_chunks idx chunks acc w = (Ok acc', w') ->
    Deluxe.full_text acc'
    = Deluxe.full_text acc
      ++ omap id (Spec.text_artifacts ext run_dir language make_srt
                    make_json idx chunks (env w))
    /\ events w'
       = events w
         ++ concat (map (chunk_event reporting n_chunks)
                      (seq idx (length chunks))).
Proof.
  induction chunks as [|chunk rest IH]; intros idx acc w acc' w' H.
  - injection H as <- <-. simpl. rewrite !app_nil_r. auto.
  - cbn [Deluxe.whisper_loop] in H.
    apply bind_ok_inv in H as (acc1 & w1 & Hstep & H).
    apply whisper_step_ok in Hstep as (Henv & _ & Hev & Hfull).
    apply IH in H as [Hfull' Hev'].
    cbn [Spec.text_artifacts length seq map concat].
    rewrite omap_id_cons, Hfull', Hfull, Hev', Hev, Henv, <- !app_assoc.
    auto.
Qed.

Lemma whisper_loop_app run_dir language make_srt make_json reporting n_chunks
    l1 l2 :
  forall idx acc w,
    Deluxe.whisper_loop ext run_dir language make_srt make_json reporting
      n_chunks idx (l1 ++ l2) acc w
    = match
        Deluxe.whisper_loop ext run_dir language make_srt make_json
          reporting n_chunks idx l1 acc w
      with
      | (Ok acc1, w1) =>
          Deluxe.whisper_loop ext run_dir language make_srt make_json
            reporting n_chunks (idx + length l1) l2 acc1 w1
      | (Raise e, w1) => (Raise e, w1)
      end.
Proof.
  induction l1 as [|c l1 IH]; intros idx acc w.
  - simpl. rewrite Nat.add_0_r. reflexivity.
  - cbn [app Deluxe.whisper_loop length].
    unfold mbind, M_bind, bind.
    destruct (Deluxe.whisper_step _ _ _ _ _ _ _ _ _ _ w) as [[acc1|e] w1];
      [|reflexivity].
    rewrite IH. replace (idx + S (length l1))%nat with (S idx + length l1)%nat
      by lia.
    reflexivity.
Qed.


(** An engine that exits with a status other than zero: the round raises,
    and what the rounds before had collected is not in what it raises. *)
Lemma whisper_step_fails run_dir language make_srt make_json reporting
    n_chunks idx chunk acc w rc out err e' :
  let cmd :=
    Deluxe.whisper_cmd ext chunk (Deluxe.transcript_base run_dir idx)
      language make_srt make_json in
  spawn ext cmd (env w) = (Exited rc out err, e') ->
  rc <> 0 ->
  Deluxe.whisper_step ext run_dir language make_srt make_json reporting
    n_chunks idx chunk acc w
  = (Raise (RuntimeError
              (Deluxe.whisper_error idx (if truthy err then err else out))),
     after_engine ext reporting n_chunks idx cmd w).
Proof.
  intros cmd Hs Hrc. unfold Deluxe.whisper_step. fold cmd.
  rewrite (bind_ok _ _ _ _ _ (progress_eq _ _ _ w)).
  unfold after_engine, after_child, chunk_event.
  unfold mbind, M_bind, bind, Subprocess.run. cbn [env].
  rewrite Hs. destruct (Z.eqb_spec rc 0); [contradiction|]. reflexivity.
Qed.
End Loop.

(** C8. The transcript [run_whisper] returns is the Aggregator of the
    specification applied to the segments in their order: the texts of
    the segments that have a text artifact when their engine invocation
    is over, in segment order, joined by a blank line.  A segment without
    a text artifact adds nothing, no placeholder and no separator. *)
Theorem transcript_joins_present_texts (ext : Externals)
    (input_file : str) (language : option str) (make_srt make_json : bool)
    (run_id : str) (reporting : bool) (w w1 w' : World) (duration : Q)
    (chunks : list str) (r : Deluxe.whisper_result) :
  let run_dir := Deluxe.OUTPUT_DIR ext // run_id in
  Deluxe.prepare_chunks ext input_file run_dir reporting w
  = (Ok (duration, chunks), w1) ->
  Deluxe.run_whisper ext input_file language make_srt make_json run_id
    reporting w = (Ok r, w') ->
  Deluxe.joined_text r
  = Spec.aggregate
      (Spec.text_artifacts ext run_dir language make_srt make_json 0 chunks
         (env w1))
  /\ (forall before after,
        Spec.aggregate (before ++ None :: after)
        = Spec.aggregate (before ++ after)).
Proof.
  intros run_dir Hprep Hrun. split.
  - unfold Deluxe.run_whisper in Hrun. fold run_dir in Hrun.
    rewrite (bind_ok _ _ _ _ _ Hprep) in Hrun.
    apply bind_ok_inv in Hrun as (acc & w2 & Hloop & Hrun).
    apply bind_ok_inv in Hrun as ([] & w3 & _ & Hrun).
    injection Hrun as <- _. cbn [Deluxe.joined_text].
    apply whisper_loop_ok in Hloop as [-> _]. reflexivity.
  - intros before after. unfold Spec.aggregate.
    rewrite !omap_app. reflexivity.
Qed.

(** C2, as the program has it.  When the engine exits with a status other
    than zero on segment [k], after the segments before it went well,
    [transcribe] returns the description of the error only (the stage,
    the number of the chunk, and what the engine printed), with no
    artifact reference and the history as it was given; the texts
    collected from the earlier segments are not in what it returns. *)
Theorem engine_failure_returns_error_only (ext : Externals)
    (media_file youtube_url language : option str)
    (make_srt make_json make_pdf : bool) (history : option (list str))
    (w w1 w2 w3 : World) (source_desc input_path : str) (duration : Q)
    (chunks : list str) (k : nat) (chunk : str) (acc : Deluxe.collected)
    (rc : Z) (out err : str) (e' : Env) :
  let run_id := strftime_run_id (clock (env w)) in
  let run_dir := Deluxe.OUTPUT_DIR ext // run_id in
  let cmd :=
    Deluxe.whisper_cmd ext chunk (Deluxe.transcript_base run_dir k)
      language make_srt make_json in
  is_path (env w) (Deluxe.WHISPER_BIN ext) = true ->
  is_path (env w) (Deluxe.MODEL_PATH ext) = true ->
  Deluxe.resolve_input ext media_file youtube_url run_id
    (snd (progress true 0.01%Q (py "Préparation...") w))
  = (Ok (Some (source_desc, input_path)), w1) ->
  Deluxe.prepare_chunks ext input_path run_dir true w1
  = (Ok (duration, chunks), w2) ->
  Deluxe.whisper_loop ext run_dir language make_srt make_json true
    (length chunks) 0 (take k chunks)
    {| Deluxe.full_text := []; Deluxe.txt_files := [];
       Deluxe.srt_files := []; Deluxe.json_files := [] |} w2
  = (Ok acc, w3) ->
  chunks !! k = Some chunk ->
  spawn ext cmd (env w3) = (Exited rc out err, e') ->
  rc <> 0 ->
  Deluxe.transcribe ext media_file youtube_url language make_srt make_json
    make_pdf history w
  = (Ok (Deluxe.failed
           (py "Erreur pendant le traitement : "
            ++ Deluxe.whisper_error k (if truthy err then err else out))
           history),
     after_engine ext true (length chunks) k cmd w3).
Proof.
  intros run_id run_dir cmd Hbin Hmodel Hres Hprep Hloop Hk Hs Hrc.
  rewrite transcribe_eq, Hbin, Hmodel. cbn [negb].
  fold run_id.
  assert (Hraise :
    Deluxe.whisper_loop ext run_dir language make_srt make_json true
      (length chunks) 0 chunks
      {| Deluxe.full_text := []; Deluxe.txt_files := [];
         Deluxe.srt_files := []; Deluxe.json_files := [] |} w2
    = (Raise (RuntimeError
                (Deluxe.whisper_error k (if truthy err then err else out))),
       after_engine ext true (length chunks) k cmd w3)).
  { rewrite <- (take_drop_middle chunks k chunk Hk) at 2.
    rewrite whisper_loop_app, Hloop. cbn [Deluxe.whisper_loop].
    assert (Hlen : (0 + length (take k chunks))%nat = k).
    { rewrite length_take. apply lookup_lt_Some in Hk. lia. }
    rewrite Hlen.
    apply bind_raise. eapply whisper_step_fails; eassumption. }
  assert (Htry :
    Deluxe.transcribe_try ext media_file youtube_url language make_srt
      make_json make_pdf history run_id w
    = (Raise (RuntimeError
                (Deluxe.whisper_error k (if truthy err then err else out))),
       after_engine ext true (length chunks) k cmd w3)).
  { unfold Deluxe.transcribe_try.
    rewrite (bind_ok (progress true 0.01%Q (py "Préparation...")) _ w tt
               (snd (progress true 0.01%Q (py "Préparation...") w)) eq_refl).
    rewrite (bind_ok _ _ _ _ _ Hres).
    unfold Deluxe.transcribe_run. apply bind_raise.
    unfold Deluxe.run_whisper. fold run_dir.
    rewrite (bind_ok _ _ _ _ _ Hprep).
    apply bind_raise. exact Hraise. }
  rewrite Htry. reflexivity.
Qed.

(** C2 fails as stated: the first chunk is transcribed to [hello], the
    engine breaks on the second, and what the caller gets is the error
    alone; the text of the first chunk is in its file and nowhere in the
    values returned. *)
Lemma partial_transcript_not_returned :
  files (env (Fixture.world Fixture.broken_run))
    !! (Fixture.run_dir_5 ++ py "/transcript_000.txt") = Some (py "hello")
  /\ Fixture.value Fixture.broken_run
     = Some (Deluxe.failed
               (py "Erreur pendant le traitement : Erreur WhisperCLI (chunk 2):"
                ++ [10%N] ++ py "boom") None)
  /\ (fun out => contains (Deluxe.out_text out) (py "hello"))
       <$> Fixture.value Fixture.broken_run
     = Some false.
Proof.
  repeat split; vm_compute; reflexivity.
Qed.

(** ** Progress *)


Section Fractions.

Local Open Scope Q_scope.

Lemma chunk_fraction_mono (i j n : nat) :
  (i <= j)%nat -> Deluxe.chunk_fraction i n <= Deluxe.chunk_fraction j n.
Proof.
  intros Hij. unfold Deluxe.chunk_fraction.
  assert (H : inject_Z (Z.of_nat i) / inject_Z (Z.of_nat (Nat.max n 1))
              <= inject_Z (Z.of_nat j) / inject_Z (Z.of_nat (Nat.max n 1))).
  { unfold Qdiv. apply Qmult_le_compat_r.
    - rewrite <- Zle_Qle. lia.
    - apply Qinv_le_0_compat. change 0 with (inject_Z 0).
      rewrite <- Zle_Qle. lia. }
  lra.
Qed.

Lemma chunk_fraction_bounds (i n : nat) :
  (i < n)%nat ->
  0.1 <= Deluxe.chunk_fraction i n /\ Deluxe.chunk_fraction i n <= 0.9.
Proof.
  intros Hi. unfold Deluxe.chunk_fraction.
  set (m := inject_Z (Z.of_nat (Nat.max n 1))).
  assert (Hm : 0 < m).
  { unfold m. change 0 with (inject_Z 0). rewrite <- Zlt_Qlt. lia. }
  assert (H0 : 0 <= inject_Z (Z.of_nat i) / m).
  { apply Qle_shift_div_l; [exact Hm|]. rewrite Qmult_0_l.
    change 0 with (inject_Z 0). rewrite <- Zle_Qle. lia. }
  assert (H1 : inject_Z (Z.of_nat i) / m <= 1).
  { apply Qle_shift_div_r; [exact Hm|]. rewrite Qmult_1_l.
    unfold m. rewrite <- Zle_Qle. lia. }
  lra.
Qed.

Lemma chunk_fractions_sorted (n a len : nat) :
  StronglySorted Qle
    (map (fun i => Deluxe.chunk_fraction i n) (seq a len)).
Proof.
  revert a. induction len as [|len IH]; intros a; simpl.
  - constructor.
  - constructor; [apply IH|].
    apply Forall_forall. intros x Hx.
    apply list_elem_of_fmap in Hx as (j & -> & Hj).
    apply elem_of_seq in Hj. apply chunk_fraction_mono. lia.
Qed.

Lemma run_fractions_sorted (downloads : bool) (n : nat) :
  StronglySorted Qle (run_fractions downloads n).
Proof.
  unfold run_fractions.
  assert (Hmid : forall x,
            x ∈ map (fun i => Deluxe.chunk_fraction i n) (seq 0 n) ->
            0.1 <= x /\ x <= 0.9).
  { intros x Hx. apply list_elem_of_fmap in Hx as (j & -> & Hj).
    apply elem_of_seq in Hj. apply chunk_fraction_bounds. lia. }
  assert (Htail : StronglySorted Qle
                    (map (fun i => Deluxe.chunk_fraction i n) (seq 0 n)
                     ++ [0.95; 1.0])).
  { apply StronglySorted_app_2.
    - intros x y Hx Hy. apply Hmid in Hx.
      rewrite elem_of_cons, list_elem_of_singleton in Hy.
      destruct Hy as [-> | ->]; lra.
    - apply chunk_fractions_sorted.
    - repeat constructor. lra. }
  assert (Hall : forall y,
            y ∈ [0.05] ++ map (fun i => Deluxe.chunk_fraction i n) (seq 0 n)
                ++ [0.95; 1.0] -> 0.05 <= y).
  { intros y Hy. rewrite !elem_of_app, list_elem_of_singleton,
      elem_of_cons, list_elem_of_singleton in Hy.
    destruct Hy as [-> | [Hy | [-> | ->]]]; try lra.
    apply Hmid in Hy. lra. }
  assert (H5 : StronglySorted Qle
                 ([0.05] ++ map (fun i => Deluxe.chunk_fraction i n) (seq 0 n)
                  ++ [0.95; 1.0])).
  { constructor; [exact Htail|]. apply Forall_forall. intros y Hy.
    apply Hall. right. exact Hy. }
  constructor.
  - destruct downloads; [|exact H5].
    constructor; [exact H5|]. apply Forall_forall. intros y Hy.
    apply Hall. exact Hy.
  - apply Forall_forall. intros y Hy.
    assert (0.05 <= y); [|lra].
    destruct downloads; [|apply Hall; exact Hy].
    apply elem_of_cons in Hy as [-> | Hy]; [lra | apply Hall; exact Hy].
Qed.

Lemma sorted_nondecreasing (l : list Q) :
  StronglySorted Qle l -> Spec.nondecreasing l.
Proof.
  induction 1 as [|a l Hs IH Ha]; intros i j x y Hij Hi Hj.
  - rewrite lookup_nil in Hi. discriminate.
  - destruct i as [|i], j as [|j]; simpl in Hi, Hj.
    + injection Hi as <-. injection Hj as <-. apply Qle_refl.
    + injection Hi as <-. rewrite Forall_forall in Ha. apply Ha.
      eapply list_elem_of_lookup_2. exact Hj.
    + lia.
    + eapply IH; [|exact Hi|exact Hj]. lia.
Qed.

Lemma run_fractions_last (downloads : bool) (n : nat) :
  last (run_fractions downloads n) = Some 1.0.
Proof.
  unfold run_fractions. rewrite !app_assoc.
  change [0.95; 1.0] with ([0.95] ++ [1.0]). rewrite app_assoc.
  apply last_snoc.
Qed.

End Fractions.

Section Events.

Context (ext : Externals).

Lemma quiet_events {A} (m : M A) w r w' :
  quiet m -> m w = (r, w') -> events w' = events w.
Proof. intros Hq H. specialize (Hq w). rewrite H in Hq. exact Hq. Qed.

Lemma quiet_split_loop audio_path run_dir T indices :
  forall acc, quiet (Deluxe.split_loop ext audio_path run_dir T indices acc).
Proof.
  induction indices as [|i rest IH]; intros acc; simpl; auto with quiet.
Qed.

Lemma quiet_split_long_audio audio_path run_dir T :
  quiet (Deluxe.split_long_audio ext audio_path run_dir T).
Proof.
  unfold Deluxe.split_long_audio, Deluxe.ceil_div.
  apply quiet_bind; [auto with quiet|]. intros d.
  apply quiet_if; [auto with quiet|].
  apply quiet_bind; [destruct (T =? 0); auto with quiet|].
  intros n. apply quiet_split_loop.
Qed.

Lemma quiet_extract_audio_if_needed path run_dir :
  quiet (Deluxe.extract_audio_if_needed ext path run_dir).
Proof. unfold Deluxe.extract_audio_if_needed. auto with quiet. Qed.

Lemma quiet_download_youtube_audio url run_id :
  quiet (Deluxe.download_youtube_audio ext url run_id).
Proof.
  unfold Deluxe.download_youtube_audio.
  apply quiet_bind; [auto with quiet|]. intros _ w.
  unfold Deluxe.youtube_dl. destruct (ydl_download _ _ _ _); reflexivity.
Qed.

Lemma quiet_make_pdf_from_text text run_dir :
  quiet (Deluxe.make_pdf_from_text ext text run_dir).
Proof.
  assert (Hfont : forall family style fname pdf,
            quiet (Deluxe.try_add_font ext family style fname pdf)).
  { intros. intros w. rewrite try_add_font_eq. reflexivity. }
  assert (Hset : forall style size pdf,
            quiet (Deluxe.set_font_or_helvetica style size pdf)).
  { intros. intros w. rewrite set_font_or_helvetica_eq. reflexivity. }
  assert (Himage : forall name x y width pdf,
            quiet (Deluxe.image ext name x y width pdf)).
  { intros. intros w. unfold Deluxe.image.
    destruct (image_loads _ _ _); reflexivity. }
  assert (Hout : forall name pdf, quiet (Deluxe.output ext name pdf)).
  { intros. intros w. unfold Deluxe.output.
    destruct (writable _ _ _); reflexivity. }
  unfold Deluxe.make_pdf_from_text.
  repeat (apply quiet_bind; [auto with quiet | intros ?]);
    auto with quiet.
Qed.

(** The sizes of what the splitter returns. *)
Lemma split_loop_length audio_path run_dir T indices :
  forall acc w l w',
    Deluxe.split_loop ext audio_path run_dir T indices acc w = (Ok l, w') ->
    length l = (length acc + length indices)%nat.
Proof.
  induction indices as [|i rest IH]; intros acc w l w' H; simpl in H.
  - injection H as <- _. simpl. lia.
  - apply bind_ok_inv in H as ([] & w1 & _ & H).
    apply IH in H. rewrite H, length_app. simpl. lia.
Qed.

Lemma split_long_audio_nonempty audio_path run_dir T w l w' :
  0 < T ->
  Deluxe.split_long_audio ext audio_path run_dir T w = (Ok l, w') ->
  (1 <= length l)%nat.
Proof.
  intros HT H. unfold Deluxe.split_long_audio in H.
  apply bind_ok_inv in H as (d & w1 & _ & H).
  destruct (Qle_bool d (inject_Z T) || Qle_bool d 0) eqn:Hd.
  - injection H as <- _. simpl. lia.
  - apply orb_false_iff in Hd as [Hd _].
    apply bind_ok_inv in H as (n & w2 & Hn & H).
    unfold Deluxe.ceil_div in Hn.
    destruct (T =? 0); [discriminate|]. injection Hn as <- <-.
    apply split_loop_length in H. rewrite H, length_seq. simpl.
    assert (Hlt : (inject_Z T < d)%Q).
    { apply Qnot_le_lt. rewrite <- Qle_bool_iff, Hd. discriminate. }
    pose proof (ceil_at_least_two d T HT Hlt). lia.
Qed.

End Events.

Section Trace.

Context (ext : Externals).

Lemma chunk_events_fractions (n : nat) (indices : list nat) :
  map fst (concat (map (chunk_event true n) indices))
  = map (fun i => Deluxe.chunk_fraction i n) indices.
Proof.
  induction indices as [|i rest IH]; simpl; [reflexivity|].
  rewrite IH. reflexivity.
Qed.

Lemma prepare_chunks_ok input_file run_dir reporting w duration chunks w1 :
  Deluxe.prepare_chunks ext input_file run_dir reporting w
  = (Ok (duration, chunks), w1) ->
  events w1
  = events w
    ++ (if reporting then [(0.05%Q, py "Extraction audio...")] else [])
  /\ (1 <= length chunks)%nat.
Proof.
  intros H. unfold Deluxe.prepare_chunks in H.
  apply bind_ok_inv in H as ([] & wa & Hmk & H).
  apply (quiet_events _ _ _ _ (quiet_mkdir _)) in Hmk.
  rewrite (bind_ok _ _ _ _ _ (progress_eq _ _ _ wa)) in H.
  apply bind_ok_inv in H as (audio_path & wb & Hex & H).
  apply (quiet_events _ _ _ _ (quiet_extract_audio_if_needed ext _ _)) in Hex.
  apply bind_ok_inv in H as (d & wc & Hd & H).
  apply (quiet_events _ _ _ _ (quiet_get_media_duration_seconds ext _)) in Hd.
  apply bind_ok_inv in H as (l & wd & Hsplit & H).
  injection H as <- <- <-.
  split.
  - rewrite (quiet_events _ _ _ _ (quiet_split_long_audio ext _ _ _) Hsplit).
    rewrite Hd, Hex. simpl. rewrite Hmk. reflexivity.
  - eapply split_long_audio_nonempty; [|exact Hsplit]. lia.
Qed.

Lemma run_whisper_ok_fractions input_file language make_srt make_json run_id
    w r w' :
  Deluxe.run_whisper ext input_file language make_srt make_json run_id true w
  = (Ok r, w') ->
  exists n,
    (1 <= n)%nat
    /\ map fst (events w')
       = map fst (events w) ++ [0.05%Q]
         ++ map (fun i => Deluxe.chunk_fraction i n) (seq 0 n) ++ [0.95%Q].
Proof.
  intros H. unfold Deluxe.run_whisper in H.
  apply bind_ok_inv in H as ([duration chunks] & w1 & Hprep & H).
  apply prepare_chunks_ok in Hprep as [Hev1 Hn].
  apply bind_ok_inv in H as (acc & w2 & Hloop & H).
  apply whisper_loop_ok in Hloop as [_ Hev2].
  rewrite (bind_ok _ _ _ _ _ (progress_eq _ _ _ w2)) in H.
  injection H as _ <-.
  exists (length chunks). split; [exact Hn|].
  cbn [events]. rewrite Hev2, Hev1, !List.map_app, chunk_events_fractions.
  rewrite <- !app_assoc. reflexivity.
Qed.

Lemma resolve_input_ok_fractions media_file youtube_url run_id w input w1 :
  Deluxe.resolve_input ext media_file youtube_url run_id w = (Ok input, w1) ->
  map fst (events w1)
  = map fst (events w)
    ++ (if Deluxe.url_given youtube_url then [0.05%Q] else [])
  /\ (Deluxe.url_given youtube_url || Deluxe.file_given media_file = true ->
      is_Some input).
Proof.
  intros H. unfold Deluxe.resolve_input in H.
  destruct (Deluxe.url_given youtube_url).
  - rewrite (bind_ok _ _ _ _ _ (progress_eq _ _ _ w)) in H.
    apply bind_ok_inv in H as (p & w2 & Hdl & H).
    apply (quiet_events _ _ _ _ (quiet_download_youtube_audio ext _ _))
      in Hdl.
    injection H as <- <-. rewrite Hdl. cbn [events].
    rewrite List.map_app. split; [reflexivity | eauto].
  - destruct (Deluxe.file_given media_file); injection H as <- <-;
      rewrite app_nil_r; split; eauto. discriminate.
Qed.

End Trace.

(** C5. The fractions a successful run reports are, in order: 0.01 for
    the preparation, 0.05 for the download when the source is a URL,
    0.05 for the extraction, [0.1 + 0.8·(i/n)] for each of the [n ≥ 1]
    segments in segment order, 0.95 for the finalization and 1.0 for the
    completion.  This sequence never goes down and its last element is
    exactly 1.0. *)
Theorem progress_never_goes_down (ext : Externals) :
  (forall downloads n,
     Spec.nondecreasing (run_fractions downloads n)
     /\ last (run_fractions downloads n) = Some 1.0%Q)
  /\ (forall media_file youtube_url language make_srt make_json make_pdf
        history run_id w out w',
        Deluxe.url_given youtube_url || Deluxe.file_given media_file = true ->
        Deluxe.transcribe_try ext media_file youtube_url language make_srt
          make_json make_pdf history run_id w = (Ok out, w') ->
        exists n,
          (1 <= n)%nat
          /\ map fst (events w')
             = map fst (events w)
               ++ run_fractions (Deluxe.url_given youtube_url) n).
Proof.
  split.
  - intros downloads n. split.
    + apply sorted_nondecreasing, run_fractions_sorted.
    + apply run_fractions_last.
  - intros media_file youtube_url language make_srt make_json make_pdf
      history run_id w out w' Hgiven H.
    unfold Deluxe.transcribe_try in H.
    rewrite (bind_ok _ _ _ _ _ (progress_eq _ _ _ w)) in H.
    apply bind_ok_inv in H as (input & w1 & Hres & H).
    apply resolve_input_ok_fractions in Hres as [Hev1 Hsome].
    destruct (Hsome Hgiven) as [[source_desc input_path] ->].
    unfold Deluxe.transcribe_run in H.
    apply bind_ok_inv in H as (r & w2 & Hrun & H).
    apply run_whisper_ok_fractions in Hrun as (n & Hn & Hev2).
    apply bind_ok_inv in H as (pdf_file & w3 & Hpdf & H).
    assert (Hev3 : events w3 = events w2).
    { destruct make_pdf.
      - apply bind_ok_inv in Hpdf as (p & w4 & Hpdf & Hret).
        injection Hret as _ <-.
        apply (quiet_events _ _ _ _ (quiet_make_pdf_from_text ext _ _) Hpdf).
      - injection Hpdf as _ <-. reflexivity. }
    apply bind_ok_inv in H as (t & w4 & Hnow & H).
    injection Hnow as _ <-.
    rewrite (bind_ok _ _ _ _ _ (progress_eq _ _ _ w3)) in H.
    injection H as _ <-.
    exists n. split; [exact Hn|].
    cbn [events]. rewrite Hev3, List.map_app, Hev2, Hev1. cbn [events].
    rewrite !List.map_app. unfold run_fractions. cbn [map fst].
    rewrite <- !app_assoc. reflexivity.
Qed.

(** ** The properties at work on the small world *)


(** C2 at work: the long upload whose second chunk breaks the engine. *)
Lemma engine_failure_returns_error_only_witness :
  Deluxe.transcribe Fixture.breaks_on_second Fixture.talk None
    (Some (py "fr")) true false true None Fixture.w_start
  = (Ok (Deluxe.failed
           (py "Erreur pendant le traitement : "
            ++ Deluxe.whisper_error 1
                 (if truthy (py "boom") then py "boom" else [])) None),
     after_engine Fixture.breaks_on_second true (length Fixture.two_paths) 1
       (Deluxe.whisper_cmd Fixture.breaks_on_second
          (Fixture.run_dir_5 ++ py "/chunk_001.wav")
          (Deluxe.transcript_base
             (Fixture.run_dir Fixture.breaks_on_second) 1)
          (Some (py "fr")) true false)
       (snd (Fixture.rounds Fixture.breaks_on_second Fixture.talk None
               (Some (py "fr")) true false (py "/in/talk.mp3")
               Fixture.two_paths 1))).
Proof.
  apply (engine_failure_returns_error_only Fixture.breaks_on_second
           Fixture.talk None (Some (py "fr")) true false true None
           Fixture.w_start
           (snd (Fixture.resolved Fixture.breaks_on_second Fixture.talk None))
           (snd (Fixture.prepared Fixture.breaks_on_second Fixture.talk None
                   (py "/in/talk.mp3")))
           (snd (Fixture.rounds Fixture.breaks_on_second Fixture.talk None
                   (Some (py "fr")) true false (py "/in/talk.mp3")
                   Fixture.two_paths 1))
           (py "Fichier upload: talk.mp3") (py "/in/talk.mp3")
           Fixture.nine_thousand Fixture.two_paths 1
           (Fixture.run_dir_5 ++ py "/chunk_001.wav")
           Fixture.hello_collected 1 [] (py "boom")
           (snd (spawn Fixture.breaks_on_second
                   (Deluxe.whisper_cmd Fixture.breaks_on_second
                      (Fixture.run_dir_5 ++ py "/chunk_001.wav")
                      (Deluxe.transcript_base
                         (Fixture.run_dir Fixture.breaks_on_second) 1)
                      (Some (py "fr")) true false)
                   (env (snd (Fixture.rounds Fixture.breaks_on_second
                                Fixture.talk None (Some (py "fr")) true false
                                (py "/in/talk.mp3") Fixture.two_paths 1)))))).
  - vm_compute. reflexivity.
  - vm_compute. reflexivity.
  - apply (paired (Fixture.resolved Fixture.breaks_on_second Fixture.talk
                     None)).
    vm_compute. reflexivity.
  - apply (paired (Fixture.prepared Fixture.breaks_on_second Fixture.talk None
                     (py "/in/talk.mp3"))).
    vm_compute. reflexivity.
  - apply (paired (Fixture.rounds Fixture.breaks_on_second Fixture.talk None
                     (Some (py "fr")) true false (py "/in/talk.mp3")
                     Fixture.two_paths 1)).
    vm_compute. reflexivity.
  - vm_compute. reflexivity.
  - apply paired. vm_compute. reflexivity.
  - lia.
Defined.


(** C4 at work: eleven runs on a history of one entry. *)
Lemma history_keeps_ten_most_recent_witness :
  (10 < length Fixture.eleven)%nat
  /\ Spec.completions (Some [py "old"]) Fixture.eleven
     = Some (take 10 (rev Fixture.eleven)).
Proof.
  assert (H : (10 < length Fixture.eleven)%nat) by (vm_compute; lia).
  split; [exact H|].
  destruct (history_keeps_ten_most_recent (Some [py "old"]) Fixture.eleven H)
    as (snapshot & Heq & _ & ->).
  exact Heq.
Defined.

(** C5 at work: the reports of a short upload rendered to a document. *)
Lemma progress_never_goes_down_witness :
  exists n,
    (1 <= n)%nat
    /\ map fst
         (events
            (snd (Deluxe.transcribe_try Fixture.short Fixture.talk None
                    (Some (py "fr")) false false true None
                    (py "20240102_030405") Fixture.w_start)))
       = map fst (events Fixture.w_start) ++ run_fractions false n.
Proof.
  eapply (proj2 (progress_never_goes_down Fixture.short) Fixture.talk None
            (Some (py "fr")) false false true None (py "20240102_030405")
            Fixture.w_start).
  - vm_compute. reflexivity.
  - apply paired. vm_compute. reflexivity.
Defined.

(** C6 at work: two spaces add nothing, [" fr "] adds [-l fr]. *)
Lemma language_hint_argument_witness :
  Deluxe.whisper_cmd Fixture.short Fixture.audio_5
    (Deluxe.transcript_base Fixture.run_dir_5 0) (Some (py "  ")) true false
  = [Deluxe.WHISPER_BIN Fixture.short; py "-m";
     Deluxe.MODEL_PATH Fixture.short; py "-f"; Fixture.audio_5; py "-otxt";
     py "-of"; Deluxe.transcript_base Fixture.run_dir_5 0]
    ++ [py "-osrt"] ++ []
  /\ exists hint,
       Some (py " fr ") = Some hint
       /\ Webui.whisper_cmd Fixture.short (py "/in/talk.mp3")
            (py "/tmp/tmp0/out") (Some (py " fr ")) false
          = [Webui.WHISPER_BIN Fixture.short; py "-m";
             Webui.MODEL_PATH Fixture.short; py "-f"; py "/in/talk.mp3";
             py "-otxt"; py "-of"; py "/tmp/tmp0/out"]
            ++ [py "-l"; strip hint] ++ [].
Proof.
  split.
  - destruct (language_hint_argument Fixture.short (Some (py "  ")))
      as (Hblank & _).
    apply Hblank. repeat constructor.
  - destruct (language_hint_argument Fixture.short (Some (py " fr ")))
      as (_ & Hhint & _).
    destruct Hhint as (hint & Heq & _ & Hweb).
    + intros H. apply language_given_blank in H. vm_compute in H.
      discriminate H.
    + exists hint. split; [exact Heq | apply Hweb].
Defined.

(** C7 at work: a probe that prints [N/A]. *)
Lemma prober_failure_is_zero_witness :
  Deluxe.get_media_duration_seconds Fixture.unknown_duration Fixture.audio_5
    Fixture.w_start
  = (Ok 0%Q,
     after_child Fixture.unknown_duration
       (Deluxe.ffprobe_cmd Fixture.audio_5) Fixture.w_start)
  /\ Deluxe.split_long_audio Fixture.unknown_duration Fixture.audio_5
       Fixture.run_dir_5 7200 Fixture.w_start
     = (Ok [Fixture.audio_5],
        after_child Fixture.unknown_duration
          (Deluxe.ffprobe_cmd Fixture.audio_5) Fixture.w_start).
Proof.
  apply prober_failure_is_zero.
  vm_compute. right. reflexivity.
Defined.

(** C8 at work: two chunks, the second without a text file. *)
Lemma transcript_joins_present_texts_witness :
  exists r,
    fst (Deluxe.run_whisper Fixture.two_chunks (py "/in/talk.mp3")
           (Some (py "fr")) true false (py "20240102_030405") true
           (snd (Fixture.resolved Fixture.two_chunks Fixture.talk None)))
    = Ok r
    /\ Deluxe.joined_text r
       = Spec.aggregate
           (Spec.text_artifacts Fixture.two_chunks
              (Deluxe.OUTPUT_DIR Fixture.two_chunks // py "20240102_030405")
              (Some (py "fr")) true false 0 Fixture.two_paths
              (env (snd (Deluxe.prepare_chunks Fixture.two_chunks
                           (py "/in/talk.mp3")
                           (Deluxe.OUTPUT_DIR Fixture.two_chunks
                            // py "20240102_030405") true
                           (snd (Fixture.resolved Fixture.two_chunks
                                   Fixture.talk None)))))).
Proof.
  eexists. split.
  - vm_compute. reflexivity.
  - eapply (transcript_joins_present_texts Fixture.two_chunks
              (py "/in/talk.mp3") (Some (py "fr")) true false
              (py "20240102_030405") true
              (snd (Fixture.resolved Fixture.two_chunks Fixture.talk None))).
    + apply paired. vm_compute. reflexivity.
    + apply paired. vm_compute. reflexivity.
Defined.


(** C10 at work: neither a file nor a URL. *)
Lemma fatal_failure_returns_history_unchanged_witness :
  exists out w',
    Deluxe.transcribe Fixture.short None None (Some (py "fr")) true false
      true (Some [py "old"]) Fixture.w_start = (Ok out, w')
    /\ Deluxe.out_history out = Some [py "old"]
    /\ Deluxe.out_txt_file out = None
    /\ Deluxe.out_srt_file out = None
    /\ Deluxe.out_pdf_file out = None
    /\ Deluxe.out_json_file out = None.
Proof.
  apply fatal_failure_returns_history_unchanged.
  right. right. left. split; reflexivity.
Defined.

(** * Part III: further properties of the code *)

(** ** Decimal numerals *)

Lemma digits_value_acc (d : Decimal.uint) (acc : positive) :
  digits_value (chars d) (Npos acc) = Npos (Pos.of_uint_acc d acc).
Proof.
  revert acc. unfold chars.
  induction d; intros acc; simpl; [reflexivity|..];
    match goal with
    | |- digits_value _ ?a = _ =>
        match goal with
        | |- _ = N.pos (Pos.of_uint_acc _ ?b) =>
            replace a with (N.pos b) by lia
        end
    end; apply IHd.
Qed.

Lemma digits_value_uint (d : Decimal.uint) :
  digits_value (chars d) 0 = Pos.of_uint d.
Proof.
  unfold chars. induction d; simpl; [reflexivity | exact IHd |..];
    match goal with
    | |- digits_value _ ?a = N.pos (Pos.of_uint_acc _ ?b) =>
        change a with (N.pos b)
    end; apply digits_value_acc.
Qed.

Lemma digits_value_str_of_nat (n : nat) :
  digits_value (str_of_nat n) 0 = N.of_nat n.
Proof.
  unfold str_of_nat, str_of_Z.
  pose proof (DecimalZ.of_to (Z.of_nat n)) as H.
  destruct (Z.to_int (Z.of_nat n)) as [d|d] eqn:Hd.
  - simpl in H. unfold Z.of_uint in H.
    assert (Hv : digits_value (chars d) 0 = N.of_nat n).
    { rewrite digits_value_uint. lia. }
    unfold NilZero.string_of_int, NilZero.string_of_uint.
    destruct d; exact Hv.
  - simpl in H. unfold Z.of_uint in H.
    destruct (Pos.of_uint d) eqn:Hp; simpl in H; [|lia].
    destruct n; [|lia]. simpl in Hd. discriminate.
Qed.

Lemma digits_value_zeros (k : nat) (s : str) :
  digits_value (replicate k 48%N ++ s) 0 = digits_value s 0.
Proof. induction k; simpl; [reflexivity | exact IHk]. Qed.

Lemma digits_value_zfill (w n : nat) :
  digits_value (zfill w n) 0 = N.of_nat n.
Proof.
  unfold zfill. rewrite digits_value_zeros. apply digits_value_str_of_nat.
Qed.

(** ** Names *)

Section Names.

Lemma zfill_inj (w i j : nat) : zfill w i = zfill w j -> i = j.
Proof.
  intros H. apply (f_equal (fun s => digits_value s 0)) in H.
  rewrite !digits_value_zfill in H. lia.
Qed.

Lemma zfill_2_length (n : nat) : (n < 100)%nat -> length (zfill 2 n) = 2%nat.
Proof.
  intros Hn.
  assert (H : forallb (fun n => Nat.eqb (length (zfill 2 n)) 2) (seq 0 100)
              = true) by (vm_compute; reflexivity).
  rewrite forallb_forall in H. apply Nat.eqb_eq, H, in_seq. lia.
Qed.

Lemma zfill_4_length (n : nat) :
  (n < 100 * 100)%nat -> length (zfill 4 n) = 4%nat.
Proof.
  intros Hn.
  assert (H : forallb (fun n => Nat.eqb (length (zfill 4 n)) 4)
                (seq 0 (100 * 100)) = true) by (vm_compute; reflexivity).
  rewrite forallb_forall in H. apply Nat.eqb_eq, H, in_seq. lia.
Qed.

End Names.

(** X1. Two different ordinals never share a chunk file [chunk_NNN.wav]
    or a transcript base [transcript_NNN] of one run directory, also past
    999 where the name outgrows its three digits; so the chunk paths of
    one split are pairwise distinct. *)
Theorem segment_names_are_distinct (run_dir : str) (i j n : nat) :
  (Deluxe.chunk_path run_dir i = Deluxe.chunk_path run_dir j -> i = j)
  /\ (Deluxe.transcript_base run_dir i = Deluxe.transcript_base run_dir j ->
      i = j)
  /\ NoDup (map (Deluxe.chunk_path run_dir) (seq 0 n)).
Proof.
  assert (Hchunk : forall a b,
            Deluxe.chunk_path run_dir a = Deluxe.chunk_path run_dir b ->
            a = b).
  { intros a b H. unfold Deluxe.chunk_path, Pathlib.joinpath in H.
    do 3 apply app_inv_head in H. apply app_inv_tail in H.
    exact (zfill_inj _ _ _ H). }
  split; [apply Hchunk|]. split.
  - intros H. unfold Deluxe.transcript_base, Pathlib.joinpath in H.
    do 3 apply app_inv_head in H. exact (zfill_inj _ _ _ H).
  - apply NoDup_fmap_2_strong; [|apply NoDup_seq].
    intros a b _ _. apply Hchunk.
Qed.

(** X2. For instants with a year of four digits, two run identifiers
    ([%Y%m%d_%H%M%S]) are equal exactly when the two instants agree on
    year, month, day, hour, minute and second: runs of different seconds
    never share a working directory, runs of one second always do. *)
Theorem run_id_tells_seconds_apart (t1 t2 : datetime) :
  calendar t1 -> calendar t2 ->
  strftime_run_id t1 = strftime_run_id t2 <-> Spec.same_second t1 t2.
Proof.
  intros ((_ & Hy1) & Hm1 & Hd1 & Hh1 & Hmi1 & Hs1)
         ((_ & Hy2) & Hm2 & Hd2 & Hh2 & Hmi2 & Hs2).
  split.
  - unfold strftime_run_id. intros H.
    apply app_inj_1 in H as [Hy H];
      [|rewrite !zfill_4_length by assumption; reflexivity].
    apply app_inj_1 in H as [Hm H];
      [|rewrite !zfill_2_length by assumption; reflexivity].
    apply app_inj_1 in H as [Hd H];
      [|rewrite !zfill_2_length by assumption; reflexivity].
    apply app_inv_head in H.
    apply app_inj_1 in H as [Hh H];
      [|rewrite !zfill_2_length by assumption; reflexivity].
    apply app_inj_1 in H as [Hmi Hs];
      [|rewrite !zfill_2_length by assumption; reflexivity].
    repeat split; eapply zfill_inj; eassumption.
  - intros (Hy & Hm & Hd & Hh & Hmi & Hs).
    unfold strftime_run_id. rewrite Hy, Hm, Hd, Hh, Hmi, Hs. reflexivity.
Qed.

(** ** The progress sink *)

Section Agree.

Context (ext : Externals).

Lemma agree_ret {A} (a : A) : agree (ret a) (ret a).
Proof. intros w1 w2 H. auto. Qed.

Lemma agree_raise {A} e : agree (raise e : M A) (raise e).
Proof. intros w1 w2 H. auto. Qed.

Lemma agree_bind {A B} (m1 m2 : M A) (k1 k2 : A -> M B) :
  agree m1 m2 -> (forall a, agree (k1 a) (k2 a)) ->
  agree (m1 ≫= k1) (m2 ≫= k2).
Proof.
  intros Hm Hk w1 w2 H. unfold mbind, M_bind, bind.
  destruct (Hm w1 w2 H) as [Hr Hw].
  destruct (m1 w1) as [[a1|e1] w1'], (m2 w2) as [[a2|e2] w2'];
    simpl in Hr, Hw; try discriminate.
  - injection Hr as ->. apply Hk. exact Hw.
  - injection Hr as ->. simpl. auto.
Qed.

Lemma agree_try {A} (m1 m2 : M A) (h1 h2 : exn -> M A) :
  agree m1 m2 -> (forall e, agree (h1 e) (h2 e)) ->
  agree (try_except m1 h1) (try_except m2 h2).
Proof.
  intros Hm Hh w1 w2 H. unfold try_except.
  destruct (Hm w1 w2 H) as [Hr Hw].
  destruct (m1 w1) as [[a1|e1] w1'], (m2 w2) as [[a2|e2] w2'];
    simpl in Hr, Hw; try discriminate.
  - simpl. auto.
  - injection Hr as ->. apply Hh. exact Hw.
Qed.

Lemma agree_if {A} (b : bool) (m1 m2 n1 n2 : M A) :
  agree m1 m2 -> agree n1 n2 ->
  agree (if b then m1 else n1) (if b then m2 else n2).
Proof. destruct b; auto. Qed.

(** Reporting or not makes no difference outside the sink. *)
Lemma agree_progress b1 b2 f d : agree (progress b1 f d) (progress b2 f d).
Proof.
  intros w1 w2 [He Hc]. unfold progress, same_outside.
  destruct b1, b2; simpl; auto.
Qed.

Lemma agree_path_exists p : agree (path_exists p) (path_exists p).
Proof.
  intros w1 w2 [He Hc]. unfold path_exists, same_outside. simpl.
  rewrite He. auto.
Qed.

Lemma agree_read_text p : agree (read_text p) (read_text p).
Proof.
  intros w1 w2 [He Hc]. unfold read_text, same_outside. rewrite He.
  destruct (files (env w2) !! p); simpl; auto.
Qed.

Lemma agree_mkdir p : agree (mkdir_exist_ok p) (mkdir_exist_ok p).
Proof.
  intros w1 w2 [He Hc]. unfold mkdir_exist_ok, same_outside. rewrite He.
  repeat case_bool_decide; simpl; auto.
Qed.

Lemma agree_run cmd : agree (Subprocess.run ext cmd) (Subprocess.run ext cmd).
Proof.
  intros w1 w2 [He Hc]. unfold Subprocess.run, same_outside. rewrite He.
  destruct (spawn ext cmd (env w2)) as [[e|rc out err] e']; simpl;
    rewrite Hc; auto.
Qed.

Lemma agree_run_check cmd :
  agree (Subprocess.run_check ext cmd) (Subprocess.run_check ext cmd).
Proof.
  unfold Subprocess.run_check. apply agree_bind; [apply agree_run|].
  intros [[rc ?] ?]. destruct (rc =? 0); [apply agree_ret|apply agree_raise].
Qed.

Lemma agree_check_output cmd :
  agree (Subprocess.check_output ext cmd) (Subprocess.check_output ext cmd).
Proof.
  unfold Subprocess.check_output. apply agree_bind; [apply agree_run|].
  intros [[rc ?] ?]. destruct (rc =? 0); [apply agree_ret|apply agree_raise].
Qed.

Lemma agree_get_media_duration_seconds path :
  agree (Deluxe.get_media_duration_seconds ext path)
    (Deluxe.get_media_duration_seconds ext path).
Proof.
  unfold Deluxe.get_media_duration_seconds.
  apply agree_try; [|intros; apply agree_ret].
  apply agree_bind; [apply agree_check_output|]. intros out.
  destruct (float_of_str ext (strip out)); [apply agree_ret|apply agree_raise].
Qed.

Lemma agree_split_loop audio_path run_dir T indices :
  forall acc,
    agree (Deluxe.split_loop ext audio_path run_dir T indices acc)
      (Deluxe.split_loop ext audio_path run_dir T indices acc).
Proof.
  induction indices as [|i rest IH]; intros acc; simpl.
  - apply agree_ret.
  - apply agree_bind; [apply agree_run_check|]. intros _. apply IH.
Qed.

Lemma agree_split_long_audio audio_path run_dir T :
  agree (Deluxe.split_long_audio ext audio_path run_dir T)
    (Deluxe.split_long_audio ext audio_path run_dir T).
Proof.
  unfold Deluxe.split_long_audio, Deluxe.ceil_div.
  apply agree_bind; [apply agree_get_media_duration_seconds|]. intros d.
  apply agree_if; [apply agree_ret|].
  apply agree_bind.
  - destruct (T =? 0); [apply agree_raise|apply agree_ret].
  - intros n. apply agree_split_loop.
Qed.

Lemma agree_prepare_chunks input_file run_dir b1 b2 :
  agree (Deluxe.prepare_chunks ext input_file run_dir b1)
    (Deluxe.prepare_chunks ext input_file run_dir b2).
Proof.
  unfold Deluxe.prepare_chunks, Deluxe.extract_audio_if_needed.
  apply agree_bind; [apply agree_mkdir|]. intros _.
  apply agree_bind; [apply agree_progress|]. intros _.
  apply agree_bind.
  { apply agree_bind; [apply agree_run_check|]. intros _. apply agree_ret. }
  intros audio_path.
  apply agree_bind; [apply agree_get_media_duration_seconds|]. intros d.
  apply agree_bind; [apply agree_split_long_audio|]. intros chunks.
  apply agree_ret.
Qed.

Lemma agree_whisper_step run_dir language make_srt make_json b1 b2 n idx
    chunk acc :
  agree
    (Deluxe.whisper_step ext run_dir language make_srt make_json b1 n idx
       chunk acc)
    (Deluxe.whisper_step ext run_dir language make_srt make_json b2 n idx
       chunk acc).
Proof.
  unfold Deluxe.whisper_step.
  apply agree_bind; [apply agree_progress|]. intros _.
  apply agree_bind; [apply agree_run|]. intros [[rc out] err].
  destruct (negb (rc =? 0)); [apply agree_raise|].
  apply agree_bind; [apply agree_path_exists|]. intros has_txt.
  apply agree_bind.
  { destruct has_txt; [|apply agree_ret].
    apply agree_bind; [apply agree_read_text|]. intros c. apply agree_ret. }
  intros acc1.
  apply agree_bind; [apply agree_path_exists|]. intros has_srt.
  apply agree_bind; [apply agree_path_exists|]. intros has_json.
  apply agree_ret.
Qed.

Lemma agree_whisper_loop run_dir language make_srt make_json b1 b2 n chunks :
  forall idx acc,
    agree
      (Deluxe.whisper_loop ext run_dir language make_srt make_json b1 n idx
         chunks acc)
      (Deluxe.whisper_loop ext run_dir language make_srt make_json b2 n idx
         chunks acc).
Proof.
  induction chunks as [|chunk rest IH]; intros idx acc; simpl.
  - apply agree_ret.
  - apply agree_bind; [apply agree_whisper_step|]. intros acc1. apply IH.
Qed.

Lemma agree_run_whisper input_file language make_srt make_json run_id b1 b2 :
  agree
    (Deluxe.run_whisper ext input_file language make_srt make_json run_id b1)
    (Deluxe.run_whisper ext input_file language make_srt make_json run_id b2).
Proof.
  unfold Deluxe.run_whisper.
  apply agree_bind; [apply agree_prepare_chunks|]. intros [duration chunks].
  apply agree_bind; [apply agree_whisper_loop|]. intros acc.
  apply agree_bind; [apply agree_progress|]. intros _. apply agree_ret.
Qed.

Lemma quiet_progress_off f d : quiet (progress false f d).
Proof. intros w. reflexivity. Qed.

Lemma quiet_run_whisper_off input_file language make_srt make_json run_id :
  quiet
    (Deluxe.run_whisper ext input_file language make_srt make_json run_id
       false).
Proof.
  assert (Hstep : forall run_dir n idx chunk acc,
            quiet (Deluxe.whisper_step ext run_dir language make_srt
                     make_json false n idx chunk acc)).
  { intros. unfold Deluxe.whisper_step.
    apply quiet_bind; [apply quiet_progress_off|]. intros _.
    apply quiet_bind; [apply quiet_run|]. intros [[rc out] err].
    destruct (negb (rc =? 0)); [apply quiet_raise|].
    repeat (apply quiet_bind; [auto with quiet | intros ?]);
      auto with quiet. }
  assert (Hloop : forall run_dir n chunks idx acc,
            quiet (Deluxe.whisper_loop ext run_dir language make_srt
                     make_json false n idx chunks acc)).
  { intros run_dir n chunks.
    induction chunks as [|c rest IH]; intros idx acc; simpl;
      [apply quiet_ret|].
    apply quiet_bind; [apply Hstep | intros; apply IH]. }
  unfold Deluxe.run_whisper, Deluxe.prepare_chunks.
  apply quiet_bind.
  { apply quiet_bind; [apply quiet_mkdir|]. intros _.
    apply quiet_bind; [apply quiet_progress_off|]. intros _.
    apply quiet_bind; [apply quiet_extract_audio_if_needed|]. intros ?.
    apply quiet_bind; [apply quiet_get_media_duration_seconds|]. intros ?.
    apply quiet_bind; [apply quiet_split_long_audio|]. intros ?.
    apply quiet_ret. }
  intros [duration chunks].
  apply quiet_bind; [apply Hloop|]. intros acc.
  apply quiet_bind; [apply quiet_progress_off|]. intros _. apply quiet_ret.
Qed.

End Agree.

(** X3. [run_whisper] without a progress callback returns the same
    result (or raises the same exception), leaves the same files and
    directories and runs the same commands as with one; only the reports
    differ, and without a callback none is made. *)
Theorem progress_sink_is_optional (ext : Externals) (input_file : str)
    (language : option str) (make_srt make_json : bool) (run_id : str)
    (w : World) :
  let with_sink :=
    Deluxe.run_whisper ext input_file language make_srt make_json run_id
      true w in
  let without :=
    Deluxe.run_whisper ext input_file language make_srt make_json run_id
      false w in
  fst without = fst with_sink
  /\ env (snd without) = env (snd with_sink)
  /\ calls (snd without) = calls (snd with_sink)
  /\ events (snd without) = events w.
Proof.
  intros with_sink without.
  destruct (agree_run_whisper ext input_file language make_srt make_json
              run_id false true w w (conj eq_refl eq_refl))
    as (Hr & He & Hc).
  repeat split; try assumption.
  apply quiet_run_whisper_off.
Qed.

(** ** Failures of the stages *)

Section Failures.

Context (ext : Externals).

Lemma transcribe_try_eq media_file youtube_url language make_srt make_json
    make_pdf history run_id w :
  Deluxe.transcribe_try ext media_file youtube_url language make_srt
    make_json make_pdf history run_id w
  = match
      Deluxe.resolve_input ext media_file youtube_url run_id
        (snd (progress true 0.01%Q (py "Préparation...") w))
    with
    | (Ok (Some (source_desc, input_path)), w1) =>
        Deluxe.transcribe_run ext source_desc input_path language make_srt
          make_json make_pdf history run_id w1
    | (Ok None, w1) =>
        (Ok (Deluxe.failed (py "Aucun fichier ni URL fournie.") history), w1)
    | (Raise e, w1) => (Raise e, w1)
    end.
Proof.
  unfold Deluxe.transcribe_try, mbind, M_bind, bind. simpl.
  destruct (Deluxe.resolve_input _ _ _ _ _) as [[[[sd ip]|]|e] w1];
    reflexivity.
Qed.

Lemma run_check_fails cmd w rc out err e' :
  spawn ext cmd (env w) = (Exited rc out err, e') -> rc <> 0 ->
  Subprocess.run_check ext cmd w
  = (Raise (CalledProcessError cmd rc), after_child ext cmd w).
Proof.
  intros Hs Hrc.
  unfold Subprocess.run_check, after_child, Subprocess.run, mbind, M_bind,
    bind.
  rewrite Hs. destruct (Z.eqb_spec rc 0); [contradiction | reflexivity].
Qed.

Lemma calm_youtube_dl url outtmpl : calm (Deluxe.youtube_dl ext url outtmpl).
Proof.
  intros w. unfold Deluxe.youtube_dl.
  destruct (ydl_download _ _ _ _); reflexivity.
Qed.

Lemma calm_download_youtube_audio url run_id :
  calm (Deluxe.download_youtube_audio ext url run_id).
Proof.
  unfold Deluxe.download_youtube_audio.
  apply calm_bind; [apply calm_mkdir|]. intros _. apply calm_youtube_dl.
Qed.

Lemma split_loop_fails audio_path run_dir T before i rc after :
  (forall j e, j ∈ before ->
     Spec.exits_zero
       (fst (spawn ext (Spec.cut_of audio_path run_dir T j) e))) ->
  cut_exits ext audio_path run_dir T i rc -> rc <> 0 ->
  forall acc w, exists w',
    Deluxe.split_loop ext audio_path run_dir T (before ++ i :: after) acc w
    = (Raise (CalledProcessError (Spec.cut_of audio_path run_dir T i) rc),
       w')
    /\ calls w'
       = calls w
         ++ map (Spec.cut_of audio_path run_dir T) (before ++ [i]).
Proof.
  intros Hbefore Hfail Hrc.
  induction before as [|j before IH]; intros acc w; simpl.
  - destruct (Hfail (env w)) as (out & err & e' & Hs).
    fold (Spec.cut_of audio_path run_dir T i).
    rewrite (bind_raise _ _ _ _ _ (run_check_fails _ _ _ _ _ _ Hs Hrc)).
    eexists. split; [reflexivity|]. apply calls_after_child.
  - pose proof (run_check_exits_zero ext _ w
                  (Hbefore j (env w) (list_elem_of_here _ _))) as Hrun.
    fold (Spec.cut_of audio_path run_dir T j) in *.
    rewrite (bind_ok _ _ _ _ _ Hrun).
    destruct (IH (fun k e Hk => Hbefore k e (list_elem_of_further _ _ _ Hk))
                (acc ++ [Deluxe.chunk_path run_dir j])
                (after_child ext (Spec.cut_of audio_path run_dir T j) w))
      as (w' & Heq & Hcalls).
    exists w'. split; [exact Heq|].
    rewrite Hcalls, calls_after_child, <- app_assoc. reflexivity.
Qed.

End Failures.

(** X4. When a URL that is not blank is given, the uploaded file plays no
    part: [transcribe] returns the same and does the same whatever
    [media_file] is. *)
Theorem upload_is_ignored_when_url_given (ext : Externals)
    (file1 file2 youtube_url language : option str)
    (make_srt make_json make_pdf : bool) (history : option (list str))
    (w : World) :
  Deluxe.url_given youtube_url = true ->
  Deluxe.transcribe ext file1 youtube_url language make_srt make_json
    make_pdf history w
  = Deluxe.transcribe ext file2 youtube_url language make_srt make_json
      make_pdf history w.
Proof.
  intros Hurl. rewrite !transcribe_eq, !transcribe_try_eq.
  unfold Deluxe.resolve_input. rewrite Hurl. reflexivity.
Qed.

(** X5. When the download of the URL raises, [transcribe] returns the
    message [Erreur pendant le traitement : ] followed by the text of the
    exception, with the history as given, and no child process has been
    started. *)
Theorem failed_download_starts_no_child (ext : Externals)
    (media_file youtube_url language : option str)
    (make_srt make_json make_pdf : bool) (history : option (list str))
    (w w' : World) (e : exn) :
  is_path (env w) (Deluxe.WHISPER_BIN ext) = true ->
  is_path (env w) (Deluxe.MODEL_PATH ext) = true ->
  Deluxe.url_given youtube_url = true ->
  Deluxe.download_youtube_audio ext (strip (default [] youtube_url))
    (strftime_run_id (clock (env w)))
    (snd (progress true 0.05%Q (py "Téléchargement YouTube...")
            (snd (progress true 0.01%Q (py "Préparation...") w))))
  = (Raise e, w') ->
  Deluxe.transcribe ext media_file youtube_url language make_srt make_json
    make_pdf history w
  = (Ok (Deluxe.failed
           (py "Erreur pendant le traitement : " ++ Deluxe.str_of_exn ext e)
           history), w')
  /\ calls w' = calls w.
Proof.
  intros Hbin Hmodel Hurl Hdl. split.
  - rewrite transcribe_eq, Hbin, Hmodel, transcribe_try_eq. cbn [negb].
    unfold Deluxe.resolve_input. rewrite Hurl.
    rewrite (bind_ok (progress true 0.05%Q (py "Téléchargement YouTube..."))
               _ _ tt
               (snd (progress true 0.05%Q (py "Téléchargement YouTube...")
                       (snd (progress true 0.01%Q (py "Préparation...") w))))
               eq_refl).
    rewrite (bind_raise _ _ _ _ _ Hdl). reflexivity.
  - match type of Hdl with
    | _ _ ?url ?id ?W = _ =>
        pose proof (calm_download_youtube_audio ext url id W) as Hc
    end.
    rewrite Hdl in Hc. exact Hc.
Qed.

Section MoreFailures.

Context (ext : Externals).

Lemma extract_audio_if_needed_eq path run_dir :
  Deluxe.extract_audio_if_needed ext path run_dir
  = (Subprocess.run_check ext (extract_cmd path run_dir);;
     ret (run_dir // py "audio.wav")).
Proof. reflexivity. Qed.

Lemma split_loop_calls audio_path run_dir T indices :
  forall acc w, exists cuts,
    calls (snd (Deluxe.split_loop ext audio_path run_dir T indices acc w))
    = calls w ++ cuts.
Proof.
  induction indices as [|i rest IH]; intros acc w; simpl.
  - exists []. rewrite app_nil_r. reflexivity.
  - unfold mbind, M_bind, bind.
    set (cmd := Deluxe.ffmpeg_cut_cmd _ _ _ _).
    assert (Hc : calls (snd (Subprocess.run_check ext cmd w))
                 = calls w ++ [cmd]).
    { unfold Subprocess.run_check, mbind, M_bind, bind.
      pose proof (calls_run ext cmd w) as Hr.
      destruct (Subprocess.run ext cmd w) as [[[[rc ?] ?]|e] w1];
        simpl in *; [|exact Hr].
      destruct (rc =? 0); exact Hr. }
    destruct (Subprocess.run_check ext cmd w) as [[[]|e] w1]; simpl in Hc.
    + destruct (IH (acc ++ [Deluxe.chunk_path run_dir i]) w1) as (cuts & ->).
      exists (cmd :: cuts). rewrite Hc, <- app_assoc. reflexivity.
    + exists [cmd]. exact Hc.
Qed.

Lemma split_long_audio_calls audio_path run_dir T w :
  exists cuts,
    calls (snd (Deluxe.split_long_audio ext audio_path run_dir T w))
    = calls w ++ Deluxe.ffprobe_cmd audio_path :: cuts.
Proof.
  unfold Deluxe.split_long_audio.
  rewrite (bind_ok _ _ _ _ _ (get_media_duration_seconds_eq ext audio_path w)).
  destruct (Qle_bool _ _ || Qle_bool _ _).
  - exists []. apply calls_after_child.
  - unfold Deluxe.ceil_div. destruct (T =? 0).
    + exists []. apply calls_after_child.
    + unfold mbind at 1, M_bind at 1, bind at 1. cbn [ret].
      match goal with
      | |- context [Deluxe.split_loop ext ?a ?r ?t ?l ?acc ?w0] =>
          destruct (split_loop_calls a r t l acc w0) as (cuts & ->)
      end.
      exists cuts. rewrite calls_after_child, <- app_assoc. reflexivity.
Qed.

End MoreFailures.

(** X6. When the [ffmpeg] that extracts the audio exits with a non-zero
    status, [run_whisper] raises [CalledProcessError] with that command
    and status; the extraction is the only command that was run: nothing
    is probed, cut or transcribed. *)
Theorem failed_extraction_stops_the_run (ext : Externals)
    (input_file : str) (language : option str) (make_srt make_json : bool)
    (run_id : str) (reporting : bool) (w w1 : World) (rc : Z)
    (out err : str) (e' : Env) :
  let run_dir := Deluxe.OUTPUT_DIR ext // run_id in
  mkdir_exist_ok run_dir w = (Ok tt, w1) ->
  spawn ext (extract_cmd input_file run_dir) (env w1)
  = (Exited rc out err, e') ->
  rc <> 0 ->
  exists w',
    Deluxe.run_whisper ext input_file language make_srt make_json run_id
      reporting w
    = (Raise (CalledProcessError (extract_cmd input_file run_dir) rc), w')
    /\ calls w' = calls w ++ [extract_cmd input_file run_dir]
    /\ env w' = e'.
Proof.
  intros run_dir Hmk Hs Hrc.
  pose proof (calm_mkdir run_dir w) as Hc. rewrite Hmk in Hc. simpl in Hc.
  eexists. split; [|split].
  - unfold Deluxe.run_whisper. fold run_dir. apply bind_raise.
    unfold Deluxe.prepare_chunks.
    rewrite (bind_ok _ _ _ _ _ Hmk).
    rewrite (bind_ok _ _ _ _ _ (progress_eq _ _ _ w1)).
    apply bind_raise. rewrite extract_audio_if_needed_eq.
    apply bind_raise. eapply run_check_fails; [|exact Hrc]. exact Hs.
  - rewrite calls_after_child. simpl. rewrite Hc. reflexivity.
  - rewrite env_after_child. simpl. rewrite Hs. reflexivity.
Qed.

(** X7. When the cut of segment [i] exits with a non-zero status after
    the cuts before it went well, [split_long_audio] raises
    [CalledProcessError] for that cut, returns no path at all, and has run
    exactly the cuts [0..i]: the segments after [i] are not attempted. *)
Theorem failed_cut_fails_the_split (ext : Externals)
    (audio_path run_dir : str) (T : Z) (w w1 : World) (D : Q) (i : nat)
    (rc : Z) :
  Deluxe.get_media_duration_seconds ext audio_path w = (Ok D, w1) ->
  ~ (D <= 0 \/ D <= inject_Z T)%Q ->
  0 < T ->
  (i < Z.to_nat (Qceiling (D / inject_Z T)))%nat ->
  Spec.cutter_succeeds ext audio_path run_dir T i ->
  cut_exits ext audio_path run_dir T i rc ->
  rc <> 0 ->
  exists w2,
    Deluxe.split_long_audio ext audio_path run_dir T w
    = (Raise (CalledProcessError (Spec.cut_of audio_path run_dir T i) rc),
       w2)
    /\ calls w2
       = calls w1 ++ map (Spec.cut_of audio_path run_dir T) (seq 0 (S i)).
Proof.
  intros Hprobe Hlong HT Hi Hbefore Hfail Hrc.
  rewrite get_media_duration_seconds_eq in Hprobe.
  injection Hprobe as HD Hw1.
  unfold Deluxe.split_long_audio.
  rewrite (bind_ok _ _ _ _ _ (get_media_duration_seconds_eq ext audio_path w)).
  rewrite HD.
  replace (Qle_bool D (inject_Z T) || Qle_bool D 0) with false.
  2:{ symmetry. apply orb_false_iff.
      split; apply not_true_is_false; rewrite Qle_bool_iff; tauto. }
  unfold Deluxe.ceil_div.
  destruct (Z.eqb_spec T 0) as [->|_]; [lia|].
  unfold mbind, M_bind, bind, ret.
  set (n := Z.to_nat (Qceiling (D / inject_Z T))) in *.
  assert (Hseq : seq 0 n = seq 0 i ++ i :: seq (S i) (n - S i)).
  { replace n with (i + S (n - S i))%nat at 1 by lia.
    rewrite seq_app. reflexivity. }
  rewrite Hseq.
  destruct (split_loop_fails ext audio_path run_dir T (seq 0 i) i rc
              (seq (S i) (n - S i))
              (fun j e Hj => Hbefore j e
                 (proj2 (proj1 (elem_of_seq 0 i j) Hj)))
              Hfail Hrc []
              (after_child ext (Deluxe.ffprobe_cmd audio_path) w))
    as (w2 & Heq & Hcalls).
  exists w2. split; [exact Heq|].
  rewrite Hcalls, Hw1. f_equal. rewrite seq_S. reflexivity.
Qed.

(** X8. For audio of positive duration, a threshold of zero makes
    [split_long_audio] raise [ZeroDivisionError], and a negative threshold
    makes it return the empty list; in both cases nothing is cut. *)
Theorem threshold_must_be_positive (ext : Externals)
    (audio_path run_dir : str) (T : Z) (w w1 : World) (D : Q) :
  Deluxe.get_media_duration_seconds ext audio_path w = (Ok D, w1) ->
  (0 < D)%Q ->
  (T = 0 ->
   Deluxe.split_long_audio ext audio_path run_dir T w
   = (Raise ZeroDivisionError, w1))
  /\ (T < 0 ->
      Deluxe.split_long_audio ext audio_path run_dir T w = (Ok [], w1)).
Proof.
  intros Hprobe HD.
  rewrite get_media_duration_seconds_eq in Hprobe.
  injection Hprobe as HDeq Hw1.
  assert (Hstart : forall T', T' <= 0 ->
            Deluxe.split_long_audio ext audio_path run_dir T' w
            = (n_chunks ← Deluxe.ceil_div D T';
               Deluxe.split_loop ext audio_path run_dir T'
                 (seq 0 (Z.to_nat n_chunks)) []) w1).
  { intros T' HT'. unfold Deluxe.split_long_audio.
    rewrite (bind_ok _ _ _ _ _
               (get_media_duration_seconds_eq ext audio_path w)).
    rewrite HDeq, Hw1.
    replace (Qle_bool D (inject_Z T') || Qle_bool D 0) with false;
      [reflexivity|].
    symmetry. apply orb_false_iff.
    split; apply not_true_is_false; rewrite Qle_bool_iff; intros Hle.
    - assert (inject_Z T' <= 0)%Q
        by (change 0%Q with (inject_Z 0); rewrite <- Zle_Qle; exact HT').
      lra.
    - lra. }
  split.
  - intros ->. rewrite Hstart by lia. reflexivity.
  - intros HT. rewrite Hstart by lia. unfold Deluxe.ceil_div.
    destruct (Z.eqb_spec T 0); [lia|].
    unfold mbind, M_bind, bind, ret.
    assert (Hn : Qceiling (D / inject_Z T) <= 0).
    { rewrite <- (Qceiling_Z 0). apply Qceiling_resp_le.
      assert (HTq : (inject_Z T < 0)%Q)
        by (change 0%Q with (inject_Z 0); rewrite <- Zlt_Qlt; exact HT).
      assert (Hx : (D / inject_Z T * inject_Z T == D)%Q).
      { rewrite Qmult_comm, Qmult_div_r; [reflexivity|]. lra. }
      change (inject_Z 0) with 0%Q.
      destruct (Qlt_le_dec 0 (D / inject_Z T)) as [Hpos|Hle];
        [exfalso; nra | exact Hle]. }
    replace (Z.to_nat (Qceiling (D / inject_Z T))) with 0%nat by lia.
    reflexivity.
Qed.

(** ** The engine, segment by segment *)

Section Engine.

Context (ext : Externals).

(** What a round that ends well adds to the list of text files. *)
Lemma whisper_step_txt_files run_dir language make_srt make_json reporting n
    idx chunk acc w acc' w' :
  Deluxe.whisper_step ext run_dir language make_srt make_json reporting n
    idx chunk acc w = (Ok acc', w') ->
  Deluxe.txt_files acc'
  = Deluxe.txt_files acc
    ++ present_txt_files run_dir idx
         [files (env w')
            !! Pathlib.with_suffix (Deluxe.transcript_base run_dir idx)
                 (py ".txt")].
Proof.
  intros H. unfold Deluxe.whisper_step in H.
  set (base := Deluxe.transcript_base run_dir idx) in *.
  rewrite (bind_ok _ _ _ _ _ (progress_eq _ _ _ w)) in H.
  apply bind_ok_inv in H as ([[rc out] err] & w1 & Hrun & H).
  destruct (negb (rc =? 0)); [discriminate|].
  apply bind_ok_inv in H as (has_txt & w2 & Htxt & H).
  injection Htxt as <- <-.
  apply bind_ok_inv in H as (acc1 & w3 & Hacc & H).
  apply bind_ok_inv in H as (has_srt & w4 & Hsrt & H).
  injection Hsrt as <- <-.
  apply bind_ok_inv in H as (has_json & w5 & Hjson & H).
  injection Hjson as <- <-.
  assert (Hw : w3 = w1
               /\ Deluxe.txt_files acc1
                  = Deluxe.txt_files acc
                    ++ present_txt_files run_dir idx
                         [files (env w1)
                            !! Pathlib.with_suffix base (py ".txt")]).
  { destruct (is_path (env w1) _) eqn:Hp.
    - apply bind_ok_inv in Hacc as (c & w6 & Hread & Hacc).
      unfold read_text in Hread.
      destruct (files (env w1) !! _) eqn:Hf; [|discriminate].
      injection Hread as <- <-. injection Hacc as <- <-. auto.
    - injection Hacc as <- <-. rewrite (not_is_path_file _ _ Hp).
      simpl. rewrite app_nil_r. auto. }
  destruct Hw as [-> Hfiles].
  destruct (is_path (env w1) (Pathlib.with_suffix base (py ".srt")));
    destruct (is_path (env w1) (Pathlib.with_suffix base (py ".json")));
    injection H as <- <-; exact Hfiles.
Qed.

Lemma present_txt_files_cons run_dir idx text rest :
  present_txt_files run_dir idx (text :: rest)
  = present_txt_files run_dir idx [text]
    ++ present_txt_files run_dir (S idx) rest.
Proof. simpl. rewrite app_nil_r. reflexivity. Qed.

Lemma whisper_loop_txt_files run_dir language make_srt make_json reporting n
    chunks :
  forall idx acc w acc' w',
    Deluxe.whisper_loop ext run_dir language make_srt make_json reporting n
      idx chunks acc w = (Ok acc', w') ->
    Deluxe.txt_files acc'
    = Deluxe.txt_files acc
      ++ present_txt_files run_dir idx
           (Spec.text_artifacts ext run_dir language make_srt make_json idx
              chunks (env w)).
Proof.
  induction chunks as [|chunk rest IH]; intros idx acc w acc' w' H.
  - injection H as <- <-. simpl. rewrite app_nil_r. reflexivity.
  - cbn [Deluxe.whisper_loop] in H.
    apply bind_ok_inv in H as (acc1 & w1 & Hstep & H).
    pose proof (whisper_step_txt_files _ _ _ _ _ _ _ _ _ _ _ _ Hstep) as Htxt.
    apply whisper_step_ok in Hstep as (Henv & _ & _ & _).
    apply IH in H. cbn [Spec.text_artifacts].
    rewrite present_txt_files_cons, H, Htxt, Henv, <- app_assoc.
    reflexivity.
Qed.

Lemma present_txt_files_length run_dir idx texts :
  length (present_txt_files run_dir idx texts) = length (omap id texts).
Proof.
  revert idx. induction texts as [|[t|] rest IH]; intros idx; simpl;
    [reflexivity| |]; rewrite IH; reflexivity.
Qed.

End Engine.

(** X10. The loop of [run_whisper] runs the engine on the chunks in
    order, once each, with output base [transcript_NNN] for the chunk of
    ordinal [NNN], and runs nothing else: the commands it adds are a
    prefix of the engine commands of the chunks, all of them when it ends
    well, and at least the failing one when it raises. *)
Theorem engine_runs_once_per_segment_in_order (ext : Externals)
    (run_dir : str) (language : option str) (make_srt make_json : bool)
    (reporting : bool) (n : nat) (chunks : list str) :
  forall (idx : nat) (acc : Deluxe.collected) (w : World),
  exists k,
    (k <= length chunks)%nat
    /\ calls (snd (Deluxe.whisper_loop ext run_dir language make_srt
                     make_json reporting n idx chunks acc w))
       = calls w
         ++ take k (engine_cmds ext run_dir language make_srt make_json idx
                      chunks)
    /\ (forall acc',
          fst (Deluxe.whisper_loop ext run_dir language make_srt make_json
                 reporting n idx chunks acc w) = Ok acc' ->
          k = length chunks)
    /\ (forall e,
          fst (Deluxe.whisper_loop ext run_dir language make_srt make_json
                 reporting n idx chunks acc w) = Raise e ->
          (1 <= k)%nat).
Proof.
  induction chunks as [|chunk rest IH]; intros idx acc w.
  - exists 0%nat. simpl. rewrite app_nil_r.
    repeat split; auto. discriminate.
  - cbn [Deluxe.whisper_loop engine_cmds length].
    unfold mbind, M_bind, bind.
    pose proof (calls_whisper_step ext run_dir language make_srt make_json
                  reporting n idx chunk acc w) as Hstep.
    destruct (Deluxe.whisper_step _ _ _ _ _ _ _ _ _ _ w) as [[acc1|e] w1];
      simpl in Hstep.
    + destruct (IH (S idx) acc1 w1) as (k & Hk & Hcalls & Hok & Hraise).
      exists (S k). split; [lia|]. split; [|split].
      * rewrite Hcalls, Hstep, <- app_assoc. reflexivity.
      * intros acc' H. rewrite (Hok acc' H). reflexivity.
      * intros e H. lia.
    + exists 1%nat. split; [lia|]. split; [|split].
      * simpl. rewrite Hstep, take_0. reflexivity.
      * discriminate.
      * intros. lia.
Qed.

(** X11. The text files a successful [run_whisper] returns are
    [transcript_NNN.txt] for exactly the segments whose text file was
    there after the engine ran, in segment order, so there are as many as
    texts were joined; the duration it returns is the one probed. *)
Theorem text_files_follow_the_texts (ext : Externals) (input_file : str)
    (language : option str) (make_srt make_json : bool) (run_id : str)
    (reporting : bool) (w w1 w' : World) (duration : Q)
    (chunks : list str) (r : Deluxe.whisper_result) :
  let run_dir := Deluxe.OUTPUT_DIR ext // run_id in
  let texts :=
    Spec.text_artifacts ext run_dir language make_srt make_json 0 chunks
      (env w1) in
  Deluxe.prepare_chunks ext input_file run_dir reporting w
  = (Ok (duration, chunks), w1) ->
  Deluxe.run_whisper ext input_file language make_srt make_json run_id
    reporting w = (Ok r, w') ->
  Deluxe.res_txt_files r = present_txt_files run_dir 0 texts
  /\ length (Deluxe.res_txt_files r) = length (omap id texts)
  /\ Deluxe.res_duration r = duration.
Proof.
  intros run_dir texts Hprep Hrun.
  unfold Deluxe.run_whisper in Hrun. fold run_dir in Hrun.
  rewrite (bind_ok _ _ _ _ _ Hprep) in Hrun.
  apply bind_ok_inv in Hrun as (acc & w2 & Hloop & Hrun).
  apply bind_ok_inv in Hrun as ([] & w3 & _ & Hrun).
  injection Hrun as <- _. cbn [Deluxe.res_txt_files Deluxe.res_duration].
  apply whisper_loop_txt_files in Hloop. simpl in Hloop.
  rewrite Hloop. fold texts.
  split; [reflexivity|]. split; [apply present_txt_files_length|reflexivity].
Qed.

(** ** What a run returns *)

Section Success.

Context (ext : Externals).

Lemma make_pdf_from_text_ok text run_dir w p w' :
  Deluxe.make_pdf_from_text ext text run_dir w = (Ok p, w') ->
  p = run_dir // py "transcript.pdf"
  /\ is_Some (files (env w') !! p)
  /\ clock (env w') = clock (env w)
  /\ calls w' = calls w.
Proof.
  intros H. unfold Deluxe.make_pdf_from_text in H.
  do 3 rewrite (bind_ok _ _ _ _ _ (try_add_font_eq ext _ _ _ _ w)) in H.
  rewrite (bind_ok (path_exists _) _ w _ w eq_refl) in H.
  apply bind_ok_inv in H as (pdf0 & w1 & Hlogo & H).
  assert (Hw1 : w1 = w).
  { destruct (is_path (env w) _).
    - apply bind_ok_inv in Hlogo as (pdf1 & w2 & Himg & Hret).
      injection Hret as _ <-. unfold Deluxe.image in Himg.
      destruct (image_loads _ _ _); [|discriminate].
      injection Himg as _ <-. reflexivity.
    - injection Hlogo as _ <-. reflexivity. }
  subst w1.
  rewrite (bind_ok _ _ _ _ _ (set_font_or_helvetica_eq _ _ _ w)) in H.
  rewrite (bind_ok _ _ _ _ _ (set_font_or_helvetica_eq _ _ _ w)) in H.
  apply bind_ok_inv in H as ([] & w2 & Hout & H).
  injection H as <- <-. unfold Deluxe.output in Hout.
  destruct (writable _ _ _); [|discriminate].
  injection Hout as <-. simpl.
  split; [reflexivity|]. split; [|auto].
  rewrite lookup_insert_eq. eauto.
Qed.

Lemma truthy_app_r (a b : str) : b <> [] -> a ++ b <> [].
Proof. intros Hb H. apply app_eq_nil in H as [_ H]. contradiction. Qed.

Lemma record_history_bound history entry :
  (length (Deluxe.record_history history entry) <= 10)%nat
  /\ head (Deluxe.record_history history entry) = Some entry.
Proof.
  unfold Deluxe.record_history. rewrite length_take. split; [lia|].
  reflexivity.
Qed.

End Success.

(** A run that ends well records its entry. *)
Lemma transcribe_run_history (ext : Externals) source_desc input_path
    language make_srt make_json make_pdf history run_id w out w' :
  Deluxe.transcribe_run ext source_desc input_path language make_srt
    make_json make_pdf history run_id w = (Ok out, w') ->
  Deluxe.out_history out
  = Some (Deluxe.record_history history
            (Deluxe.history_entry (clock (env w')) source_desc run_id)).
Proof.
  intros H. unfold Deluxe.transcribe_run in H.
  apply bind_ok_inv in H as (r & w1 & _ & H).
  apply bind_ok_inv in H as (pdf_file & w2 & _ & H).
  apply bind_ok_inv in H as (t & w3 & Hnow & H).
  injection Hnow as <- <-.
  rewrite (bind_ok _ _ _ _ _ (progress_eq _ _ _ w2)) in H.
  injection H as <- <-. reflexivity.
Qed.

(** X12. A run that ends well returns a text that is never empty, the
    path [transcript.pdf] of the run directory exactly when a PDF was
    asked for (and that file is then there), and a history whose first
    entry is the entry of this run, of at most ten entries, with the
    rendered history being its lines joined by newlines. *)
Theorem successful_run_returns (ext : Externals)
    (source_desc input_path : str) (language : option str)
    (make_srt make_json make_pdf : bool) (history : option (list str))
    (run_id : str) (w w' : World) (out : Deluxe.outputs) :
  Deluxe.transcribe_run ext source_desc input_path language make_srt
    make_json make_pdf history run_id w = (Ok out, w') ->
  let entry := Deluxe.history_entry (clock (env w')) source_desc run_id in
  let pdf_path := Deluxe.OUTPUT_DIR ext // run_id // py "transcript.pdf" in
  Deluxe.out_text out <> []
  /\ Deluxe.out_pdf_file out = (if make_pdf then Some pdf_path else None)
  /\ (make_pdf = true -> is_Some (files (env w') !! pdf_path))
  /\ Deluxe.out_history out = Some (Deluxe.record_history history entry)
  /\ head (Deluxe.record_history history entry) = Some entry
  /\ (length (Deluxe.record_history history entry) <= 10)%nat
  /\ Deluxe.out_history_md out
     = str_join [10%N] (Deluxe.record_history history entry).
Proof.
  intros H entry pdf_path. unfold Deluxe.transcribe_run in H.
  apply bind_ok_inv in H as (r & w1 & Hrun & H).
  pose proof (run_whisper_run_dir ext _ _ _ _ _ _ _ _ _ Hrun) as Hdir.
  apply bind_ok_inv in H as (pdf_file & w2 & Hpdf & H).
  apply bind_ok_inv in H as (t & w3 & Hnow & H).
  injection Hnow as <- <-.
  rewrite (bind_ok _ _ _ _ _ (progress_eq _ _ _ w2)) in H.
  injection H as <- <-. cbn [env Deluxe.out_text Deluxe.out_pdf_file
    Deluxe.out_history Deluxe.out_history_md].
  fold entry.
  destruct (record_history_bound history entry) as [Hlen Hhead].
  split.
  { apply truthy_app_r. destruct (Deluxe.joined_text r); discriminate. }
  assert (Hp : pdf_file = (if make_pdf then Some pdf_path else None)
               /\ (make_pdf = true -> is_Some (files (env w2) !! pdf_path))).
  { destruct make_pdf.
    - apply bind_ok_inv in Hpdf as (p & w4 & Hpdf & Hret).
      injection Hret as <- <-.
      apply make_pdf_from_text_ok in Hpdf as (-> & Hfile & _).
      rewrite Hdir in *. auto.
    - injection Hpdf as <- _. split; [reflexivity | discriminate]. }
  destruct Hp as [-> Hfile]. auto 10.
Qed.

(** X13. No exception raised by a stage leaves [transcribe]: whatever
    the files are and whatever the children, the downloader and the PDF
    library do or raise, it returns its seven values, and the history it
    returns is either the one it was given or that one with the entry of
    this run recorded. *)
Theorem transcribe_never_raises (ext : Externals)
    (media_file youtube_url language : option str)
    (make_srt make_json make_pdf : bool) (history : option (list str))
    (w : World) :
  exists out w',
    Deluxe.transcribe ext media_file youtube_url language make_srt
      make_json make_pdf history w = (Ok out, w')
    /\ (Deluxe.out_history out = history
        \/ exists source_desc,
             Deluxe.out_history out
             = Some (Deluxe.record_history history
                       (Deluxe.history_entry (clock (env w')) source_desc
                          (strftime_run_id (clock (env w)))))).
Proof.
  rewrite transcribe_eq.
  destruct (negb (is_path (env w) (Deluxe.WHISPER_BIN ext)));
    [do 2 eexists; split; [reflexivity | left; reflexivity]|].
  destruct (negb (is_path (env w) (Deluxe.MODEL_PATH ext)));
    [do 2 eexists; split; [reflexivity | left; reflexivity]|].
  destruct (Deluxe.transcribe_try _ _ _ _ _ _ _ _ _ w) as [[out|e] w']
    eqn:Htry;
    [|do 2 eexists; split; [reflexivity | left; reflexivity]].
  exists out, w'. split; [reflexivity|].
  rewrite transcribe_try_eq in Htry.
  destruct (Deluxe.resolve_input _ _ _ _ _) as [[[[sd ip]|]|e] w1];
    [| injection Htry as <- _; left; reflexivity | discriminate].
  right. exists sd.
  exact (transcribe_run_history _ _ _ _ _ _ _ _ _ _ _ _ Htry).
Qed.

(** X14. The checks of [transcribe] come in the order binary, model,
    input.  A missing binary or model is answered before anything is done:
    no report, no directory, no child.  With both in place and neither a
    URL nor a file, the only thing done is the report of 0.01. *)
Theorem guards_touch_nothing (ext : Externals)
    (media_file youtube_url language : option str)
    (make_srt make_json make_pdf : bool) (history : option (list str))
    (w : World) :
  (is_path (env w) (Deluxe.WHISPER_BIN ext) = false ->
   Deluxe.transcribe ext media_file youtube_url language make_srt
     make_json make_pdf history w
   = (Ok (Deluxe.failed
            (py "Binaire introuvable : " ++ Deluxe.WHISPER_BIN ext) history),
      w))
  /\ (is_path (env w) (Deluxe.WHISPER_BIN ext) = true ->
      is_path (env w) (Deluxe.MODEL_PATH ext) = false ->
      Deluxe.transcribe ext media_file youtube_url language make_srt
        make_json make_pdf history w
      = (Ok (Deluxe.failed
               (py "Modèle introuvable : " ++ Deluxe.MODEL_PATH ext)
               history), w))
  /\ (is_path (env w) (Deluxe.WHISPER_BIN ext) = true ->
      is_path (env w) (Deluxe.MODEL_PATH ext) = true ->
      Deluxe.url_given youtube_url = false ->
      Deluxe.file_given media_file = false ->
      exists w',
        Deluxe.transcribe ext media_file youtube_url language make_srt
          make_json make_pdf history w
        = (Ok (Deluxe.failed (py "Aucun fichier ni URL fournie.") history),
           w')
        /\ env w' = env w /\ calls w' = calls w
        /\ events w' = events w ++ [(0.01%Q, py "Préparation...")]).
Proof.
  split; [|split].
  - intros Hbin. rewrite transcribe_eq, Hbin. reflexivity.
  - intros Hbin Hmodel. rewrite transcribe_eq, Hbin, Hmodel. reflexivity.
  - intros Hbin Hmodel Hurl Hfile.
    rewrite transcribe_eq, Hbin, Hmodel. cbn [negb].
    rewrite transcribe_try_no_input by assumption.
    eexists. split; [reflexivity|]. auto.
Qed.

(** ** The probe and the first interface *)

(** X9. Preparing the chunks runs the extraction, then [ffprobe] on the
    extracted audio twice: once for the duration that is returned, once
    more inside [split_long_audio], which decides on its own probe; the
    cuts, if any, follow. *)
Theorem duration_is_probed_twice (ext : Externals)
    (input_file run_dir : str) (reporting : bool) (w w' : World)
    (duration : Q) (chunks : list str) :
  let audio_path := run_dir // py "audio.wav" in
  Deluxe.prepare_chunks ext input_file run_dir reporting w
  = (Ok (duration, chunks), w') ->
  exists w1 cuts,
    calls w1 = calls w ++ [extract_cmd input_file run_dir]
    /\ duration = probed ext audio_path w1
    /\ Deluxe.split_long_audio ext audio_path run_dir (2 * 3600)
         (after_child ext (Deluxe.ffprobe_cmd audio_path) w1)
       = (Ok chunks, w')
    /\ calls w'
       = calls w
         ++ [extract_cmd input_file run_dir; Deluxe.ffprobe_cmd audio_path;
             Deluxe.ffprobe_cmd audio_path]
         ++ cuts.
Proof.
  intros audio_path H. unfold Deluxe.prepare_chunks in H.
  apply bind_ok_inv in H as ([] & wa & Hmk & H).
  pose proof (calm_mkdir run_dir w) as Hca. rewrite Hmk in Hca. simpl in Hca.
  rewrite (bind_ok _ _ _ _ _ (progress_eq _ _ _ wa)) in H.
  apply bind_ok_inv in H as (audio & w1 & Hex & H).
  rewrite extract_audio_if_needed_eq in Hex.
  apply bind_ok_inv in Hex as ([] & wb & Hrun & Hret).
  injection Hret as <- <-. fold audio_path in H.
  assert (Hc1 : calls wb = calls w ++ [extract_cmd input_file run_dir]).
  { unfold Subprocess.run_check in Hrun.
    apply bind_ok_inv in Hrun as ([[rc o] e] & wc & Hr & Hrun).
    pose proof (calls_run ext (extract_cmd input_file run_dir)
                  {| env := env wa;
                     events := events wa
                       ++ (if reporting
                           then [(0.05%Q, py "Extraction audio...")]
                           else []);
                     calls := calls wa |}) as Hcr.
    rewrite Hr in Hcr. simpl in Hcr.
    destruct (rc =? 0); [|discriminate]. injection Hrun as <-.
    rewrite Hcr, Hca. reflexivity. }
  rewrite (bind_ok _ _ _ _ _ (get_media_duration_seconds_eq ext audio_path wb))
    in H.
  apply bind_ok_inv in H as (l & wd & Hsplit & H).
  injection H as <- <- <-.
  destruct (split_long_audio_calls ext audio_path run_dir (2 * 3600)
              (after_child ext (Deluxe.ffprobe_cmd audio_path) wb))
    as (cuts & Hcuts).
  rewrite Hsplit in Hcuts. simpl in Hcuts.
  exists wb, cuts. split; [exact Hc1|]. split; [reflexivity|].
  split; [exact Hsplit|].
  rewrite Hcuts, calls_after_child, Hc1, <- !app_assoc. reflexivity.
Qed.

(** X16. [webui.py] checks the upload first, then the binary, then the
    model; each failed check is answered with its message and nothing is
    done: no temporary directory, no child. *)
Theorem webui_guards_touch_nothing (ext : Externals)
    (audio_file language : option str) (make_srt : bool) (w : World) :
  (audio_file = None \/ audio_file = Some [] ->
   Webui.transcribe ext audio_file language make_srt w
   = (Ok (py "Aucun fichier audio fourni."), w))
  /\ (forall f, audio_file = Some f -> f <> [] ->
      is_path (env w) (Webui.WHISPER_BIN ext) = false ->
      Webui.transcribe ext audio_file language make_srt w
      = (Ok (py "Binaire introuvable : " ++ Webui.WHISPER_BIN ext), w))
  /\ (forall f, audio_file = Some f -> f <> [] ->
      is_path (env w) (Webui.WHISPER_BIN ext) = true ->
      is_path (env w) (Webui.MODEL_PATH ext) = false ->
      Webui.transcribe ext audio_file language make_srt w
      = (Ok (py "Modèle introuvable : " ++ Webui.MODEL_PATH ext), w)).
Proof.
  split; [|split].
  - intros [-> | ->]; reflexivity.
  - intros f -> Hf Hbin. destruct f as [|c f]; [contradiction|].
    unfold Webui.transcribe, mbind, M_bind, bind, path_exists.
    rewrite Hbin. reflexivity.
  - intros f -> Hf Hbin Hmodel. destruct f as [|c f]; [contradiction|].
    unfold Webui.transcribe, mbind, M_bind, bind, path_exists.
    rewrite Hbin. cbn [negb]. rewrite Hmodel. reflexivity.
Qed.

(** X17. Past its checks, [transcribe] of [webui.py] runs the engine
    once and answers: the text file when the engine exits with zero and
    wrote one, a fixed message when it wrote none, the engine's stderr (or
    stdout when stderr is empty) when it exits with another status, and
    the exception when the engine cannot be started.  Whatever the
    outcome, the temporary directory and every file below it are gone
    afterwards, a requested SRT file included. *)
Theorem webui_transcribe_answers_and_cleans_up (ext : Externals)
    (audio_file : str) (language : option str) (make_srt : bool)
    (w : World) :
  let tmpdir := fst (mkdtemp ext (env w)) in
  let base := tmpdir // py "out" in
  let cmd := Webui.whisper_cmd ext audio_file base language make_srt in
  let child := spawn ext cmd (snd (mkdtemp ext (env w))) in
  let after := Webui.transcribe ext (Some audio_file) language make_srt w in
  audio_file <> [] ->
  is_path (env w) (Webui.WHISPER_BIN ext) = true ->
  is_path (env w) (Webui.MODEL_PATH ext) = true ->
  fst after
  = webui_answer (fst child) (snd child) (Pathlib.with_suffix base (py ".txt"))
  /\ calls (snd after) = calls w ++ [cmd]
  /\ (tmpdir ∉ dirs (env (snd after)))
  /\ (forall p,
        is_prefix (tmpdir ++ py "/") p = true ->
        files (env (snd after)) !! p = None).
Proof.
  intros tmpdir base cmd child after Hne Hbin Hmodel.
  assert (Hafter : after
            = Webui.with_temporary_directory ext
                (Webui.transcribe_in ext audio_file language make_srt) w).
  { unfold after, Webui.transcribe. destruct audio_file; [contradiction|].
    unfold mbind, M_bind, bind, path_exists. rewrite Hbin. cbn [negb].
    rewrite Hmodel. reflexivity. }
  rewrite Hafter. unfold Webui.with_temporary_directory.
  destruct (mkdtemp ext (env w)) as [t e1] eqn:Hmk.
  simpl in tmpdir, child. subst tmpdir.
  fold base. 
  pose proof (calls_webui_transcribe_in ext audio_file language make_srt t
                (with_env w e1)) as Hcalls.
  fold base cmd in Hcalls.
  assert (Hres : fst (Webui.transcribe_in ext audio_file language make_srt t
                        (with_env w e1))
                 = webui_answer (fst child) (snd child)
                     (Pathlib.with_suffix base (py ".txt"))).
  { unfold Webui.transcribe_in. fold base cmd.
    unfold mbind, M_bind, bind, Subprocess.run, child. simpl.
    destruct (spawn ext cmd e1) as [[e|rc out err] e2]; simpl;
      [reflexivity|].
    destruct (rc =? 0); simpl; [|reflexivity].
    unfold path_exists, read_text, ret. simpl.
    destruct (is_path e2 _) eqn:Hp; simpl.
    - destruct (files e2 !! _); reflexivity.
    - rewrite (not_is_path_file _ _ Hp). reflexivity. }
  destruct (Webui.transcribe_in ext audio_file language make_srt t
              (with_env w e1)) as [r w2].
  simpl in *. split; [exact Hres|]. split; [exact Hcalls|]. split.
  - intros Hin. apply elem_of_filter in Hin as [[Hneq _] _]. contradiction.
  - intros p Hp. apply map_lookup_filter_None. right.
    intros c _ Hfalse. simpl in Hfalse. congruence.
Qed.

(** ** The body of the document *)

Section Body.

Context (ext : Externals).

Lemma fold_multi_cell_ops width (lines : list str) pdf :
  Fpdf.ops
    (fold_left (fun pdf line => Fpdf.emit (Fpdf.MultiCell width 6 line) pdf)
       lines pdf)
  = Fpdf.ops pdf ++ map (fun line => Fpdf.MultiCell width 6 line) lines.
Proof.
  revert pdf. induction lines as [|l ls IH]; intros pdf; simpl.
  - rewrite app_nil_r. reflexivity.
  - rewrite IH. simpl. rewrite <- app_assoc. reflexivity.
Qed.

Lemma layout_paragraphs width paragraphs pdf :
  Fpdf.ops (Deluxe.layout ext width paragraphs pdf)
  = Fpdf.ops pdf ++ flat_map (paragraph_ops ext width) paragraphs.
Proof.
  revert pdf. induction paragraphs as [|p ps IH]; intros pdf; simpl.
  - rewrite app_nil_r. reflexivity.
  - unfold paragraph_ops at 1. destruct (negb (truthy (strip p))).
    + rewrite IH. simpl. rewrite <- app_assoc. reflexivity.
    + rewrite IH. simpl. rewrite fold_multi_cell_ops, <- !app_assoc.
      reflexivity.
Qed.

Lemma geometry_after_fonts regular bold mono logo_ops :
  let pdf :=
    fold_left (fun d o => Fpdf.emit o d) logo_ops
      (with_fonts regular bold mono) in
  Fpdf.w pdf = Fpdf.w Fpdf.new
  /\ Fpdf.l_margin pdf = 15%Q /\ Fpdf.r_margin pdf = 15%Q.
Proof.
  intros pdf.
  assert (H : Fpdf.w pdf = Fpdf.w (with_fonts regular bold mono)
              /\ Fpdf.l_margin pdf
                 = Fpdf.l_margin (with_fonts regular bold mono)
              /\ Fpdf.r_margin pdf
                 = Fpdf.r_margin (with_fonts regular bold mono)).
  { unfold pdf. generalize (with_fonts regular bold mono).
    induction logo_ops as [|o os IH]; intros d; simpl; [auto|].
    destruct (IH (Fpdf.emit o d)) as (-> & -> & ->). auto. }
  destruct H as (-> & -> & ->).
  destruct regular, bold, mono; repeat split; reflexivity.
Qed.

End Body.

(** X15. The document [make_pdf_from_text] writes has, after the page,
    the optional logo, the title and the two font choices, exactly this
    body: for each line of the text in order, a break of 4 when it is
    blank, and otherwise one cell per wrapped line of the stripped line
    followed by a break of 2.  The cells are as wide as the page less the
    two margins of 15, which is between 180 and 181, so the fallback width
    of 100 is never used. *)
Theorem pdf_body_follows_the_paragraphs (ext : Externals)
    (text run_dir pdf_path : str) (w w' : World) :
  let logo := ROOT ext // py "logo.png" in
  let width := (Fpdf.w Fpdf.new - 15 - 15)%Q in
  Deluxe.make_pdf_from_text ext text run_dir w = (Ok pdf_path, w') ->
  exists pdf title_font body_font,
    files (env w') !! pdf_path = Some (pdf_bytes ext pdf)
    /\ Fpdf.ops pdf
       = [Fpdf.AddPage]
         ++ (if is_path (env w) logo
             then [Fpdf.Image logo 15 15 30; Fpdf.Ln 30] else [])
         ++ [Fpdf.SetFont title_font (py "B") 14;
             Fpdf.Cell 0 10 (py "Transcription Whisper");
             Fpdf.Ln 5;
             Fpdf.SetFont body_font (py "") 11]
         ++ flat_map (paragraph_ops ext width) (split_on 10%N text)
    /\ (180 < width < 181)%Q.
Proof.
  intros logo width H. unfold Deluxe.make_pdf_from_text in H.
  fold logo in H.
  do 3 rewrite (bind_ok _ _ _ _ _ (try_add_font_eq ext _ _ _ _ w)) in H.
  set (font_dir := ROOT ext // py "fonts") in H.
  set (regular :=
         ttf_loads ext (font_dir // py "Roboto-Regular.ttf") (env w)) in H.
  set (bold := ttf_loads ext (font_dir // py "Roboto-Bold.ttf") (env w)) in H.
  set (mono :=
         ttf_loads ext (font_dir // py "RobotoMono-Regular.ttf") (env w))
    in H.
  change (if mono then _ else _) with (with_fonts regular bold mono) in H.
  rewrite (bind_ok (path_exists logo) _ w _ w eq_refl) in H.
  set (logo_ops :=
         if is_path (env w) logo
         then [Fpdf.Image logo 15 15 30; Fpdf.Ln 30] else []).
  set (pdf0 := fold_left (fun d o => Fpdf.emit o d) logo_ops
                 (with_fonts regular bold mono)).
  apply bind_ok_inv in H as (pdf1 & w1 & Hlogo & H).
  assert (Hstep : pdf1 = pdf0 /\ w1 = w).
  { unfold pdf0, logo_ops. destruct (is_path (env w) logo).
    - apply bind_ok_inv in Hlogo as (pdf2 & w2 & Himg & Hret).
      injection Hret as <- <-. unfold Deluxe.image in Himg.
      destruct (image_loads _ _ _); [|discriminate].
      injection Himg as <- <-. auto.
    - injection Hlogo as <- <-. auto. }
  destruct Hstep as [-> ->].
  rewrite (bind_ok _ _ _ _ _ (set_font_or_helvetica_eq _ _ _ w)) in H.
  rewrite (bind_ok _ _ _ _ _ (set_font_or_helvetica_eq _ _ _ w)) in H.
  destruct (known_after_fonts regular bold mono logo_ops) as (_ & _ & Hops).
  destruct (geometry_after_fonts regular bold mono logo_ops)
    as (Hw & Hl & Hr).
  fold pdf0 in Hops, Hw, Hl, Hr.
  cbn [Fpdf.w Fpdf.l_margin Fpdf.r_margin Fpdf.emit] in H.
  rewrite Hw, Hl, Hr in H. fold width in H.
  assert (Hwidth : (180 < width < 181)%Q)
    by (split; vm_compute; reflexivity).
  assert (Hpos : Qle_bool width 0 = false) by (vm_compute; reflexivity).
  rewrite Hpos in H.
  apply bind_ok_inv in H as ([] & w2 & Hout & H).
  injection H as <- <-. unfold Deluxe.output in Hout.
  destruct (writable _ _ _); [|discriminate].
  injection Hout as <-.
  eexists. do 2 eexists. split; [apply lookup_insert_eq|].
  split; [|exact Hwidth].
  rewrite layout_paragraphs. cbn [Fpdf.ops Fpdf.emit]. rewrite Hops.
  fold logo_ops. simpl. rewrite <- !app_assoc. reflexivity.
Qed.

(** ** The estimate *)



(** ** The further properties at work on the small world *)

(** X2 at work: two instants one second apart. *)
Lemma run_id_tells_seconds_apart_witness :
  strftime_run_id (Fixture.at_time 5 100)
  = strftime_run_id (Fixture.at_time 6 0)
  <-> Spec.same_second (Fixture.at_time 5 100) (Fixture.at_time 6 0).
Proof.
  apply run_id_tells_seconds_apart; vm_compute; repeat split; lia.
Defined.

(** X4 at work: two different uploads beside the same URL. *)
Lemma upload_is_ignored_when_url_given_witness :
  Deluxe.transcribe Fixture.short Fixture.talk Fixture.video None false false
    false None Fixture.w_start
  = Deluxe.transcribe Fixture.short Fixture.song Fixture.video None false
      false false None Fixture.w_start.
Proof.
  apply upload_is_ignored_when_url_given. vm_compute. reflexivity.
Defined.

(** X5 at work: a URL the downloader refuses. *)
Lemma failed_download_starts_no_child_witness :
  fst (Deluxe.transcribe Fixture.short None Fixture.video None false false
         true (Some [py "old"]) Fixture.w_start)
  = Ok (Deluxe.failed
          (py "Erreur pendant le traitement : "
           ++ py "Unsupported URL: https://example.org/v")
          (Some [py "old"]))
  /\ calls (snd (Deluxe.transcribe Fixture.short None Fixture.video None
                   false false true (Some [py "old"]) Fixture.w_start))
     = calls Fixture.w_start.
Proof.
  destruct (failed_download_starts_no_child Fixture.short None Fixture.video
              None false false true (Some [py "old"]) Fixture.w_start _
              (LibraryError (py "Unsupported URL: https://example.org/v"))
              ltac:(vm_compute; reflexivity) ltac:(vm_compute; reflexivity)
              ltac:(vm_compute; reflexivity)
              (paired _ _ ltac:(vm_compute; reflexivity)))
    as [Heq Hcalls].
  rewrite Heq. split; [vm_compute; reflexivity | exact Hcalls].
Defined.

(** X6 at work: an upload [ffmpeg] cannot read. *)
Lemma failed_extraction_stops_the_run_witness :
  exists w',
    Deluxe.run_whisper Fixture.no_extraction (py "/in/talk.mp3") None false
      false (py "20240102_030405") true Fixture.w_start
    = (Raise (CalledProcessError
                (extract_cmd (py "/in/talk.mp3")
                   (Deluxe.OUTPUT_DIR Fixture.no_extraction
                    // py "20240102_030405")) 1), w')
    /\ calls w'
       = calls Fixture.w_start
         ++ [extract_cmd (py "/in/talk.mp3")
               (Deluxe.OUTPUT_DIR Fixture.no_extraction
                // py "20240102_030405")].
Proof.
  destruct (failed_extraction_stops_the_run Fixture.no_extraction
              (py "/in/talk.mp3") None false false (py "20240102_030405")
              true Fixture.w_start _ 1 [] (py "Invalid data found") _
              (paired _ _ ltac:(vm_compute; reflexivity))
              (paired _ _ ltac:(vm_compute; reflexivity))
              ltac:(lia))
    as (w' & Heq & Hcalls & _).
  exists w'. split; [exact Heq | exact Hcalls].
Defined.

(** X7 at work: two and a half hours whose second cut fails. *)
Lemma failed_cut_fails_the_split_witness :
  fst (Deluxe.split_long_audio Fixture.breaks_on_second_cut Fixture.audio_5
         Fixture.run_dir_5 7200 Fixture.w_start)
  = Raise (CalledProcessError
             (Spec.cut_of Fixture.audio_5 Fixture.run_dir_5 7200 1) 1).
Proof.
  destruct (failed_cut_fails_the_split Fixture.breaks_on_second_cut
              Fixture.audio_5 Fixture.run_dir_5 7200 Fixture.w_start _
              Fixture.nine_thousand 1 1
              (paired _ _ ltac:(vm_compute; reflexivity)))
    as (w2 & Heq & _).
  - vm_compute. intros [H | H]; apply H; reflexivity.
  - lia.
  - vm_compute. lia.
  - intros i e Hi. assert (i = 0%nat) as -> by lia. reflexivity.
  - intros e. do 3 eexists. reflexivity.
  - lia.
  - rewrite Heq. reflexivity.
Defined.

(** X8 at work: the same audio under a threshold of zero. *)
Lemma threshold_must_be_positive_witness :
  fst (Deluxe.split_long_audio Fixture.two_chunks Fixture.audio_5
         Fixture.run_dir_5 0 Fixture.w_start)
  = Raise ZeroDivisionError.
Proof.
  destruct (threshold_must_be_positive Fixture.two_chunks Fixture.audio_5
              Fixture.run_dir_5 0 Fixture.w_start _ Fixture.nine_thousand
              (paired _ _ ltac:(vm_compute; reflexivity))
              ltac:(vm_compute; reflexivity))
    as [Hzero _].
  rewrite (Hzero eq_refl). reflexivity.
Defined.

(** X9 at work: the long upload is probed twice before it is cut. *)
Lemma duration_is_probed_twice_witness :
  exists cuts,
    calls (snd (Deluxe.prepare_chunks Fixture.two_chunks (py "/in/talk.mp3")
                  Fixture.run_dir_5 true Fixture.w_start))
    = calls Fixture.w_start
      ++ [extract_cmd (py "/in/talk.mp3") Fixture.run_dir_5;
          Deluxe.ffprobe_cmd (Fixture.run_dir_5 // py "audio.wav");
          Deluxe.ffprobe_cmd (Fixture.run_dir_5 // py "audio.wav")]
      ++ cuts.
Proof.
  destruct (duration_is_probed_twice Fixture.two_chunks (py "/in/talk.mp3")
              Fixture.run_dir_5 true Fixture.w_start _ Fixture.nine_thousand
              Fixture.two_paths (paired _ _ ltac:(vm_compute; reflexivity)))
    as (w1 & cuts & _ & _ & _ & Hcalls).
  exists cuts. exact Hcalls.
Defined.

(** X11 at work: two chunks, the second without a text file. *)
Lemma text_files_follow_the_texts_witness :
  exists r,
    fst (Deluxe.run_whisper Fixture.two_chunks (py "/in/talk.mp3")
           (Some (py "fr")) true false (py "20240102_030405") true
           Fixture.w_start)
    = Ok r
    /\ Deluxe.res_txt_files r
       = present_txt_files
           (Deluxe.OUTPUT_DIR Fixture.two_chunks // py "20240102_030405") 0
           (Spec.text_artifacts Fixture.two_chunks
              (Deluxe.OUTPUT_DIR Fixture.two_chunks // py "20240102_030405")
              (Some (py "fr")) true false 0 Fixture.two_paths
              (env (snd (Deluxe.prepare_chunks Fixture.two_chunks
                           (py "/in/talk.mp3")
                           (Deluxe.OUTPUT_DIR Fixture.two_chunks
                            // py "20240102_030405") true
                           Fixture.w_start)))).
Proof.
  eexists. split.
  - vm_compute. reflexivity.
  - eapply (text_files_follow_the_texts Fixture.two_chunks
              (py "/in/talk.mp3") (Some (py "fr")) true false
              (py "20240102_030405") true Fixture.w_start).
    + apply paired. vm_compute. reflexivity.
    + apply paired. vm_compute. reflexivity.
Defined.

(** X12 at work: a short upload rendered to a document. *)
Lemma successful_run_returns_witness :
  exists out,
    fst (Deluxe.transcribe_run Fixture.short (py "Fichier upload: talk.mp3")
           (py "/in/talk.mp3") (Some (py "fr")) false false true None
           (py "20240102_030405") Fixture.w_start)
    = Ok out
    /\ Deluxe.out_pdf_file out
       = Some (Deluxe.OUTPUT_DIR Fixture.short // py "20240102_030405"
               // py "transcript.pdf").
Proof.
  eexists. split.
  - vm_compute. reflexivity.
  - eapply (successful_run_returns Fixture.short
              (py "Fichier upload: talk.mp3") (py "/in/talk.mp3")
              (Some (py "fr")) false false true None (py "20240102_030405")
              Fixture.w_start).
    apply paired. vm_compute. reflexivity.
Defined.

(** X15 at work: one paragraph, no logo. *)
Lemma pdf_body_follows_the_paragraphs_witness :
  exists pdf title_font body_font,
    Fpdf.ops pdf
    = [Fpdf.AddPage] ++ []
      ++ [Fpdf.SetFont title_font (py "B") 14;
          Fpdf.Cell 0 10 (py "Transcription Whisper");
          Fpdf.Ln 5;
          Fpdf.SetFont body_font (py "") 11]
      ++ flat_map
           (paragraph_ops Fixture.short (Fpdf.w Fpdf.new - 15 - 15)%Q)
           (split_on 10%N (py "bonjour")).
Proof.
  destruct (pdf_body_follows_the_paragraphs Fixture.short (py "bonjour")
              Fixture.run_dir_5 _ Fixture.w_start _
              (paired _ _ ltac:(vm_compute; reflexivity)))
    as (pdf & title_font & body_font & _ & Hops & _).
  exists pdf, title_font, body_font. exact Hops.
Defined.

(** X17 at work: the first interface on the short upload. *)
Lemma webui_transcribe_answers_and_cleans_up_witness :
  fst (Webui.transcribe Fixture.short Fixture.talk (Some (py "fr")) true
         Fixture.w_start)
  = Ok (py "bonjour")
  /\ (py "/tmp/tmp0"
      ∉ dirs (env (snd (Webui.transcribe Fixture.short Fixture.talk
                          (Some (py "fr")) true Fixture.w_start)))).
Proof.
  destruct (webui_transcribe_answers_and_cleans_up Fixture.short
              (py "/in/talk.mp3") (Some (py "fr")) true Fixture.w_start
              ltac:(vm_compute; discriminate)
              ltac:(vm_compute; reflexivity) ltac:(vm_compute; reflexivity))
    as (Hres & _ & Hdir & _).
  split; [|exact Hdir].
  etransitivity; [exact Hres|]. vm_compute. reflexivity.
Defined.
